(** * Cryptobot: the NFT buy-and-relist loop of [testnet.py] and [troubleshoot.py]

    A shallow embedding of the two scripts of the repository.  Both scripts
    run the same perpetual cycle

      fetch (cache-checked, paginated) -> score -> select -> buy -> relist -> sleep

    and differ in details: [testnet.py] pages by offset, filters by traits and
    lets exceptions propagate; [troubleshoot.py] pages by cursor, guards the
    empty frame, wraps the buy and the relist in [try/except] and exits with
    status 1 on an unexpected error.

    Conventions of the embedding.
    - Every call that leaves the process (clock, RPC node, HTTP, sleep) is
      answered by an oracle of the [World]; the oracle sees the number of
      calls made so far and the request.  Each call is recorded, with its
      answer, in the [trace] of the [State].
    - A Python exception is a value of [exn]; a computation returns a
      [Result]: a value, a raised exception, or [Diverge] when a [while True]
      loop did not finish within the bound given to it.
    - A Python [int] is a [Z].  A [float] held in a DataFrame column is an
      exact rational ([Qc]) or NaN ([None]): products, differences and
      quotients of floats are the exact ones, the rounding of binary64 is
      not modelled.  The float computed from an [int] balance, the spending
      limit of [execute_buy], rounds the [int] to the nearest double exactly
      as CPython does ([float_of_int]).  A [decimal.Decimal] is kept apart
      from a float ([Number]): Python refuses to multiply the two.
    - A [pandas.DataFrame] is either the frame built from an empty list (no
      columns at all) or a frame with the listing columns and its rows. *)

From stdpp Require Import gmap strings list.
From Stdlib Require Import ZArith QArith Qcanon.

Open Scope Z_scope.

(** ** Exceptions and results *)

(** [Exception msg] stands for any instance of Python's [Exception] class
    ([str(e) = msg]); [KeyboardInterrupt] and [SystemExit] derive from
    [BaseException] only and so escape [except Exception]. *)
Inductive exn : Type :=
| Exception (msg : string)
| KeyboardInterrupt
| SystemExit (code : Z).

Inductive Result (A : Type) : Type :=
| Val (a : A)
| Exc (e : exn)
| Diverge.
Arguments Val {A} a.
Arguments Exc {A} e.
Arguments Diverge {A}.

Definition KeyError (key : string) : exn := Exception ("KeyError: " +:+ key).
Definition IndexError : exn := Exception "IndexError: list index out of range".
Definition JSONDecodeError : exn := Exception "JSONDecodeError".

(** ** Numbers *)

(** A float of a DataFrame column, in exact arithmetic; [None] is NaN, which
    is also what pandas stores for a Python [None] in a numeric column. *)
Definition float : Type := option Qc.

Definition fmul (x y : float) : float :=
  match x, y with Some a, Some b => Some (a * b)%Qc | _, _ => None end.
Definition fsub (x y : float) : float :=
  match x, y with Some a, Some b => Some (a - b)%Qc | _, _ => None end.
(** [x > y] on floats: every comparison with NaN is false. *)
Definition fgt (x y : float) : bool :=
  match x, y with
  | Some a, Some b => match (a ?= b)%Qc with Gt => true | _ => false end
  | _, _ => false
  end.

Definition Z2Qc (n : Z) : Qc := Q2Qc (inject_Z n).

(** [float(n)] for a Python int: the nearest double, ties to even.  Exact
    below [2^53]; above, the 53 leading bits are kept and the rest rounded.
    (CPython raises OverflowError from [2^1024] on; balances and prices are
    256-bit quantities, far below.) *)
Definition float_of_int (n : Z) : Z :=
  let a := Z.abs n in
  if a <? 2 ^ 53 then n
  else
    let e := Z.log2 a - 52 in
    let q := a / 2 ^ e in
    let r := a mod 2 ^ e in
    let half := 2 ^ (e - 1) in
    let q' := if r <? half then q
              else if half <? r then q + 1
              else if Z.even q then q else q + 1 in
    Z.sgn n * (q' * 2 ^ e).

(** A balance in ETH as the scripts hold it: a Python [int], a [float] or a
    [decimal.Decimal]. *)
Inductive Number : Type :=
| NInt (n : Z)
| NFloat (x : float)
| NDecimal (d : Qc).

(** [Web3.fromWei(number, 'ether')] of the web3 library, for the balance the
    node returned (a uint256, inside the range the library accepts): the int
    [0] for [0], otherwise the [decimal.Decimal] [number / 10^18] (exact: the
    library divides with 999 digits). *)
Definition from_wei (number : Z) : Number :=
  if number =? 0 then NInt 0 else NDecimal (Z2Qc number / Z2Qc (10 ^ 18))%Qc.

Definition TypeError_mul : exn :=
  Exception "TypeError: unsupported operand type(s) for *: 'decimal.Decimal' and 'float'".

(** [x * y] for a float [y]: an int is converted to a float first, a Decimal
    raises TypeError. *)
Definition mul_float (x : Number) (y : Qc) : Result float :=
  match x with
  | NInt n => Val (Some (Z2Qc (float_of_int n) * y)%Qc)
  | NFloat f => Val (fmul f (Some y))
  | NDecimal _ => Exc TypeError_mul
  end.

(** [int > float] in Python compares the exact values. *)
Definition int_gt_float (n : Z) (x : Qc) : bool :=
  match (Z2Qc n ?= x)%Qc with Gt => true | _ => false end.

Definition PROFIT_THRESHOLD : Qc := Q2Qc (1 # 5).
Definition SPENDING_LIMIT_PERCENTAGE : Qc := Q2Qc (1 # 4).
(** [timedelta(minutes=10)], in microseconds like every timestamp here. *)
Definition CACHE_EXPIRATION : Z := 600000000.
Definition RATE_LIMIT_DELAY : Z := 1.

(** ** DataFrames *)

(** [NoColumns] is [pd.DataFrame([])]: no rows and no columns, so every
    column access raises KeyError.  [Frame rows] has the columns of its row
    type; boolean-mask selection keeps them even when no row is left. *)
Inductive DataFrame (R : Type) : Type :=
| NoColumns
| Frame (rows : list R).
Arguments NoColumns {R}.
Arguments Frame {R} rows.

(** [pd.DataFrame(records)] *)
Definition pd_DataFrame {R} (records : list R) : DataFrame R :=
  match records with [] => NoColumns | _ => Frame records end.

(** [df[col]] as far as it can fail: the rows when the column exists. *)
Definition getitem {R} (df : DataFrame R) (col : string) : Result (list R) :=
  match df with
  | NoColumns => Exc (KeyError col)
  | Frame rows => Val rows
  end.

Definition df_rows {R} (df : DataFrame R) : list R :=
  match df with NoColumns => [] | Frame rows => rows end.
(** [len(df)] and [df.empty] *)
Definition df_len {R} (df : DataFrame R) : nat := length (df_rows df).
Definition df_empty {R} (df : DataFrame R) : bool :=
  match df_rows df with [] => true | _ => false end.

(** ** Marketplace and chain data *)

Record Asset : Type := {
  asset_name : option string;                 (* key 'name', may be missing *)
  asset_token_id : string;
  asset_collection_name : string;
  asset_contract_address : string;
  asset_traits : list (string * string);      (* trait_type, value *)
  (* key 'sell_orders': missing, or the orders with their 'current_price'
     (wei, when the key is there and not empty) *)
  asset_sell_orders : option (list (option Z))
}.

Record Json : Type := {
  json_assets : option (list Asset);          (* key 'assets' *)
  json_next : option string                   (* key 'next' *)
}.

Record Response : Type := {
  status_code : Z;
  json : option Json;                         (* [None]: the body is not JSON *)
  text : string
}.

Inductive Param : Type :=
| PStr (s : string)
| PInt (n : Z)
| PFloat (x : float).

(** A transaction dict: its values are addresses or integers. *)
Inductive TxVal : Type :=
| VAddr (a : option string)   (* an environment lookup, [None] when unset *)
| VInt (n : Z).

Record Payload : Type := {
  payload_token_id : string;
  payload_token_address : string;
  start_amount : float;
  expiration_time : Z
}.

Record PostResponse : Type := {
  post_status_code : Z;
  post_json : option (gmap string string);    (* the created order record *)
  post_text : string
}.

(** What [relist_nft] returns: the order record, the response text, or None. *)
Inductive RelistResult : Type :=
| RJson (order : gmap string string)
| RText (body : string)
| RNone.

(** ** Log records and the trace of external calls *)

Inductive Level : Type := INFO | ERROR.

Inductive LogMsg : Type :=
| UsingCached
| WalletBalance (balance : Number) (limit : float)
| ApiCallFailed (status : Z)
| FetchedNew
| PriceExceeds (price : float)
| ExecutedBuy (token_id tx_hash : string)
| UpdatedBalance (balance : Number)
| FailedTransaction (e : string)
| Relisted (token_id : string) (price : float) (contract : string)
| FailedRelist (token_id : string) (price : float) (contract : string)
               (status : Z) (body : string)
| RelistError (e : string)
| StartingMonitoring
| Retrieved (n : nat)
| FoundWithTraits (n : nat)
| Identified (n : nat)
| Purchased (token_id : string) (price : float)
| RelistedOk (r : RelistResult)
| RelistFailed (token_id : string)
| CycleComplete
| StoppedByUser
| UnexpectedError (e : string).

Inductive Event : Type :=
| EvNow (t : Z)
| EvGetBalance (r : Result Z)
| EvGet (url : string) (params : gmap string Param) (r : Result Response)
| EvSleep (secs : Z) (r : Result unit)
| EvNonce (r : Result Z)
| EvEstimateGas (tx : gmap string TxVal) (r : Result Z)
| EvSign (tx : gmap string TxVal) (r : Result unit)
| EvSend (tx : gmap string TxVal) (r : Result string)
| EvTime (t : Z)
| EvPost (url : string) (payload : Payload) (r : Result PostResponse)
| EvLog (level : Level) (msg : LogMsg).

(** ** The world outside the process *)

(** Each oracle answers the call numbered [n] (calls are counted from the
    start of the process).  [to_wei] is the unit conversion
    [Web3.toWei(_, 'ether')] of the web3 library: local arithmetic, taken as
    given, that depends on its argument only. *)
Record World : Type := {
  environ : gmap string string;
  is_address : string -> bool;
  datetime_now : nat -> Z;
  time_time : nat -> Z;
  time_sleep : nat -> Z -> Result unit;
  eth_get_balance : nat -> Result Z;
  eth_getTransactionCount : nat -> Result Z;
  eth_estimateGas : nat -> gmap string TxVal -> Result Z;
  sign_transaction : nat -> gmap string TxVal -> Result unit;
  send_raw_transaction : nat -> gmap string TxVal -> Result string;
  to_wei : float -> Result Z;
  requests_get : nat -> string -> gmap string Param -> Result Response;
  requests_post : nat -> string -> Payload -> Result PostResponse
}.

(** The global dict [CACHE] with its two keys; a key that was never
    assigned is [None].  [R] is the row type of the cached frame. *)
Record Cache (R : Type) : Type := {
  trending_nfts : option (DataFrame R);
  last_fetched : option Z
}.
Arguments trending_nfts {R} c.
Arguments last_fetched {R} c.
Arguments Build_Cache {R} _ _.

Record State (R : Type) : Type := {
  tick : nat;                 (* external calls made so far *)
  trace : list Event;         (* the calls and log records, oldest first *)
  CACHE : Cache R
}.
Arguments tick {R} s.
Arguments trace {R} s.
Arguments CACHE {R} s.
Arguments Build_State {R} _ _ _.

Definition empty_cache {R} : Cache R :=
  {| trending_nfts := None; last_fetched := None |}.
(** The state of a freshly started process: [CACHE = {}]. *)
Definition init {R} : State R :=
  {| tick := 0%nat; trace := []; CACHE := empty_cache |}.

(** ** The monad of the scripts: state and exceptions *)

Definition M (R A : Type) : Type := State R -> Result A * State R.

Definition ret {R A} (a : A) : M R A := fun s => (Val a, s).
Definition raise {R A} (e : exn) : M R A := fun s => (Exc e, s).
Definition diverge {R A} : M R A := fun s => (Diverge, s).
Definition bind {R A B} (m : M R A) (k : A -> M R B) : M R B :=
  fun s => match m s with
           | (Val a, s') => k a s'
           | (Exc e, s') => (Exc e, s')
           | (Diverge, s') => (Diverge, s')
           end.
(** A pure computation that may raise. *)
Definition lift {R A} (r : Result A) : M R A := fun s => (r, s).

Declare Scope py_scope.
Delimit Scope py_scope with py.
Notation "x <- m ;; k" := (bind m (fun x => k))
  (at level 100, m at next level, right associativity) : py_scope.
Notation "m ;; k" := (bind m (fun _ => k))
  (at level 100, right associativity) : py_scope.
Open Scope py_scope.

(** [try: m  except Exception as e: h e] *)
Definition try_except {R A} (m : M R A) (h : string -> M R A) : M R A :=
  fun s => match m s with
           | (Exc (Exception msg), s') => h msg s'
           | r => r
           end.
(** [try: m  except KeyboardInterrupt: h] *)
Definition try_except_interrupt {R A} (m : M R A) (h : M R A) : M R A :=
  fun s => match m s with
           | (Exc KeyboardInterrupt, s') => h s'
           | r => r
           end.

Definition emit {R} (e : Event) : M R unit :=
  fun s => (Val tt, {| tick := tick s; trace := trace s ++ [e]; CACHE := CACHE s |}).
Definition logging {R} (level : Level) (msg : LogMsg) : M R unit :=
  emit (EvLog level msg).

(** An external call: ask the oracle at the current count, record the call
    with its answer, count it, and return or raise what the oracle said. *)
Definition call {R A} (oracle : nat -> Result A) (ev : Result A -> Event) : M R A :=
  fun s => let r := oracle (tick s) in
           (r, {| tick := S (tick s); trace := trace s ++ [ev r]; CACHE := CACHE s |}).
(** A clock read cannot fail. *)
Definition clock {R} (oracle : nat -> Z) (ev : Z -> Event) : M R Z :=
  fun s => let t := oracle (tick s) in
           (Val t, {| tick := S (tick s); trace := trace s ++ [ev t]; CACHE := CACHE s |}).

Definition get_cache {R} : M R (Cache R) := fun s => (Val (CACHE s), s).
Definition set_cache {R} (c : Cache R) : M R unit :=
  fun s => (Val tt, {| tick := tick s; trace := trace s; CACHE := c |}).

(** [for x in xs: ys.append(f x)], where [f] may raise. *)
Fixpoint mapM {A B} (f : A -> Result B) (xs : list A) : Result (list B) :=
  match xs with
  | [] => Val []
  | x :: xs' =>
      match f x with
      | Val y => match mapM f xs' with
                 | Val ys => Val (y :: ys)
                 | Exc e => Exc e
                 | Diverge => Diverge
                 end
      | Exc e => Exc e
      | Diverge => Diverge
      end
  end.

(** A dict comprehension: later pairs overwrite earlier ones. *)
Definition dict_of_pairs (kvs : list (string * string)) : gmap string string :=
  foldl (fun m kv => <[kv.1 := kv.2]> m) ∅ kvs.

(** Truthiness of an optional string ([None] and the empty string are falsy). *)
Definition truthy (o : option string) : bool :=
  match o with Some s => negb (String.eqb s "") | None => false end.

(** [asset.get('sell_orders', [{}])[0].get('current_price', None)] *)
Definition current_price (a : Asset) : Result (option Z) :=
  match asset_sell_orders a with
  | None => Val None
  | Some [] => Exc IndexError
  | Some (o :: _) => Val o
  end.

(** [float(floor_price) / 1e18 if floor_price else None]: a missing price
    and a price of [0] are both falsy and give [None]. *)
Definition wei_to_eth (p : option Z) : float :=
  match p with
  | Some n => if n =? 0 then None else Some (Z2Qc n / Z2Qc (10 ^ 18))%Qc
  | None => None
  end.

(** [balance / 10**18]: the balance in ETH, from the balance in wei. *)
Definition eth_of_wei (balance : Z) : float := Some (Z2Qc balance / Z2Qc (10 ^ 18))%Qc.

Definition EXCEEDS : string := "Exceeds spending limit".

(** The condition of the cache check together with the frame it serves:
    ['trending_nfts' in CACHE and (current_time - CACHE['last_fetched'] <
    CACHE_EXPIRATION)]. *)
Definition cache_valid {R} (c : Cache R) (current_time : Z) : Result (option (DataFrame R)) :=
  match trending_nfts c with
  | None => Val None
  | Some df =>
      match last_fetched c with
      | None => Exc (KeyError "last_fetched")
      | Some t0 => Val (if current_time - t0 <? CACHE_EXPIRATION then Some df else None)
      end
  end.

Definition from_json (j : option Json) : Result Json :=
  match j with Some d => Val d | None => Exc JSONDecodeError end.

Definition GWEI_50 : Z := 50 * 10 ^ 9.
Definition ORDERS_URL : string := "https://testnets-api.opensea.io/v2/orders/post".


(** * testnet.py *)
Module Testnet.

Record Row : Type := {
  name : string;
  token_id : string;
  collection : string;
  contract_address : string;
  floor_price : float;
  traits : gmap string string
}.

(** A row after [calculate_profitability] added its two columns. *)
Record Scored : Type := {
  listing : Row;
  potential_profit : float;
  profit_margin : float
}.

Definition ASSETS_URL : string := "https://api.opensea.io/api/v1/assets".

(** The record appended to [nft_list] for one asset. *)
Definition row_of_asset (asset : Asset) : Result Row :=
  let traits := dict_of_pairs (asset_traits asset) in
  match current_price asset with
  | Val floor_price =>
      match asset_name asset with
      | Some name =>
          Val {| name := name;
                 token_id := asset_token_id asset;
                 collection := asset_collection_name asset;
                 contract_address := asset_contract_address asset;
                 floor_price := wei_to_eth floor_price;
                 traits := traits |}
      | None => Exc (KeyError "name")
      end
  | Exc e => Exc e
  | Diverge => Diverge
  end.

(** [params['offset'] += 50] *)
Definition next_offset (params : gmap string Param) : Result (gmap string Param) :=
  match params !! "offset" with
  | Some (PInt n) => Val (<["offset" := PInt (n + 50)]> params)
  | Some _ => Exc (Exception "TypeError")
  | None => Exc (KeyError "offset")
  end.

(** [all(item in traits.items() for item in desired_traits.items())] *)
Definition has_traits (desired_traits traits : gmap string string) : bool :=
  forallb (fun item => bool_decide (traits !! item.1 = Some item.2))
          (map_to_list desired_traits).

(** [df[df['traits'].apply(...)]].  On a frame with columns and no rows the
    [apply] gives an empty Series of dtype object, which pandas does not take
    for a boolean mask but for a list of column labels: the result has no
    columns. *)
Definition filter_by_traits (df : DataFrame Row) (desired_traits : gmap string string)
  : Result (DataFrame Row) :=
  match getitem df "traits" with
  | Val [] => Val NoColumns
  | Val rows => Val (Frame (List.filter (fun r => has_traits desired_traits (traits r)) rows))
  | Exc e => Exc e
  | Diverge => Diverge
  end.

(** One row of [calculate_profitability]: the two new columns, computed
    over the exact rationals (the code rounds each product and difference to
    binary64). *)
Definition score (r : Row) : Scored :=
  let potential_profit := fmul (floor_price r) (Some (1 + PROFIT_THRESHOLD)%Qc) in
  {| listing := r;
     potential_profit := potential_profit;
     profit_margin := fsub potential_profit (floor_price r) |}.

Definition calculate_profitability (df : DataFrame Row) : Result (DataFrame Scored) :=
  match getitem df "floor_price" with
  | Val rows => Val (Frame (score <$> rows))
  | Exc e => Exc e
  | Diverge => Diverge
  end.

(** [profitable_nfts[profitable_nfts['profit_margin'] > 0]] *)
Definition positive_margin (df : DataFrame Scored) : Result (DataFrame Scored) :=
  match getitem df "profit_margin" with
  | Val rows => Val (Frame (List.filter (fun r => fgt (profit_margin r) (Some 0%Qc)) rows))
  | Exc e => Exc e
  | Diverge => Diverge
  end.

Section Program.
Variable w : World.
Local Abbreviation M := (M Row).

Definition wallet_address : option string :=
  environ w !! "0x745461ae3ee10F26e314735b6AF8ee41cD313E2d".

(** [Web3.fromWei(balance, 'ether')]: not the float that the docstring
    announces. *)
Definition get_wallet_balance : M Number :=
  balance <- call (eth_get_balance w) EvGetBalance ;;
  ret (from_wei balance).

(** The [while True] of [fetch_trending_nfts], at most [fuel] page requests. *)
Fixpoint fetch_pages (fuel : nat) (params : gmap string Param) (nft_list : list Row)
  : M (list Row) :=
  match fuel with
  | O => diverge
  | S fuel' =>
      response <- call (fun n => requests_get w n ASSETS_URL params)
                       (EvGet ASSETS_URL params) ;;
      if status_code response =? 200 then
        data <- lift (from_json (json response)) ;;
        assets <- lift (match json_assets data with
                        | Some a => Val a
                        | None => Exc (KeyError "assets")
                        end) ;;
        match assets with
        | [] => ret nft_list
        | _ =>
            rows <- lift (mapM row_of_asset assets) ;;
            params' <- lift (next_offset params) ;;
            call (fun n => time_sleep w n RATE_LIMIT_DELAY) (EvSleep RATE_LIMIT_DELAY) ;;
            fetch_pages fuel' params' (nft_list ++ rows)
        end
      else
        logging ERROR (ApiCallFailed (status_code response)) ;;
        ret nft_list
  end.

Definition fetch_trending_nfts (fuel : nat) : M (DataFrame Row) :=
  current_time <- clock (datetime_now w) EvNow ;;
  cache <- get_cache ;;
  cached <- lift (cache_valid cache current_time) ;;
  match cached with
  | Some df =>
      logging INFO UsingCached ;;
      ret df
  | None =>
      wallet_balance <- get_wallet_balance ;;
      max_spending_limit <- lift (mul_float wallet_balance SPENDING_LIMIT_PERCENTAGE) ;;
      logging INFO (WalletBalance wallet_balance max_spending_limit) ;;
      let params : gmap string Param :=
        <["order_direction" := PStr "desc"]>
        (<["offset" := PInt 0]>
        (<["limit" := PInt 50]>
        (<["price_min" := PInt 0]>
        (<["price_max" := PFloat max_spending_limit]> ∅)))) in
      nft_list <- fetch_pages fuel params [] ;;
      let nft_data := pd_DataFrame nft_list in
      set_cache {| trending_nfts := Some nft_data; last_fetched := Some current_time |} ;;
      logging INFO FetchedNew ;;
      ret nft_data
  end.

Definition execute_buy (token_id : string) (price : float) : M string :=
  wallet_balance <- call (eth_get_balance w) EvGetBalance ;;
  price_in_wei <- lift (to_wei w price) ;;
  let spending_limit := (Z2Qc (float_of_int wallet_balance) * SPENDING_LIMIT_PERCENTAGE)%Qc in
  if int_gt_float price_in_wei spending_limit then
    logging ERROR (PriceExceeds price) ;;
    ret EXCEEDS
  else
    nonce <- call (eth_getTransactionCount w) EvNonce ;;
    let transaction : gmap string TxVal :=
      <["from" := VAddr wallet_address]>
      (<["value" := VInt price_in_wei]>
      (<["gas" := VInt 200000]>
      (<["gasPrice" := VInt GWEI_50]>
      (<["nonce" := VInt nonce]> ∅)))) in
    call (fun n => sign_transaction w n transaction) (EvSign transaction) ;;
    tx_hash <- call (fun n => send_raw_transaction w n transaction) (EvSend transaction) ;;
    logging INFO (ExecutedBuy token_id tx_hash) ;;
    balance <- get_wallet_balance ;;
    logging INFO (UpdatedBalance balance) ;;
    ret tx_hash.

Definition relist_nft (token_id : string) (resale_price : float) (contract_address : string)
  : M RelistResult :=
  now <- clock (time_time w) EvTime ;;
  let sell_order_payload :=
    {| payload_token_id := token_id;
       payload_token_address := contract_address;
       start_amount := resale_price;
       expiration_time := now + 86400 |} in
  response <- call (fun n => requests_post w n ORDERS_URL sell_order_payload)
                   (EvPost ORDERS_URL sell_order_payload) ;;
  if post_status_code response =? 200 then
    logging INFO (Relisted token_id resale_price contract_address) ;;
    match post_json response with
    | Some order => ret (RJson order)
    | None => raise JSONDecodeError
    end
  else
    logging ERROR (FailedRelist token_id resale_price contract_address
                     (post_status_code response) (post_text response)) ;;
    ret (RText (post_text response)).

(** One pass through the body of the [while True] of [monitor_and_trade]. *)
Definition cycle (fuel : nat) : M unit :=
  logging INFO StartingMonitoring ;;
  trending_nfts <- fetch_trending_nfts fuel ;;
  (* [trending_nfts is not None] always holds: the fetch returns a frame *)
  logging INFO (Retrieved (df_len trending_nfts)) ;;
  let desired_traits : gmap string string := {["Background" := "Gold"]} in
  filtered_nfts <- lift (filter_by_traits trending_nfts desired_traits) ;;
  logging INFO (FoundWithTraits (df_len filtered_nfts)) ;;
  profitable_nfts <- lift (calculate_profitability filtered_nfts) ;;
  profitable_nfts <- lift (positive_margin profitable_nfts) ;;
  logging INFO (Identified (df_len profitable_nfts)) ;;
  match df_rows profitable_nfts with
  | [] => ret tt
  | top_nft :: _ =>
      tx_hash <- execute_buy (token_id (listing top_nft)) (floor_price (listing top_nft)) ;;
      if negb (String.eqb tx_hash EXCEEDS) then
        logging INFO (Purchased (token_id (listing top_nft)) (floor_price (listing top_nft))) ;;
        let resale_price := potential_profit top_nft in
        relist_nft (token_id (listing top_nft)) resale_price
                   (contract_address (listing top_nft)) ;;
        ret tt
      else ret tt
  end ;;
  logging INFO CycleComplete ;;
  call (fun n => time_sleep w n 60) (EvSleep 60) ;;
  ret tt.

Fixpoint loop (cycles fuel : nat) : M unit :=
  match cycles with
  | O => diverge
  | S cycles' => cycle fuel ;; loop cycles' fuel
  end.

(** [Val tt]: the function returned (stopped by the user); [Exc e]: [e]
    left the function and ends the process; [Diverge]: still looping after
    [cycles] cycles. *)
Definition monitor_and_trade (cycles fuel : nat) : M unit :=
  try_except_interrupt (loop cycles fuel) (logging INFO StoppedByUser).

End Program.
End Testnet.

(** * troubleshoot.py *)
Module Troubleshoot.

Record Row : Type := {
  name : string;
  token_id : string;
  collection : string;
  contract_address : string;
  floor_price : float
}.

Record Scored : Type := {
  listing : Row;
  potential_profit : float;
  profit_margin : float
}.

Definition ASSETS_URL : string := "https://testnets-api.opensea.io/v2/assets".

Definition row_of_asset (asset : Asset) : Result Row :=
  match current_price asset with
  | Val floor_price =>
      Val {| name := default "Unknown" (asset_name asset);
             token_id := asset_token_id asset;
             collection := asset_collection_name asset;
             contract_address := asset_contract_address asset;
             floor_price := wei_to_eth floor_price |}
  | Exc e => Exc e
  | Diverge => Diverge
  end.

(** One row of [calculate_profitability]: the two new columns, computed
    over the exact rationals (the code rounds each product and difference to
    binary64). *)
Definition score (r : Row) : Scored :=
  let potential_profit := fmul (floor_price r) (Some (1 + PROFIT_THRESHOLD)%Qc) in
  {| listing := r;
     potential_profit := potential_profit;
     profit_margin := fsub potential_profit (floor_price r) |}.

Definition calculate_profitability (df : DataFrame Row) : Result (DataFrame Scored) :=
  match getitem df "floor_price" with
  | Val rows => Val (Frame (score <$> rows))
  | Exc e => Exc e
  | Diverge => Diverge
  end.

(** [profitable_nfts[profitable_nfts['profit_margin'] > 0]] *)
Definition positive_margin (df : DataFrame Scored) : Result (DataFrame Scored) :=
  match getitem df "profit_margin" with
  | Val rows => Val (Frame (List.filter (fun r => fgt (profit_margin r) (Some 0%Qc)) rows))
  | Exc e => Exc e
  | Diverge => Diverge
  end.

(** Truthiness of what [relist_nft] returned. *)
Definition relist_truthy (r : RelistResult) : bool :=
  match r with
  | RJson order => negb (bool_decide (order = ∅))
  | RText body => negb (String.eqb body "")
  | RNone => false
  end.

Section Program.
Variable w : World.
Local Abbreviation M := (M Row).

Definition OPENSEA_API_KEY : option string := environ w !! "OPENSEA_API_KEY".
Definition INFURA_PROJECT_ID : option string := environ w !! "INFURA_PROJECT_ID".
Definition wallet_address : option string := environ w !! "WALLET_ADDRESS".
Definition private_key : option string := environ w !! "PRIVATE_KEY".

(** The checks at module level: a missing or malformed credential raises
    ValueError before anything else runs. *)
Definition startup : Result unit :=
  if negb (truthy wallet_address) || negb (from_option (is_address w) false wallet_address)
  then Exc (Exception "Invalid or missing WALLET_ADDRESS environment variable.")
  else if negb (truthy OPENSEA_API_KEY) || negb (truthy INFURA_PROJECT_ID)
          || negb (truthy private_key)
  then Exc (Exception "Missing one or more required environment variables: OPENSEA_API_KEY, INFURA_PROJECT_ID, PRIVATE_KEY")
  else Val tt.

(** [balance / 10**18] *)
Definition get_wallet_balance : M float :=
  balance <- call (eth_get_balance w) EvGetBalance ;;
  ret (eth_of_wei balance).

(** The [while True] of [fetch_trending_nfts], at most [fuel] page requests. *)
Fixpoint fetch_pages (fuel : nat) (params : gmap string Param) (cursor : option string)
    (nft_list : list Row) : M (list Row) :=
  match fuel with
  | O => diverge
  | S fuel' =>
      let params := match cursor with
                    | Some c => if truthy cursor then <["cursor" := PStr c]> params else params
                    | None => params
                    end in
      response <- call (fun n => requests_get w n ASSETS_URL params)
                       (EvGet ASSETS_URL params) ;;
      if status_code response =? 200 then
        data <- lift (from_json (json response)) ;;
        let assets := default [] (json_assets data) in
        match assets with
        | [] => ret nft_list
        | _ =>
            rows <- lift (mapM row_of_asset assets) ;;
            let cursor := json_next data in
            if truthy cursor
            then fetch_pages fuel' params cursor (nft_list ++ rows)
            else ret (nft_list ++ rows)
        end
      else
        logging ERROR (ApiCallFailed (status_code response)) ;;
        ret nft_list
  end.

Definition fetch_trending_nfts (fuel : nat) : M (DataFrame Row) :=
  current_time <- clock (datetime_now w) EvNow ;;
  cache <- get_cache ;;
  cached <- lift (cache_valid cache current_time) ;;
  match cached with
  | Some df =>
      logging INFO UsingCached ;;
      ret df
  | None =>
      wallet_balance <- get_wallet_balance ;;
      let max_spending_limit := fmul wallet_balance (Some SPENDING_LIMIT_PERCENTAGE) in
      logging INFO (WalletBalance (NFloat wallet_balance) max_spending_limit) ;;
      let params : gmap string Param :=
        <["order_direction" := PStr "desc"]> (<["limit" := PInt 50]> ∅) in
      nft_list <- fetch_pages fuel params None [] ;;
      let nft_data := pd_DataFrame nft_list in
      set_cache {| trending_nfts := Some nft_data; last_fetched := Some current_time |} ;;
      logging INFO FetchedNew ;;
      ret nft_data
  end.

Definition execute_buy (token_id : string) (price : float) : M string :=
  try_except
    (wallet_balance <- call (eth_get_balance w) EvGetBalance ;;
     price_in_wei <- lift (to_wei w price) ;;
     let spending_limit :=
       (Z2Qc (float_of_int wallet_balance) * SPENDING_LIMIT_PERCENTAGE)%Qc in
     if int_gt_float price_in_wei spending_limit then
       logging ERROR (PriceExceeds price) ;;
       ret EXCEEDS
     else
       nonce <- call (eth_getTransactionCount w) EvNonce ;;
       let transaction : gmap string TxVal :=
         <["from" := VAddr wallet_address]>
         (<["value" := VInt price_in_wei]>
         (<["gas" := VInt 200000]>
         (<["gasPrice" := VInt GWEI_50]>
         (<["nonce" := VInt nonce]> ∅)))) in
       gas_estimate <- call (fun n => eth_estimateGas w n transaction)
                            (EvEstimateGas transaction) ;;
       let transaction := <["gas" := VInt gas_estimate]> transaction in
       call (fun n => sign_transaction w n transaction) (EvSign transaction) ;;
       tx_hash <- call (fun n => send_raw_transaction w n transaction)
                       (EvSend transaction) ;;
       logging INFO (ExecutedBuy token_id tx_hash) ;;
       balance <- get_wallet_balance ;;
       logging INFO (UpdatedBalance (NFloat balance)) ;;
       ret tx_hash)
    (fun e =>
       logging ERROR (FailedTransaction e) ;;
       ret e).

Definition relist_nft (token_id : string) (resale_price : float) (contract_address : string)
  : M RelistResult :=
  now <- clock (time_time w) EvTime ;;
  let sell_order_payload :=
    {| payload_token_id := token_id;
       payload_token_address := contract_address;
       start_amount := resale_price;
       expiration_time := now + 86400 |} in
  try_except
    (response <- call (fun n => requests_post w n ORDERS_URL sell_order_payload)
                      (EvPost ORDERS_URL sell_order_payload) ;;
     if post_status_code response =? 200 then
       logging INFO (Relisted token_id resale_price contract_address) ;;
       match post_json response with
       | Some order => ret (RJson order)
       | None => raise JSONDecodeError
       end
     else
       logging ERROR (FailedRelist token_id resale_price contract_address
                        (post_status_code response) (post_text response)) ;;
       ret (RText (post_text response)))
    (fun e =>
       logging ERROR (RelistError e) ;;
       ret RNone).

(** One pass through the body of the [while True] of [monitor_and_trade]. *)
Definition cycle (fuel : nat) : M unit :=
  logging INFO StartingMonitoring ;;
  trending_nfts <- fetch_trending_nfts fuel ;;
  (if negb (df_empty trending_nfts) then
     logging INFO (Retrieved (df_len trending_nfts)) ;;
     profitable_nfts <- lift (calculate_profitability trending_nfts) ;;
     profitable_nfts <- lift (positive_margin profitable_nfts) ;;
     logging INFO (Identified (df_len profitable_nfts)) ;;
     match df_rows profitable_nfts with
     | [] => ret tt
     | top_nft :: _ =>
         tx_hash <- execute_buy (token_id (listing top_nft))
                                (floor_price (listing top_nft)) ;;
         if negb (String.eqb tx_hash EXCEEDS) then
           logging INFO (Purchased (token_id (listing top_nft))
                                   (floor_price (listing top_nft))) ;;
           let resale_price := potential_profit top_nft in
           relist_response <- relist_nft (token_id (listing top_nft)) resale_price
                                         (contract_address (listing top_nft)) ;;
           if relist_truthy relist_response
           then logging INFO (RelistedOk relist_response)
           else logging ERROR (RelistFailed (token_id (listing top_nft)))
         else ret tt
     end
   else ret tt) ;;
  logging INFO CycleComplete ;;
  call (fun n => time_sleep w n 60) (EvSleep 60) ;;
  ret tt.

Fixpoint loop (cycles fuel : nat) : M unit :=
  match cycles with
  | O => diverge
  | S cycles' => cycle fuel ;; loop cycles' fuel
  end.

(** [Val tt]: the function returned (stopped by the user);
    [Exc (SystemExit c)]: the process exits with status [c];
    [Diverge]: still looping after [cycles] cycles. *)
Definition monitor_and_trade (cycles fuel : nat) : M unit :=
  try_except
    (try_except_interrupt (loop cycles fuel) (logging INFO StoppedByUser))
    (fun e =>
       logging ERROR (UnexpectedError e) ;;
       raise (SystemExit 1)).

(** The script from its first line: the credential checks, then the loop. *)
Definition main (cycles fuel : nat) : M unit :=
  lift startup ;;
  monitor_and_trade cycles fuel.

End Program.
End Troubleshoot.

(** * Reading a trace *)

Definition is_log (e : Event) : bool :=
  match e with EvLog _ _ => true | _ => false end.

(** The calls that left the process, without the log records. *)
Definition external (tr : list Event) : list Event :=
  List.filter (fun e => negb (is_log e)) tr.

(** The transactions handed to the signer or to the node. *)
Definition submitted (tr : list Event) : list (gmap string TxVal) :=
  flat_map (fun e => match e with
                     | EvSign tx _ | EvSend tx _ => [tx]
                     | _ => []
                     end) tr.

(** The sell orders posted to the marketplace. *)
Definition posted (tr : list Event) : list Payload :=
  flat_map (fun e => match e with EvPost _ payload _ => [payload] | _ => [] end) tr.

(** The listing requests sent to the marketplace. *)
Definition requested (tr : list Event) : list (gmap string Param) :=
  flat_map (fun e => match e with EvGet _ params _ => [params] | _ => [] end) tr.

Definition TX_FIELDS : gset string :=
  {[ "from"; "value"; "gas"; "gasPrice"; "nonce" ]}.

(** A transaction dict with exactly the five fields, and no recipient. *)
Definition well_formed_tx (tx : gmap string TxVal) : Prop :=
  dom tx = TX_FIELDS /\ tx !! "to" = None.

(** The answers of the node to the broadcasts. *)
Definition broadcasts (tr : list Event) : list (Result string) :=
  flat_map (fun e => match e with EvSend _ r => [r] | _ => [] end) tr.

(** The log records, without the calls. *)
Definition logged (tr : list Event) : list (Level * LogMsg) :=
  flat_map (fun e => match e with EvLog level msg => [(level, msg)] | _ => [] end) tr.

(** The rows that one page contributes to [nft_list]: those of a page
    answered with status 200 whose assets all convert. *)
Definition listed {R} (row_of_asset : Asset -> Result R) (response : Response) : list R :=
  if status_code response =? 200 then
    match json response with
    | Some data =>
        match mapM row_of_asset (default [] (json_assets data)) with
        | Val rows => rows
        | _ => []
        end
    | None => []
    end
  else [].

(** The rows of all pages received in a trace, in the order of the requests. *)
Definition accumulated {R} (row_of_asset : Asset -> Result R) (tr : list Event) : list R :=
  flat_map (fun e => match e with
                     | EvGet _ _ (Val response) => listed row_of_asset response
                     | _ => []
                     end) tr.

(** The statuses of the listing requests that were answered. *)
Definition statuses (tr : list Event) : list Z :=
  flat_map (fun e => match e with
                     | EvGet _ _ (Val response) => [status_code response]
                     | _ => []
                     end) tr.

(** A listing request answered with a status other than 200 ends the paging:
    only the error is logged after it, and the loop returns the rows collected
    before it. *)
Definition stops_at_failure {R} (row_of_asset : Asset -> Result R) (acc : list R)
    (evs : list Event) (r : Result (list R)) : Prop :=
  forall pre url p resp post,
    evs = pre ++ EvGet url p (Val resp) :: post ->
    status_code resp <> 200 ->
    post = [EvLog ERROR (ApiCallFailed (status_code resp))] /\
    r = Val (acc ++ accumulated row_of_asset pre).

(** The answers after which the paging loop stops asking.  testnet.py: a
    status other than 200, or a page whose list of assets is empty. *)
Definition final_page_testnet (response : Response) : Prop :=
  status_code response <> 200 \/
  exists data, json response = Some data /\ json_assets data = Some [].

(** troubleshoot.py: a status other than 200, a page with no assets (the key
    may be missing), or a page with no [next] token. *)
Definition final_page_troubleshoot (response : Response) : Prop :=
  status_code response <> 200 \/
  exists data, json response = Some data /\
               (default [] (json_assets data) = [] \/ truthy (json_next data) = false).

(** A page whose assets all become rows (a page not answered with status
    200, or whose body is not JSON, has none to convert). *)
Definition converts {R} (row_of_asset : Asset -> Result R) (response : Response) : Prop :=
  status_code response = 200 ->
  forall data, json response = Some data ->
               exists rows, mapM row_of_asset (default [] (json_assets data)) = Val rows.

(** A final page that converts ends the paging: nothing is requested after
    it, and the loop returns the rows collected up to and with it. *)
Definition stops_at_final {R} (row_of_asset : Asset -> Result R)
    (final : Response -> Prop) (acc : list R) (evs : list Event) (r : Result (list R))
  : Prop :=
  forall pre url p resp post,
    evs = pre ++ EvGet url p (Val resp) :: post ->
    final resp -> converts row_of_asset resp ->
    requested post = [] /\
    r = Val (acc ++ accumulated row_of_asset (pre ++ [EvGet url p (Val resp)])).

(** A listing request recorded with the answer that the marketplace of [w]
    gave to it. *)
Definition honest (w : World) (e : Event) : Prop :=
  match e with
  | EvGet url params r => exists n, r = requests_get w n url params
  | _ => True
  end.

(** A fetch that misses the cache, described by the events [evs] that follow
    the clock read: a returned frame is built from the rows of the pages
    received and is stored under the time read at the start; a listing
    request answered with a status other than 200 is the last one, and makes
    the fetch return the rows of the pages before it; once a balance that
    lets the fetch go on ([funded]) is read, the marketplace is asked; the
    balance is read first; as soon as a final page that converts is
    received, the fetch returns the rows of all pages received and stores
    them; and every page it works on is the answer of the marketplace to
    the request it sent. *)
Definition refetched {R} (row_of_asset : Asset -> Result R) (final : Response -> Prop)
    (funded : Z -> Prop) (w : World) (fuel : nat)
    (st s' : State R) (r : Result (DataFrame R)) : Prop :=
  let now := datetime_now w (tick st) in
  exists evs,
    trace s' = trace st ++ EvNow now :: evs /\
    (forall out, r = Val out ->
                 out = pd_DataFrame (accumulated row_of_asset evs) /\
                 CACHE s' = {| trending_nfts := Some out; last_fetched := Some now |}) /\
    (forall pre url p resp post,
        evs = pre ++ EvGet url p (Val resp) :: post ->
        status_code resp <> 200 ->
        requested post = [] /\
        r = Val (pd_DataFrame (accumulated row_of_asset pre))) /\
    (fuel <> O ->
     forall b, eth_get_balance w (S (tick st)) = Val b -> funded b -> requested evs <> []) /\
    (exists rest, evs = EvGetBalance (eth_get_balance w (S (tick st))) :: rest) /\
    (forall pre url p resp post,
        evs = pre ++ EvGet url p (Val resp) :: post ->
        final resp -> converts row_of_asset resp ->
        let out := pd_DataFrame (accumulated row_of_asset (pre ++ [EvGet url p (Val resp)])) in
        requested post = [] /\
        r = Val out /\
        CACHE s' = {| trending_nfts := Some out; last_fetched := Some now |}) /\
    Forall (honest w) evs.

(** A fetch served from the cache: the clock is read, the hit is logged, and
    nothing else happens. *)
Definition served {R} (w : World) (st : State R) (df : DataFrame R)
  : Result (DataFrame R) * State R :=
  (Val df,
   {| tick := S (tick st);
      trace := trace st ++ [EvNow (datetime_now w (tick st)); EvLog INFO UsingCached];
      CACHE := CACHE st |}).

(** The contract of the cache check, for a fetch function [fetch]:
    - a call within the TTL of the stored entry is served from the cache;
    - a call at or after the expiry of the entry, or on an empty cache,
      fetches again;
    - of two calls, the second within the TTL of the first and on the cache
      the first left, at most one fetches: either the first was served from
      the cache, or it fetched and the second is served what it returned. *)
Definition cache_law {R} (row_of_asset : Asset -> Result R) (final : Response -> Prop)
    (funded : Z -> Prop) (w : World) (fetch : nat -> M R (DataFrame R)) : Prop :=
  (forall fuel st df t0,
      trending_nfts (CACHE st) = Some df ->
      last_fetched (CACHE st) = Some t0 ->
      datetime_now w (tick st) - t0 < CACHE_EXPIRATION ->
      fetch fuel st = served w st df) /\
  (forall fuel st df t0 r s',
      trending_nfts (CACHE st) = Some df ->
      last_fetched (CACHE st) = Some t0 ->
      CACHE_EXPIRATION <= datetime_now w (tick st) - t0 ->
      fetch fuel st = (r, s') ->
      refetched row_of_asset final funded w fuel st s' r) /\
  (forall fuel st r s',
      CACHE st = empty_cache ->
      fetch fuel st = (r, s') ->
      refetched row_of_asset final funded w fuel st s' r) /\
  (forall fuel fuel' st s1 s2 out,
      fetch fuel st = (Val out, s1) ->
      CACHE s2 = CACHE s1 ->
      datetime_now w (tick s2) - datetime_now w (tick st) < CACHE_EXPIRATION ->
      fetch fuel st = served w st out \/
      (refetched row_of_asset final funded w fuel st s1 (Val out) /\
       fetch fuel' s2 = served w s2 out)).

(** What a fetch of testnet.py does on a cache miss with a balance other
    than 0: [Web3.fromWei] returns a Decimal, the product with the float
    [SPENDING_LIMIT_PERCENTAGE] raises TypeError, and the fetch ends there:
    nothing is logged, requested or stored. *)
Definition crashed {R} (w : World) (st : State R) (b : Z)
  : Result (DataFrame R) * State R :=
  (Exc TypeError_mul,
   {| tick := S (S (tick st));
      trace := trace st ++ [EvNow (datetime_now w (tick st)); EvGetBalance (Val b)];
      CACHE := CACHE st |}).

(** The three ways a cache-checked fetch can go: served from the cache,
    fetched again, or stopped by an error of the cache check itself. *)
Definition fetch_outcome {R} (row_of_asset : Asset -> Result R) (final : Response -> Prop)
    (funded : Z -> Prop) (w : World) (fuel : nat)
    (st s' : State R) (r : Result (DataFrame R)) : Prop :=
  let now := datetime_now w (tick st) in
  (exists df, cache_valid (CACHE st) now = Val (Some df) /\ (r, s') = served w st df) \/
  (cache_valid (CACHE st) now = Val None /\
   refetched row_of_asset final funded w fuel st s' r) \/
  (exists e, r = Exc e /\ trace s' = trace st ++ [EvNow now] /\ CACHE s' = CACHE st).

(** A fetch during which the marketplace answered a listing request with a
    status other than 200; [pre] are the events of the fetch before it. *)
Definition failed_page {R} (st s' : State R) (pre : list Event) : Prop :=
  exists url p resp post,
    trace s' = trace st ++ pre ++ EvGet url p (Val resp) :: post /\
    status_code resp <> 200.

(** After a fetch with a failed page: the rows collected before the failure
    are returned, and they are in the cache under the time read at the start
    of the call, so every call within the TTL of that time, on that cache, is
    served this frame without any request. *)
Definition failure_cached {R} (row_of_asset : Asset -> Result R) (w : World)
    (fetch : nat -> M R (DataFrame R)) : Prop :=
  forall fuel st r s' pre,
    fetch fuel st = (r, s') ->
    failed_page st s' pre ->
    let now := datetime_now w (tick st) in
    let df := pd_DataFrame (accumulated row_of_asset pre) in
    r = Val df /\
    CACHE s' = {| trending_nfts := Some df; last_fetched := Some now |} /\
    forall fuel' s2,
      CACHE s2 = CACHE s' ->
      datetime_now w (tick s2) - now < CACHE_EXPIRATION ->
      fetch fuel' s2 = served w s2 df /\
      requested (trace (fetch fuel' s2).2) = requested (trace s2).

(** A failed page ends the fetch: nothing is requested after it, the rows of
    the pages before it are returned, and when no page came before it the
    returned frame is the empty one. *)
Definition stops_and_returns {R} (row_of_asset : Asset -> Result R)
    (fetch : nat -> M R (DataFrame R)) : Prop :=
  forall fuel st r s' pre url p resp post,
    fetch fuel st = (r, s') ->
    trace s' = trace st ++ pre ++ EvGet url p (Val resp) :: post ->
    status_code resp <> 200 ->
    requested post = [] /\
    r = Val (pd_DataFrame (accumulated row_of_asset pre)) /\
    (requested pre = [] -> r = Val NoColumns).

(** The state of a cycle once its first line is logged. *)
Definition started {R} (st : State R) : State R :=
  {| tick := tick st;
     trace := trace st ++ [EvLog INFO StartingMonitoring];
     CACHE := CACHE st |}.

(** The state of a cycle that went from the fetch straight to the cooldown. *)
Definition cooled_down {R} (w : World) (s : State R) : State R :=
  {| tick := S (tick s);
     trace := trace s ++ [EvLog INFO CycleComplete;
                          EvSleep 60 (time_sleep w (tick s) 60)];
     CACHE := CACHE s |}.

(** * Errors and cancellation *)

(** An answer that is a value or an ordinary exception: the call was neither
    interrupted (KeyboardInterrupt, SystemExit) nor left hanging. *)
Definition quiet {A} (r : Result A) : Prop :=
  match r with
  | Val _ | Exc (Exception _) => True
  | Exc KeyboardInterrupt | Exc (SystemExit _) | Diverge => False
  end.

(** A world in which no call of the buy and relist steps is interrupted or
    hangs, and every sleep runs to its end.  Any of these calls may still
    fail with an ordinary exception. *)
Definition calm (w : World) : Prop :=
  (forall n, quiet (eth_get_balance w n)) /\
  (forall n, quiet (eth_getTransactionCount w n)) /\
  (forall n tx, quiet (eth_estimateGas w n tx)) /\
  (forall n tx, quiet (sign_transaction w n tx)) /\
  (forall n tx, quiet (send_raw_transaction w n tx)) /\
  (forall price, quiet (to_wei w price)) /\
  (forall n url payload, quiet (requests_post w n url payload)) /\
  (forall n secs, time_sleep w n secs = Val tt).

(** The exception an external call answered with, if any. *)
Definition raised (e : Event) : option exn :=
  match e with
  | EvGetBalance (Exc x) | EvGet _ _ (Exc x) | EvSleep _ (Exc x) | EvNonce (Exc x)
  | EvEstimateGas _ (Exc x) | EvSign _ (Exc x) | EvSend _ (Exc x)
  | EvPost _ _ (Exc x) => Some x
  | _ => None
  end.

(** A cancellation request reached the process: some call was interrupted. *)
Definition cancelled (tr : list Event) : bool :=
  existsb (fun e => match raised e with
                    | Some KeyboardInterrupt | Some (SystemExit _) => true
                    | _ => false
                    end) tr.

(** C2 as the specification states it, for troubleshoot.py from its first
    line: the process ends only on a configuration error at startup or on a
    cancellation request. *)
Definition only_startup_or_cancel_ends : Prop :=
  forall (w : World) (cycles fuel : nat) r s',
    Troubleshoot.main w cycles fuel init = (r, s') ->
    r = Diverge \/ Troubleshoot.startup w <> Val tt \/ cancelled (trace s') = true.

(** Every exception of class Exception that a call in [evs] answered with
    is logged in [evs] as an error, by the handler of the buy or by the
    handler of the relist. *)
Definition errors_logged (evs : list Event) : Prop :=
  forall e msg,
    In e evs -> raised e = Some (Exception msg) ->
    In (EvLog ERROR (FailedTransaction msg)) evs \/ In (EvLog ERROR (RelistError msg)) evs.

(** A rejection by the spend guard ends the purchase: where it is logged,
    nothing was signed, sent or posted. *)
Definition rejection_ends (evs : list Event) : Prop :=
  forall price,
    In (EvLog ERROR (PriceExceeds price)) evs -> submitted evs = [] /\ posted evs = [].

(** A cycle that went on from the state [s1] its fetch left and contained
    what failed: it returned, after the events [evs] of the buy and the
    relist it logged the end of the cycle and slept its 60 seconds, and
    [evs] holds the error record of every exception a call raised. *)
Definition contained {R} (s1 : State R) (run : Result unit * State R) : Prop :=
  exists evs,
    run.1 = Val tt /\
    trace run.2 = trace s1 ++ evs ++ [EvLog INFO CycleComplete; EvSleep 60 (Val tt)] /\
    errors_logged evs /\
    rejection_ends evs.

(** * Further readings of a trace *)

(** The durations of the sleeps. *)
Definition sleeps (tr : list Event) : list Z :=
  flat_map (fun e => match e with EvSleep secs _ => [secs] | _ => [] end) tr.

(** The listing requests with their answers. *)
Definition exchanges (tr : list Event) : list (gmap string Param * Result Response) :=
  flat_map (fun e => match e with EvGet _ params r => [(params, r)] | _ => [] end) tr.

(** The transactions handed to the signer, with its answers. *)
Definition signings (tr : list Event) : list (gmap string TxVal * Result unit) :=
  flat_map (fun e => match e with EvSign tx r => [(tx, r)] | _ => [] end) tr.

(** The transactions handed to the node, with its answers. *)
Definition sendings (tr : list Event) : list (gmap string TxVal * Result string) :=
  flat_map (fun e => match e with EvSend tx r => [(tx, r)] | _ => [] end) tr.

(** The calls of a paced paging loop: a listing request, then a sleep of
    [RATE_LIMIT_DELAY] before the next one. *)
Fixpoint paced (calls : list Event) : bool :=
  match calls with
  | [] => true
  | EvGet _ _ _ :: rest =>
      match rest with
      | [] => true
      | EvSleep secs _ :: rest' => (secs =? RATE_LIMIT_DELAY) && paced rest'
      | _ => false
      end
  | _ => false
  end.

(** The [next] token of an answered page, if the body has one. *)
Definition next_of (r : Result Response) : option string :=
  match r with
  | Val response => match json response with
                    | Some data => json_next data
                    | None => None
                    end
  | _ => None
  end.

(** Cursor paging: every request is the base request, with the [next] token
    of the page before it as its cursor (none on the first request), and a
    request is followed by another one only if it was answered. *)
Fixpoint cursor_chain (base : gmap string Param) (prev : option string)
    (xs : list (gmap string Param * Result Response)) : Prop :=
  match xs with
  | [] => True
  | (params, r) :: rest =>
      params !! "cursor" = PStr <$> prev /\
      delete "cursor" params = base /\
      match rest with
      | [] => True
      | _ => truthy (next_of r) = true /\ cursor_chain base (next_of r) rest
      end
  end.

(** The request for page [k] of offset paging. *)
Definition page_request (params : gmap string Param) (offset : Z) (k : nat)
  : gmap string Param :=
  <["offset" := PInt (offset + 50 * Z.of_nat k)]> params.

(** [x > 0] for a float. *)
Definition positive (x : float) : bool := fgt x (Some 0%Qc).

(** The sell order that [relist_nft] posts. *)
Definition sell_order (token_id : string) (resale_price : float)
    (contract_address : string) (now : Z) : Payload :=
  {| payload_token_id := token_id;
     payload_token_address := contract_address;
     start_amount := resale_price;
     expiration_time := now + 86400 |}.

(** The transaction dict of a purchase. *)
Definition purchase_tx (from : option string) (value gas nonce : Z) : gmap string TxVal :=
  <["from" := VAddr from]>
  (<["value" := VInt value]>
  (<["gas" := VInt gas]>
  (<["gasPrice" := VInt GWEI_50]>
  (<["nonce" := VInt nonce]> ∅)))).

(** A transaction that passed the spend guard of a call made in state [st]:
    the balance [b] read by the call and the converted price [p] satisfy
    [4 p <= float(b)], hence [4 p <= b (1 + 2^-53)]; the value is [p], the
    nonce is the one the node gave, and the gas limit is [gas]. *)
Definition guarded_tx {R} (w : World) (from : option string) (price : float)
    (st : State R) (gas : Z -> Z -> Result Z) (tx : gmap string TxVal) : Prop :=
  exists b p n g,
    eth_get_balance w (tick st) = Val b /\
    to_wei w price = Val p /\
    4 * p <= float_of_int b /\
    (0 <= b -> 2 ^ 53 * (4 * p - b) <= b) /\
    eth_getTransactionCount w (S (tick st)) = Val n /\
    gas p n = Val g /\
    tx = purchase_tx from p g n.

(** A computation that leaves the cache as it finds it, however it ends. *)
Definition keeps_cache {R A} (m : M R A) : Prop :=
  forall st, CACHE (m st).2 = CACHE st.

(** The state in which a cycle calls [execute_buy]: the state [s] its fetch
    left, with the log lines [lines] written since. *)
Definition logged_on {R} (s : State R) (lines : list LogMsg) : State R :=
  {| tick := tick s;
     trace := trace s ++ (EvLog INFO <$> lines);
     CACHE := CACHE s |}.

(** The traits that testnet.py asks for. *)
Definition DESIRED_TRAITS : gmap string string := {["Background" := "Gold"]}.

(** The listings among which a cycle of testnet.py picks: the desired
    traits, and a positive floor price. *)
Definition candidates (rows : list Testnet.Row) : list Testnet.Row :=
  List.filter (fun r => positive (Testnet.floor_price r))
    (List.filter (fun r => Testnet.has_traits DESIRED_TRAITS (Testnet.traits r)) rows).

(** The calls of the paging loop: listing requests and sleeps. *)
Definition paging (tr : list Event) : list Event :=
  List.filter (fun e => match e with EvGet _ _ _ | EvSleep _ _ => true | _ => false end) tr.

(** The first listing request of testnet.py, for a spending limit in ETH. *)
Definition first_request (max_spending_limit : float) : gmap string Param :=
  <["order_direction" := PStr "desc"]>
  (<["offset" := PInt 0]>
  (<["limit" := PInt 50]>
  (<["price_min" := PInt 0]>
  (<["price_max" := PFloat max_spending_limit]> ∅)))).

(** The listing request of troubleshoot.py, before any cursor. *)
Definition base_request : gmap string Param :=
  <["order_direction" := PStr "desc"]> (<["limit" := PInt 50]> ∅).



(** The value of the last pair with key [k]. *)
Definition last_value (kvs : list (string * string)) (k : string) : option string :=
  snd <$> last (List.filter (fun kv => String.eqb kv.1 k) kvs).

(** [filter_by_traits] applied to the result of an earlier step. *)
Definition then_filter (r : Result (DataFrame Testnet.Row)) (desired : gmap string string)
  : Result (DataFrame Testnet.Row) :=
  match r with
  | Val df => Testnet.filter_by_traits df desired
  | Exc e => Exc e
  | Diverge => Diverge
  end.

(** The marks that the cycles of [monitor_and_trade] leave in a run: [true]
    for the log line that opens a cycle, [false] for a 60-second wait that
    returned. *)
Definition beat (e : Event) : list bool :=
  match e with
  | EvLog INFO StartingMonitoring => [true]
  | EvSleep secs (Val _) => if secs =? 60 then [false] else []
  | _ => []
  end.
Definition rhythm (tr : list Event) : list bool := flat_map beat tr.

(** [k] cycles, each one opened and then closed by its wait. *)
Fixpoint alternating (k : nat) : list bool :=
  match k with
  | O => []
  | S k' => true :: false :: alternating k'
  end.

(** A computation that only adds to the trace, and adds no mark. *)
Definition unmarked {R A} (m : M R A) : Prop :=
  forall st, exists tr, trace (m st).2 = trace st ++ tr /\ rhythm tr = [].

(** A computation that only adds to the trace, with the closing mark when it
    returns and no mark otherwise. *)
Definition closes_cycle {R A} (m : M R A) : Prop :=
  forall st, exists tr,
    trace (m st).2 = trace st ++ tr /\
    rhythm tr = match (m st).1 with Val _ => [false] | _ => [] end.

(** A run of [monitor_and_trade] over at most [cycles] cycles, from [st]:
    [k] complete cycles, then either a cycle that was opened and not closed,
    or (all [cycles] used) nothing; a run that returned wrote the line of a
    stop by the user last. *)
Definition in_step {R} (cycles : nat) (st : State R) (run : Result unit * State R) : Prop :=
  exists tr k,
    trace run.2 = trace st ++ tr /\
    (((k < cycles)%nat /\ rhythm tr = alternating k ++ [true]) \/
     (k = cycles /\ run.1 = Diverge /\ rhythm tr = alternating k)) /\
    (run.1 = Val tt -> exists tr', tr = tr' ++ [EvLog INFO StoppedByUser]).

(** Two trait requirements that ask the same value wherever both ask one. *)
Definition compatible (d1 d2 : gmap string string) : Prop :=
  forall k v1 v2, d1 !! k = Some v1 -> d2 !! k = Some v2 -> v1 = v2.

(** The events [evs] end the paging on a final page: the last listing
    request was answered, by the marketplace of [w], with a final page. *)
Definition ends_on (final : Response -> Prop) (w : World) (url : string)
    (evs : list Event) : Prop :=
  exists params response n,
    last (exchanges evs) = Some (params, Val response) /\
    requests_get w n url params = Val response /\
    final response.

(** A fetch that returned [df] either was served [df] from a valid cache
    entry, without a request, or ended its paging on a final page. *)
Definition stops_on {R} (final : Response -> Prop) (w : World) (url : string)
    (st s' : State R) (df : DataFrame R) : Prop :=
  exists evs,
    trace s' = trace st ++ evs /\
    ((cache_valid (CACHE st) (datetime_now w (tick st)) = Val (Some df) /\
      exchanges evs = []) \/
     ends_on final w url evs).


(** * Example inputs *)

Definition priced_row : Testnet.Row :=
  {| Testnet.name := "Ape #1"; Testnet.token_id := "1";
     Testnet.collection := "Apes"; Testnet.contract_address := "0xabc";
     Testnet.floor_price := Some 1%Qc; Testnet.traits := ∅ |}.
Definition priced_row' : Troubleshoot.Row :=
  {| Troubleshoot.name := "Ape #1"; Troubleshoot.token_id := "1";
     Troubleshoot.collection := "Apes"; Troubleshoot.contract_address := "0xabc";
     Troubleshoot.floor_price := Some 1%Qc |}.

(** A listing without an active sell order: no floor price. *)
Definition unlisted_row : Testnet.Row :=
  {| Testnet.name := "Ape #2"; Testnet.token_id := "2";
     Testnet.collection := "Apes"; Testnet.contract_address := "0xabc";
     Testnet.floor_price := None; Testnet.traits := ∅ |}.
Definition unlisted_row' : Troubleshoot.Row :=
  {| Troubleshoot.name := "Ape #2"; Troubleshoot.token_id := "2";
     Troubleshoot.collection := "Apes"; Troubleshoot.contract_address := "0xabc";
     Troubleshoot.floor_price := None |}.

Definition ENVIRON : gmap string string :=
  <["OPENSEA_API_KEY" := "key"]>
  (<["INFURA_PROJECT_ID" := "project"]>
  (<["WALLET_ADDRESS" := "0x745461ae3ee10F26e314735b6AF8ee41cD313E2d"]>
  (<["PRIVATE_KEY" := "secret"]> ∅))).

(** A world whose clock stands at [now], whose wallet holds [balance] wei,
    where every price converts to [wei], and where the marketplace and the
    node answer as given; everything else succeeds. *)
Definition scripted (now balance wei : Z)
    (get : nat -> gmap string Param -> Result Response)
    (send : Result string) (post : Result PostResponse) : World :=
  {| environ := ENVIRON;
     is_address := fun _ => true;
     datetime_now := fun _ => now;
     time_time := fun _ => 1700000000;
     time_sleep := fun _ _ => Val tt;
     eth_get_balance := fun _ => Val balance;
     eth_getTransactionCount := fun _ => Val 7;
     eth_estimateGas := fun _ _ => Val 21000;
     sign_transaction := fun _ _ => Val tt;
     send_raw_transaction := fun _ _ => send;
     to_wei := fun _ => Val wei;
     requests_get := fun n _ params => get n params;
     requests_post := fun _ _ _ => post |}.

Definition no_page : Response := {| status_code := 500; json := None; text := "error" |}.
Definition order_ok : PostResponse :=
  {| post_status_code := 200; post_json := Some {["order" := "created"]}; post_text := "" |}.

(** A wallet of [2^53 + 3] wei and a price of [2^51 + 1] wei: the price
    exceeds a quarter of the balance, [2^51 + 0.75]. *)
Definition rounding_world : World :=
  scripted 0 9007199254740995 2251799813685249 (fun _ _ => Val no_page)
           (Val "0xfeed") (Val order_ok).

(** The transaction built for a price of [value] wei, nonce 7 and the given
    gas limit. *)
Definition example_tx (from : option string) (value gas : Z) : gmap string TxVal :=
  <["from" := VAddr from]>
  (<["value" := VInt value]>
  (<["gas" := VInt gas]>
  (<["gasPrice" := VInt GWEI_50]>
  (<["nonce" := VInt 7]> ∅)))).

(** One listing, priced 1 ETH, with a golden background. *)
Definition gold_ape : Asset :=
  {| asset_name := Some "Ape #1";
     asset_token_id := "1";
     asset_collection_name := "Apes";
     asset_contract_address := "0xabc";
     asset_traits := [("Background", "Gold")];
     asset_sell_orders := Some [Some (10 ^ 18)] |}.

Definition one_listing : Response :=
  {| status_code := 200;
     json := Some {| json_assets := Some [gold_ape]; json_next := None |};
     text := "" |}.
Definition empty_page : Response :=
  {| status_code := 200;
     json := Some {| json_assets := Some []; json_next := None |};
     text := "" |}.

(** The marketplace holds one listing: the first page (offset 0, or no
    offset at all) carries it, every further page is empty. *)
Definition single_page (n : nat) (params : gmap string Param) : Result Response :=
  match params !! "offset" with
  | Some (PInt 0) | None => Val one_listing
  | Some _ => Val empty_page
  end.

(** Scenario A of the specification: balance 10 ETH, one listing at 1 ETH. *)
Definition scenario_A : World :=
  scripted 0 (10 * 10 ^ 18) (10 ^ 18) single_page (Val "0xfeed") (Val order_ok).

(** The same, but the node rejects the broadcast. *)
Definition rejected_broadcast : World :=
  scripted 0 (10 * 10 ^ 18) (10 ^ 18) single_page
           (Exc (Exception "insufficient funds for gas * price + value"))
           (Val order_ok).

(** An empty wallet, and a marketplace that answers the first page with
    status 500. *)
Definition failing_marketplace : World :=
  scripted 0 0 (10 ^ 18) (fun _ _ => Val no_page) (Val "0xfeed") (Val order_ok).

(** The connection to the marketplace breaks during the first page request. *)
Definition broken_connection : World :=
  scripted 0 (10 * 10 ^ 18) (10 ^ 18)
           (fun _ _ => Exc (Exception "ConnectionError")) (Val "0xfeed") (Val order_ok).

(** A process whose cache holds one listing, fetched at time 0. *)
Definition cached_at_0 : State Testnet.Row :=
  {| tick := 5%nat; trace := [];
     CACHE := {| trending_nfts := Some (Frame [priced_row]); last_fetched := Some 0 |} |}.
Definition cached_at_0' : State Troubleshoot.Row :=
  {| tick := 5%nat; trace := [];
     CACHE := {| trending_nfts := Some (Frame [priced_row']); last_fetched := Some 0 |} |}.

(** Scenario A one microsecond before, and exactly at, the expiry of an entry
    fetched at time 0. *)
Definition just_before_expiry : World :=
  scripted 599999999 (10 * 10 ^ 18) (10 ^ 18) single_page (Val "0xfeed") (Val order_ok).
Definition at_expiry : World :=
  scripted 600000000 (10 * 10 ^ 18) (10 ^ 18) single_page (Val "0xfeed") (Val order_ok).

(** An empty wallet, at the expiry of an entry fetched at time 0. *)
Definition empty_at_expiry : World :=
  scripted 600000000 0 (10 ^ 18) single_page (Val "0xfeed") (Val order_ok).

(** What a fetch records before its first listing request, with an empty
    wallet and the clock at 0. *)
Definition fetch_prelude : list Event :=
  [EvNow 0;
   EvGetBalance (Val 0);
   EvLog INFO (WalletBalance (NInt 0) (Some (Z2Qc 0 * SPENDING_LIMIT_PERCENTAGE)%Qc))].
Definition fetch_prelude' : list Event :=
  [EvNow 0;
   EvGetBalance (Val 0);
   EvLog INFO (WalletBalance (NFloat (eth_of_wei 0))
                 (fmul (eth_of_wei 0) (Some SPENDING_LIMIT_PERCENTAGE)))].

(** The row that the fetch builds for [gold_ape]. *)
Definition ape_row' : Troubleshoot.Row :=
  {| Troubleshoot.name := "Ape #1"; Troubleshoot.token_id := "1";
     Troubleshoot.collection := "Apes"; Troubleshoot.contract_address := "0xabc";
     Troubleshoot.floor_price := wei_to_eth (Some (10 ^ 18)) |}.

(** Scenario B of the specification: balance 10 ETH, a listing at 3 ETH. *)
Definition scenario_B : World :=
  scripted 0 (10 * 10 ^ 18) (3 * 10 ^ 18) single_page (Val "0xfeed") (Val order_ok).

(** The clock at the expiry of an entry fetched at time 0, and a marketplace
    that cannot be reached. *)
Definition broken_at_expiry : World :=
  scripted 600000000 0 (10 ^ 18) (fun _ _ => Exc (Exception "ConnectionError"))
           (Val "0xfeed") (Val order_ok).

(** The row that testnet.py builds for [gold_ape]. *)
Definition ape_row : Testnet.Row :=
  {| Testnet.name := "Ape #1"; Testnet.token_id := "1";
     Testnet.collection := "Apes"; Testnet.contract_address := "0xabc";
     Testnet.floor_price := wei_to_eth (Some (10 ^ 18));
     Testnet.traits := dict_of_pairs [("Background", "Gold")] |}.

(** A listing with two traits. *)
Definition laser_row : Testnet.Row :=
  {| Testnet.name := "Ape #2"; Testnet.token_id := "2";
     Testnet.collection := "Apes"; Testnet.contract_address := "0xabc";
     Testnet.floor_price := wei_to_eth (Some (10 ^ 18));
     Testnet.traits := dict_of_pairs [("Background", "Gold"); ("Eyes", "Laser")] |}.


(** An asset that states its background twice. *)
Definition repainted_ape : Asset :=
  {| asset_name := Some "Ape #4";
     asset_token_id := "4";
     asset_collection_name := "Apes";
     asset_contract_address := "0xabc";
     asset_traits := [("Background", "Gold"); ("Eyes", "Laser"); ("Background", "Blue")];
     asset_sell_orders := Some [Some (10 ^ 18)] |}.

(** A marketplace that has one more page, whatever is asked. *)
Definition another_page : Response :=
  {| status_code := 200;
     json := Some {| json_assets := Some [gold_ape]; json_next := Some "more" |};
     text := "" |}.
Definition endless_listing : World :=
  scripted 0 (10 * 10 ^ 18) (10 ^ 18) (fun _ _ => Val another_page)
           (Val "0xfeed") (Val order_ok).

(** Scenario A for testnet.py: the wallet is still empty when the fetch
    reads the balance (its second call), and holds 10 ETH from then on. *)
Definition funded_later : World :=
  {| environ := environ scenario_A;
     is_address := is_address scenario_A;
     datetime_now := datetime_now scenario_A;
     time_time := time_time scenario_A;
     time_sleep := time_sleep scenario_A;
     eth_get_balance := fun n => if (n <=? 1)%nat then Val 0 else Val (10 * 10 ^ 18);
     eth_getTransactionCount := eth_getTransactionCount scenario_A;
     eth_estimateGas := eth_estimateGas scenario_A;
     sign_transaction := sign_transaction scenario_A;
     send_raw_transaction := send_raw_transaction scenario_A;
     to_wei := to_wei scenario_A;
     requests_get := requests_get scenario_A;
     requests_post := requests_post scenario_A |}.

(** Scenario A, with the 60-second sleep of the cycle interrupted from the
    keyboard. *)
Definition interrupted_sleep : World :=
  {| environ := environ scenario_A;
     is_address := is_address scenario_A;
     datetime_now := datetime_now scenario_A;
     time_time := time_time scenario_A;
     time_sleep := fun _ secs => if secs =? 60 then Exc KeyboardInterrupt else Val tt;
     eth_get_balance := eth_get_balance scenario_A;
     eth_getTransactionCount := eth_getTransactionCount scenario_A;
     eth_estimateGas := eth_estimateGas scenario_A;
     sign_transaction := sign_transaction scenario_A;
     send_raw_transaction := send_raw_transaction scenario_A;
     to_wei := to_wei scenario_A;
     requests_get := requests_get scenario_A;
     requests_post := requests_post scenario_A |}.

(** * Properties *)

(** ** Scoring ([calculate_profitability]) *)

Lemma margin_is_threshold_share (f : Qc) :
  (f * (1 + PROFIT_THRESHOLD) - f = f * PROFIT_THRESHOLD)%Qc.
Proof. ring. Qed.

Lemma fgt_Some (x : float) : fgt x (Some 0%Qc) = true -> exists a, x = Some a.
Proof. destruct x as [a|]; [eauto | discriminate]. Qed.

(** C5. For every listing with a present floor price [f], at whatever
    position of the frame, the scorer returns a frame whose entry at that
    position carries [potential_profit = f * (1 + PROFIT_THRESHOLD)] and
    [profit_margin = potential_profit - f], which is [f * PROFIT_THRESHOLD]
    exactly (rational arithmetic).  Both scripts. *)
Theorem C5_profit_margin_exact :
  (forall (df : DataFrame Testnet.Row) (i : nat) (r : Testnet.Row) (f : Qc),
      df_rows df !! i = Some r ->
      Testnet.floor_price r = Some f ->
      exists out s,
        Testnet.calculate_profitability df = Val out /\
        df_rows out !! i = Some s /\
        Testnet.listing s = r /\
        Testnet.potential_profit s = Some (f * (1 + PROFIT_THRESHOLD))%Qc /\
        Testnet.profit_margin s = fsub (Testnet.potential_profit s) (Some f) /\
        Testnet.profit_margin s = Some (f * PROFIT_THRESHOLD)%Qc) /\
  (forall (df : DataFrame Troubleshoot.Row) (i : nat) (r : Troubleshoot.Row) (f : Qc),
      df_rows df !! i = Some r ->
      Troubleshoot.floor_price r = Some f ->
      exists out s,
        Troubleshoot.calculate_profitability df = Val out /\
        df_rows out !! i = Some s /\
        Troubleshoot.listing s = r /\
        Troubleshoot.potential_profit s = Some (f * (1 + PROFIT_THRESHOLD))%Qc /\
        Troubleshoot.profit_margin s = fsub (Troubleshoot.potential_profit s) (Some f) /\
        Troubleshoot.profit_margin s = Some (f * PROFIT_THRESHOLD)%Qc).
Proof.
  split; intros df i r f Hi Hf.
  - destruct df as [|rows]; [discriminate|]. simpl in Hi.
    exists (Frame (Testnet.score <$> rows)), (Testnet.score r).
    split; [reflexivity|]. split.
    { simpl. rewrite list_lookup_fmap, Hi. reflexivity. }
    unfold Testnet.score; simpl. rewrite Hf; simpl.
    repeat split. f_equal. apply margin_is_threshold_share.
  - destruct df as [|rows]; [discriminate|]. simpl in Hi.
    exists (Frame (Troubleshoot.score <$> rows)), (Troubleshoot.score r).
    split; [reflexivity|]. split.
    { simpl. rewrite list_lookup_fmap, Hi. reflexivity. }
    unfold Troubleshoot.score; simpl. rewrite Hf; simpl.
    repeat split. f_equal. apply margin_is_threshold_share.
Qed.

Lemma C5_witness :
  (exists out s,
      Testnet.calculate_profitability (Frame [priced_row]) = Val out /\
      df_rows out !! 0%nat = Some s /\
      Testnet.profit_margin s = Some (1 * PROFIT_THRESHOLD)%Qc) /\
  (exists out s,
      Troubleshoot.calculate_profitability (Frame [priced_row']) = Val out /\
      df_rows out !! 0%nat = Some s /\
      Troubleshoot.profit_margin s = Some (1 * PROFIT_THRESHOLD)%Qc).
Proof.
  split.
  - destruct (proj1 C5_profit_margin_exact (Frame [priced_row]) 0%nat priced_row 1%Qc
                eq_refl eq_refl) as (out & s & H1 & H2 & _ & _ & _ & H3).
    exists out, s. auto.
  - destruct (proj2 C5_profit_margin_exact (Frame [priced_row']) 0%nat priced_row' 1%Qc
                eq_refl eq_refl) as (out & s & H1 & H2 & _ & _ & _ & H3).
    exists out, s. auto.
Defined.

Lemma score_listing_testnet (rows : list Testnet.Row) :
  Testnet.listing <$> (Testnet.score <$> rows) = rows.
Proof. induction rows as [|r rows IH]; simpl; [reflexivity | now f_equal]. Qed.

Lemma score_listing_troubleshoot (rows : list Troubleshoot.Row) :
  Troubleshoot.listing <$> (Troubleshoot.score <$> rows) = rows.
Proof. induction rows as [|r rows IH]; simpl; [reflexivity | now f_equal]. Qed.

Lemma fsub_Some_r (x y : float) (a : Qc) : fsub x y = Some a -> exists b, y = Some b.
Proof. destruct x, y; simpl; intros; try discriminate; eauto. Qed.

(** C4, as stated, fails: the scorer returns an entry for a listing whose
    floor price is absent. *)
Lemma C4_counterexample :
  ~ (forall (df : DataFrame Testnet.Row) (out : DataFrame Testnet.Scored) (s : Testnet.Scored),
        Testnet.calculate_profitability df = Val out ->
        s ∈ df_rows out ->
        Testnet.floor_price (Testnet.listing s) <> None).
Proof.
  intros H.
  apply (H (Frame [unlisted_row]) (Frame [Testnet.score unlisted_row])
           (Testnet.score unlisted_row)).
  - reflexivity.
  - simpl. apply list_elem_of_In. left. reflexivity.
  - reflexivity.
Qed.

(** C4, amended.  The scorer keeps every listing, in order: a listing whose
    floor price is absent stays in the output, with [potential_profit] and
    [profit_margin] absent (NaN).  It is the selection [profit_margin > 0] of
    [monitor_and_trade] that drops such entries, so every entry left for
    buying has a floor price.  Both scripts. *)
Theorem C4_unpriced_kept_then_dropped :
  (forall (df : DataFrame Testnet.Row) (out : DataFrame Testnet.Scored),
      Testnet.calculate_profitability df = Val out ->
      Testnet.listing <$> df_rows out = df_rows df /\
      (forall s, s ∈ df_rows out ->
                 Testnet.floor_price (Testnet.listing s) = None ->
                 Testnet.potential_profit s = None /\ Testnet.profit_margin s = None) /\
      (exists sel, Testnet.positive_margin out = Val sel /\
                   forall s, s ∈ df_rows sel ->
                             s ∈ df_rows out /\
                             exists f, Testnet.floor_price (Testnet.listing s) = Some f)) /\
  (forall (df : DataFrame Troubleshoot.Row) (out : DataFrame Troubleshoot.Scored),
      Troubleshoot.calculate_profitability df = Val out ->
      Troubleshoot.listing <$> df_rows out = df_rows df /\
      (forall s, s ∈ df_rows out ->
                 Troubleshoot.floor_price (Troubleshoot.listing s) = None ->
                 Troubleshoot.potential_profit s = None /\
                 Troubleshoot.profit_margin s = None) /\
      (exists sel, Troubleshoot.positive_margin out = Val sel /\
                   forall s, s ∈ df_rows sel ->
                             s ∈ df_rows out /\
                             exists f, Troubleshoot.floor_price (Troubleshoot.listing s) = Some f)).
Proof.
  split; intros df out Hout.
  - destruct df as [|rows]; [discriminate|].
    injection Hout as <-. simpl. split; [apply score_listing_testnet|]. split.
    + intros s Hs Hnone. apply list_elem_of_fmap in Hs as (r & -> & _).
      simpl in *. rewrite Hnone. auto.
    + eexists. split; [reflexivity|]. simpl. intros s Hs.
      apply list_elem_of_In, filter_In in Hs as [Hin Hgt].
      split; [now apply list_elem_of_In|].
      apply list_elem_of_In, list_elem_of_fmap in Hin as (r & -> & _).
      apply fgt_Some in Hgt as [a Ha]. simpl in *.
      now apply fsub_Some_r in Ha.
  - destruct df as [|rows]; [discriminate|].
    injection Hout as <-. simpl. split; [apply score_listing_troubleshoot|]. split.
    + intros s Hs Hnone. apply list_elem_of_fmap in Hs as (r & -> & _).
      simpl in *. rewrite Hnone. auto.
    + eexists. split; [reflexivity|]. simpl. intros s Hs.
      apply list_elem_of_In, filter_In in Hs as [Hin Hgt].
      split; [now apply list_elem_of_In|].
      apply list_elem_of_In, list_elem_of_fmap in Hin as (r & -> & _).
      apply fgt_Some in Hgt as [a Ha]. simpl in *.
      now apply fsub_Some_r in Ha.
Qed.

Lemma C4_witness :
  (Testnet.listing <$> [Testnet.score unlisted_row; Testnet.score priced_row]
     = [unlisted_row; priced_row]) /\
  (Troubleshoot.listing <$> [Troubleshoot.score unlisted_row'; Troubleshoot.score priced_row']
     = [unlisted_row'; priced_row']).
Proof.
  split.
  - exact (proj1 (proj1 C4_unpriced_kept_then_dropped
                    (Frame [unlisted_row; priced_row]) _ eq_refl)).
  - exact (proj1 (proj2 C4_unpriced_kept_then_dropped
                    (Frame [unlisted_row'; priced_row']) _ eq_refl)).
Defined.

(** ** Trait filter ([filter_by_traits], testnet.py) *)

Lemma has_traits_spec (desired traits : gmap string string) :
  Testnet.has_traits desired traits = true <-> desired ⊆ traits.
Proof.
  unfold Testnet.has_traits. rewrite forallb_forall, map_subseteq_spec. split.
  - intros H k v Hk.
    specialize (H (k, v)). simpl in H.
    eapply bool_decide_eq_true_1, H, list_elem_of_In, elem_of_map_to_list, Hk.
  - intros H [k v] Hin. simpl.
    apply bool_decide_eq_true_2, H, elem_of_map_to_list, list_elem_of_In, Hin.
Qed.

Lemma has_traits_empty (traits : gmap string string) :
  Testnet.has_traits ∅ traits = true.
Proof. unfold Testnet.has_traits. now rewrite map_to_list_empty. Qed.

Lemma filter_all {A} (p : A -> bool) (l : list A) :
  (forall x, p x = true) -> List.filter p l = l.
Proof.
  intros Hp. induction l as [|x l IH]; simpl; [reflexivity|].
  rewrite Hp. now f_equal.
Qed.

Lemma filter_is_sublist {A} (p : A -> bool) (l : list A) : sublist (List.filter p l) l.
Proof.
  induction l as [|x l IH]; simpl; [constructor|].
  destruct (p x); now constructor.
Qed.

(** C8.  On a frame that has rows, the filter keeps exactly the listings
    whose trait mapping contains every desired (key, value) pair, in their
    order, and an empty desired map keeps the frame as it is.  The claim
    fails on both empty frames.  On a frame with its columns and no rows the
    result has lost the columns; on the frame that [pd.DataFrame([])] builds
    for an empty listing sequence (the frame the fetch returns when it
    collected nothing) the column lookup raises KeyError.  Both happen for
    every desired map, the empty one included: there the identity law
    fails. *)
Theorem C8_filter_by_traits :
  (forall (rows : list Testnet.Row) (desired : gmap string string),
      rows <> [] ->
      exists kept,
        Testnet.filter_by_traits (Frame rows) desired = Val (Frame kept) /\
        sublist kept rows /\
        (forall r, r ∈ kept <-> r ∈ rows /\ desired ⊆ Testnet.traits r) /\
        (forall r, r ∈ kept <->
                   r ∈ rows /\
                   forall k v, desired !! k = Some v -> Testnet.traits r !! k = Some v)) /\
  (forall rows : list Testnet.Row,
      rows <> [] ->
      Testnet.filter_by_traits (Frame rows) ∅ = Val (Frame rows)) /\
  (forall desired : gmap string string,
      Testnet.filter_by_traits (Frame []) desired = Val NoColumns) /\
  (forall desired : gmap string string,
      Testnet.filter_by_traits (pd_DataFrame []) desired = Exc (KeyError "traits")).
Proof.
  split; [|split; [|split]].
  - intros [|r0 rows] desired Hrows; [contradiction|].
    eexists. split; [reflexivity|].
    split; [apply filter_is_sublist|].
    assert (Hmem : forall r,
               r ∈ List.filter (fun r => Testnet.has_traits desired (Testnet.traits r))
                     (r0 :: rows)
               <-> r ∈ r0 :: rows /\ desired ⊆ Testnet.traits r).
    { intros r. rewrite !list_elem_of_In, filter_In, has_traits_spec. tauto. }
    split; [exact Hmem|].
    intros r. rewrite Hmem, map_subseteq_spec. tauto.
  - intros [|r0 rows] Hrows; [contradiction|].
    cbv [Testnet.filter_by_traits getitem].
    rewrite filter_all; [reflexivity|]. intros r. apply has_traits_empty.
  - reflexivity.
  - reflexivity.
Qed.

Lemma C8_witness :
  Testnet.filter_by_traits (Frame [priced_row; unlisted_row]) ∅
  = Val (Frame [priced_row; unlisted_row]) /\
  exists kept,
    Testnet.filter_by_traits (Frame [priced_row; unlisted_row]) {["Background" := "Gold"]}
    = Val (Frame kept) /\
    sublist kept [priced_row; unlisted_row].
Proof.
  split.
  - apply (proj1 (proj2 C8_filter_by_traits)). discriminate.
  - destruct (proj1 C8_filter_by_traits [priced_row; unlisted_row]
                {["Background" := "Gold"]}) as (kept & Hrun & Hsub & _); [discriminate|].
    exists kept. now split.
Defined.

(** ** Stepping through the monad *)

Ltac mstep :=
  cbv beta iota zeta delta
    [bind ret raise lift diverge call clock logging emit get_cache set_cache
     try_except try_except_interrupt
     Testnet.get_wallet_balance Troubleshoot.get_wallet_balance];
  cbn [tick trace CACHE fst snd].

Ltac case_result :=
  match goal with
  | |- context [match ?x with Val _ => _ | Exc _ => _ | Diverge => _ end] =>
      destruct x eqn:?; mstep
  end.

Lemma submitted_app (tr1 tr2 : list Event) :
  submitted (tr1 ++ tr2) = submitted tr1 ++ submitted tr2.
Proof. apply flat_map_app. Qed.

Lemma posted_app (tr1 tr2 : list Event) : posted (tr1 ++ tr2) = posted tr1 ++ posted tr2.
Proof. apply flat_map_app. Qed.

Lemma requested_app (tr1 tr2 : list Event) :
  requested (tr1 ++ tr2) = requested tr1 ++ requested tr2.
Proof. apply flat_map_app. Qed.

Lemma external_app (tr1 tr2 : list Event) :
  external (tr1 ++ tr2) = external tr1 ++ external tr2.
Proof. apply List.filter_app. Qed.

(** ** The transaction of [execute_buy] *)

Lemma tx_fields (a : option string) (v g p n : Z) :
  let tx : gmap string TxVal :=
    <["from" := VAddr a]> (<["value" := VInt v]> (<["gas" := VInt g]>
    (<["gasPrice" := VInt p]> (<["nonce" := VInt n]> ∅)))) in
  dom tx = TX_FIELDS /\ tx !! "to" = None.
Proof.
  simpl. split.
  - rewrite !dom_insert_L, dom_empty_L. unfold TX_FIELDS. set_solver.
  - reflexivity.
Qed.

Ltac case_if :=
  match goal with
  | |- context [if ?b then _ else _] => destruct b eqn:?; mstep
  end.

Ltac case_exn :=
  match goal with
  | |- context [match ?e with Exception _ => _ | KeyboardInterrupt => _ | SystemExit _ => _ end] =>
      destruct e; mstep
  end.

Ltac crunch := mstep; repeat first [case_result | case_if | case_exn].

Lemma tx_fields_gas (tx : gmap string TxVal) (g : Z) :
  well_formed_tx tx -> is_Some (tx !! "gas") -> well_formed_tx (<["gas" := VInt g]> tx).
Proof.
  intros [Hdom Hto] Hgas. split.
  - rewrite dom_insert_L, Hdom. unfold TX_FIELDS. set_solver.
  - rewrite lookup_insert_ne; [exact Hto | discriminate].
Qed.

Ltac trace_suffix :=
  rewrite <- ?app_assoc; eexists; split; [reflexivity|]; simpl.

(** C9.  Every transaction that [execute_buy] signs or broadcasts is a dict
    with exactly the fields from, value, gas, gasPrice and nonce: no
    recipient.  Neither the result, nor the calls that leave the process, nor
    the transactions depend on the token id, so two invocations that differ
    only in the token id submit identical transactions.  Both scripts. *)
Theorem C9_transaction_ignores_token :
  (forall (w : World) (tid : string) (price : float) (st : State Testnet.Row),
      exists evs,
        trace (Testnet.execute_buy w tid price st).2 = trace st ++ evs /\
        Forall well_formed_tx (submitted evs)) /\
  (forall (w : World) (tid1 tid2 : string) (price : float) (st : State Testnet.Row),
      let r1 := Testnet.execute_buy w tid1 price st in
      let r2 := Testnet.execute_buy w tid2 price st in
      r1.1 = r2.1 /\
      external (trace r1.2) = external (trace r2.2) /\
      submitted (trace r1.2) = submitted (trace r2.2)) /\
  (forall (w : World) (tid : string) (price : float) (st : State Troubleshoot.Row),
      exists evs,
        trace (Troubleshoot.execute_buy w tid price st).2 = trace st ++ evs /\
        Forall well_formed_tx (submitted evs)) /\
  (forall (w : World) (tid1 tid2 : string) (price : float) (st : State Troubleshoot.Row),
      let r1 := Troubleshoot.execute_buy w tid1 price st in
      let r2 := Troubleshoot.execute_buy w tid2 price st in
      r1.1 = r2.1 /\
      external (trace r1.2) = external (trace r2.2) /\
      submitted (trace r1.2) = submitted (trace r2.2)).
Proof.
  split; [|split; [|split]].
  - intros w tid price st. unfold Testnet.execute_buy.
    crunch; trace_suffix; repeat constructor; apply tx_fields.
  - intros w tid1 tid2 price st. unfold Testnet.execute_buy.
    crunch; rewrite ?external_app, ?submitted_app; auto.
  - intros w tid price st. unfold Troubleshoot.execute_buy.
    crunch; trace_suffix; repeat constructor;
      try (apply tx_fields_gas; [apply tx_fields | eexists; reflexivity]).
  - intros w tid1 tid2 price st. unfold Troubleshoot.execute_buy.
    crunch; rewrite ?external_app, ?submitted_app; auto.
Qed.

(** ** The spend guard of [execute_buy] *)

Lemma int_gt_float_quarter (p n : Z) :
  int_gt_float p (Z2Qc n * SPENDING_LIMIT_PERCENTAGE) = true <-> (n < 4 * p)%Z.
Proof.
  unfold int_gt_float.
  assert (H : (Z2Qc p ?= Z2Qc n * SPENDING_LIMIT_PERCENTAGE)%Qc = Gt <-> (n < 4 * p)%Z).
  { rewrite <- Qcgt_alt. unfold Qclt, Z2Qc, SPENDING_LIMIT_PERCENTAGE. simpl.
    rewrite !Qred_correct. unfold Qlt. simpl. lia. }
  destruct (Z2Qc p ?= Z2Qc n * SPENDING_LIMIT_PERCENTAGE)%Qc; split; intros H';
    try reflexivity; try discriminate; try (apply H in H'; discriminate);
    apply H; reflexivity.
Qed.

Lemma float_of_int_exact (n : Z) : (0 <= n < 2 ^ 53)%Z -> float_of_int n = n.
Proof.
  intros Hn. unfold float_of_int.
  rewrite Z.abs_eq by lia.
  destruct (Z.ltb_spec n (2 ^ 53)); [reflexivity | lia].
Qed.

(** C3.  The guard is evaluated inside [execute_buy], on a balance read by
    the call itself, and a rejected price is neither signed nor broadcast:
    the call reads the balance, logs, and returns the rejection.  But the
    limit is computed in double precision, [float(balance) * 0.25]: a price
    is rejected when it exceeds a quarter of the balance rounded to the
    nearest double (which is the balance itself below [2^53] wei).  With a
    balance of [2^53 + 3] wei and a price of [2^51 + 1] wei the price exceeds
    a quarter of the balance, and the transaction is signed and broadcast. *)
Theorem C3_spend_guard :
  (forall (w : World) (tid : string) (price : float) (st : State Testnet.Row) (b p : Z),
      eth_get_balance w (tick st) = Val b ->
      to_wei w price = Val p ->
      (float_of_int b < 4 * p)%Z ->
      Testnet.execute_buy w tid price st =
        (Val EXCEEDS,
         {| tick := S (tick st);
            trace := trace st ++ [EvGetBalance (Val b); EvLog ERROR (PriceExceeds price)];
            CACHE := CACHE st |})) /\
  (forall (w : World) (tid : string) (price : float) (st : State Troubleshoot.Row) (b p : Z),
      eth_get_balance w (tick st) = Val b ->
      to_wei w price = Val p ->
      (float_of_int b < 4 * p)%Z ->
      Troubleshoot.execute_buy w tid price st =
        (Val EXCEEDS,
         {| tick := S (tick st);
            trace := trace st ++ [EvGetBalance (Val b); EvLog ERROR (PriceExceeds price)];
            CACHE := CACHE st |})) /\
  (forall b : Z, (0 <= b < 2 ^ 53)%Z -> float_of_int b = b) /\
  ((9007199254740995 < 4 * 2251799813685249)%Z /\
   (Testnet.execute_buy rounding_world "1" (Some 1%Qc) init).1 = Val "0xfeed" /\
   submitted (trace (Testnet.execute_buy rounding_world "1" (Some 1%Qc) init).2)
     = [example_tx None 2251799813685249 200000;
        example_tx None 2251799813685249 200000] /\
   (Troubleshoot.execute_buy rounding_world "1" (Some 1%Qc) init).1 = Val "0xfeed" /\
   submitted (trace (Troubleshoot.execute_buy rounding_world "1" (Some 1%Qc) init).2)
     = [example_tx (Some "0x745461ae3ee10F26e314735b6AF8ee41cD313E2d")
                   2251799813685249 21000;
        example_tx (Some "0x745461ae3ee10F26e314735b6AF8ee41cD313E2d")
                   2251799813685249 21000]).
Proof.
  split; [|split; [|split]].
  - intros w tid price st b p Hb Hp Hgt. unfold Testnet.execute_buy. mstep.
    rewrite Hb, Hp. mstep.
    apply int_gt_float_quarter in Hgt. rewrite Hgt. mstep.
    now rewrite <- app_assoc.
  - intros w tid price st b p Hb Hp Hgt. unfold Troubleshoot.execute_buy. mstep.
    rewrite Hb, Hp. mstep.
    apply int_gt_float_quarter in Hgt. rewrite Hgt. mstep.
    now rewrite <- app_assoc.
  - apply float_of_int_exact.
  - split; [lia|]. vm_compute. repeat split.
Qed.

Lemma C3_witness :
  Testnet.execute_buy scenario_B "1" (Some (Z2Qc 3)) init =
    (Val EXCEEDS,
     {| tick := 1%nat;
        trace := [EvGetBalance (Val (10 * 10 ^ 18)); EvLog ERROR (PriceExceeds (Some (Z2Qc 3)))];
        CACHE := empty_cache |}) /\
  Troubleshoot.execute_buy scenario_B "1" (Some (Z2Qc 3)) init =
    (Val EXCEEDS,
     {| tick := 1%nat;
        trace := [EvGetBalance (Val (10 * 10 ^ 18)); EvLog ERROR (PriceExceeds (Some (Z2Qc 3)))];
        CACHE := empty_cache |}).
Proof.
  split.
  - apply (proj1 C3_spend_guard scenario_B "1" (Some (Z2Qc 3)) init
             (10 * 10 ^ 18) (3 * 10 ^ 18));
      [reflexivity | reflexivity | vm_compute; reflexivity].
  - apply (proj1 (proj2 C3_spend_guard) scenario_B "1" (Some (Z2Qc 3)) init
             (10 * 10 ^ 18) (3 * 10 ^ 18));
      [reflexivity | reflexivity | vm_compute; reflexivity].
Defined.

(** ** Paging ([fetch_trending_nfts]) *)

Ltac case_pair :=
  match goal with
  | |- context [let (_, _) := ?x in _] => destruct x as [? ?] eqn:?; mstep
  end.

Lemma accumulated_app {R} (f : Asset -> Result R) (tr1 tr2 : list Event) :
  accumulated f (tr1 ++ tr2) = accumulated f tr1 ++ accumulated f tr2.
Proof. apply flat_map_app. Qed.

Lemma cons_eq_app {A} (e g : A) (tail pre post : list A) :
  e :: tail = pre ++ g :: post ->
  (pre = [] /\ e = g /\ tail = post) \/
  (exists pre', pre = e :: pre' /\ tail = pre' ++ g :: post).
Proof.
  destruct pre as [|x pre']; simpl; intros H; injection H as -> ->; eauto.
Qed.

Lemma no_request_inside (tail pre post : list Event) url p r :
  requested tail = [] -> tail <> pre ++ EvGet url p r :: post.
Proof.
  intros Hno ->. rewrite requested_app in Hno. simpl in Hno.
  destruct (requested pre); discriminate.
Qed.

(** Closes the case of a run of the paging loop that ends on the spot. *)
Ltac page_leaf :=
  let Hrun := fresh "Hrun" in
  let out := fresh "out" in
  let Hout := fresh "Hout" in
  let Heq := fresh "Heq" in
  let Hbad := fresh "Hbad" in
  intros Hrun; injection Hrun as <- <-;
  split; [reflexivity|];
  rewrite <- ?app_assoc; eexists;
  split; [reflexivity|];
  split; [|split];
  [ intros out Hout; try discriminate Hout; injection Hout as <-;
    unfold accumulated, listed; simpl;
    repeat match goal with
      | H : (_ =? _) = _ |- _ => rewrite H; clear H
      | H : json _ = _ |- _ => rewrite H; clear H
      | H : default _ _ = _ |- _ => rewrite H; clear H
      | H : json_assets _ = _ |- _ => rewrite H; clear H
      | H : mapM _ _ = _ |- _ => rewrite H; clear H
      end; simpl; rewrite ?app_nil_r; reflexivity
  | intros _; repeat eexists; try (symmetry; eassumption)
  | intros pre url p resp' post Heq Hbad;
    apply cons_eq_app in Heq as [(-> & Heq & <-) | (pre' & _ & Heq)];
    [ try discriminate Heq; injection Heq as _ _ <-;
      first [ split; [reflexivity | simpl; now rewrite app_nil_r]
            | exfalso; apply Hbad; now apply Z.eqb_eq ]
    | exfalso; revert Heq; now apply no_request_inside ] ].

(** What a run of the paging loop of testnet.py leaves behind: the cache is
    untouched, the trace grows, a returned list is the list the loop started
    with followed by the rows of every page received, in order, and the
    first answer with a status other than 200 ends the run. *)
Lemma fetch_pages_testnet (w : World) (fuel : nat) :
  forall (params : gmap string Param) (acc : list Testnet.Row) (st : State Testnet.Row) r s',
    Testnet.fetch_pages w fuel params acc st = (r, s') ->
    CACHE s' = CACHE st /\
    exists evs,
      trace s' = trace st ++ evs /\
      (forall out, r = Val out -> out = acc ++ accumulated Testnet.row_of_asset evs) /\
      (fuel <> O -> exists r0 rest,
          evs = EvGet Testnet.ASSETS_URL params r0 :: rest /\
          r0 = requests_get w (tick st) Testnet.ASSETS_URL params) /\
      stops_at_failure Testnet.row_of_asset acc evs r.
Proof.
  induction fuel as [|fuel IH]; intros params acc st r s' Hrun.
  - injection Hrun as <- <-. split; [reflexivity|]. exists [].
    split; [now rewrite app_nil_r|]. split; [discriminate|]. split; [congruence|].
    intros [|? ?] ? ? ? ? ?; discriminate.
  - simpl in Hrun. revert Hrun. mstep.
    destruct (requests_get w (tick st) Testnet.ASSETS_URL params) as [resp|e|] eqn:Hget;
      [|page_leaf..].
    destruct (status_code resp =? 200) eqn:Hstatus; mstep; [|page_leaf].
    unfold from_json.
    destruct (json resp) as [data|] eqn:Hjson; mstep; [|page_leaf].
    destruct (json_assets data) as [assets|] eqn:Hassets; mstep; [|page_leaf].
    destruct assets as [|a assets]; [page_leaf|].
    destruct (mapM Testnet.row_of_asset (a :: assets)) as [rows|e|] eqn:Hrows; mstep;
      [|page_leaf..].
    destruct (Testnet.next_offset params) as [params'|e|] eqn:Hnext; mstep;
      [|page_leaf..].
    destruct (time_sleep w (S (tick st)) RATE_LIMIT_DELAY) as [[]|e|] eqn:Hsleep; mstep;
      [|page_leaf..].
    intros Hrun. apply IH in Hrun as (Hcache & evs & Htrace & Hout & _ & Hstop).
    split; [exact Hcache|]. simpl in Htrace. rewrite <- !app_assoc in Htrace.
    assert (Hpage : listed Testnet.row_of_asset resp = rows).
    { unfold listed. rewrite Hstatus, Hjson, Hassets. simpl default. now rewrite Hrows. }
    eexists. split; [exact Htrace|]. split; [|split].
    + intros out ->%Hout. unfold accumulated at 2. simpl. fold (accumulated Testnet.row_of_asset evs).
      rewrite Hpage. now rewrite <- app_assoc.
    + intros _. eexists _, _. split; reflexivity.
    + intros pre url p resp' post Heq Hbad. simpl in Heq.
      apply cons_eq_app in Heq as [(-> & Heq & _) | (pre' & -> & Heq)].
      { injection Heq as _ _ <-. exfalso. apply Hbad. now apply Z.eqb_eq. }
      apply cons_eq_app in Heq as [(-> & Heq & _) | (pre'' & -> & Heq)];
        [discriminate Heq|].
      destruct (Hstop _ _ _ _ _ Heq Hbad) as [-> ->]. split; [reflexivity|].
      simpl. fold (accumulated Testnet.row_of_asset pre''). rewrite Hpage.
      now rewrite <- app_assoc.
Qed.

(** The same for the cursor-driven loop of troubleshoot.py. *)
Lemma fetch_pages_troubleshoot (w : World) (fuel : nat) :
  forall (params : gmap string Param) (cursor : option string)
         (acc : list Troubleshoot.Row) (st : State Troubleshoot.Row) r s',
    Troubleshoot.fetch_pages w fuel params cursor acc st = (r, s') ->
    CACHE s' = CACHE st /\
    exists evs,
      trace s' = trace st ++ evs /\
      (forall out, r = Val out -> out = acc ++ accumulated Troubleshoot.row_of_asset evs) /\
      (fuel <> O -> exists p r0 rest,
          evs = EvGet Troubleshoot.ASSETS_URL p r0 :: rest /\
          r0 = requests_get w (tick st) Troubleshoot.ASSETS_URL p) /\
      stops_at_failure Troubleshoot.row_of_asset acc evs r.
Proof.
  induction fuel as [|fuel IH]; intros params cursor acc st r s' Hrun.
  - injection Hrun as <- <-. split; [reflexivity|]. exists [].
    split; [now rewrite app_nil_r|]. split; [discriminate|]. split; [congruence|].
    intros [|? ?] ? ? ? ? ?; discriminate.
  - simpl in Hrun. revert Hrun.
    set (params1 := match cursor with
                    | Some c => if truthy cursor then <["cursor" := PStr c]> params else params
                    | None => params
                    end).
    mstep.
    destruct (requests_get w (tick st) Troubleshoot.ASSETS_URL params1) as [resp|e|] eqn:Hget;
      [|page_leaf..].
    destruct (status_code resp =? 200) eqn:Hstatus; mstep; [|page_leaf].
    unfold from_json.
    destruct (json resp) as [data|] eqn:Hjson; mstep; [|page_leaf].
    destruct (default [] (json_assets data)) as [|a assets] eqn:Hassets; [page_leaf|].
    destruct (mapM Troubleshoot.row_of_asset (a :: assets)) as [rows|e|] eqn:Hrows; mstep;
      [|page_leaf..].
    assert (Hpage : listed Troubleshoot.row_of_asset resp = rows).
    { unfold listed. rewrite Hstatus, Hjson, Hassets. now rewrite Hrows. }
    destruct (truthy (json_next data)) eqn:Hnext.
    + intros Hrun. apply IH in Hrun as (Hcache & evs & Htrace & Hout & _ & Hstop).
      split; [exact Hcache|]. simpl in Htrace. rewrite <- !app_assoc in Htrace.
      eexists. split; [exact Htrace|]. split; [|split].
      * intros out ->%Hout. unfold accumulated at 2. simpl.
        fold (accumulated Troubleshoot.row_of_asset evs).
        rewrite Hpage. now rewrite <- app_assoc.
      * intros _. repeat eexists; try (symmetry; eassumption).
      * intros pre url p resp' post Heq Hbad. simpl in Heq.
        apply cons_eq_app in Heq as [(-> & Heq & _) | (pre' & -> & Heq)].
        { injection Heq as _ _ <-. exfalso. apply Hbad. now apply Z.eqb_eq. }
        destruct (Hstop _ _ _ _ _ Heq Hbad) as [-> ->]. split; [reflexivity|].
        simpl. fold (accumulated Troubleshoot.row_of_asset pre'). rewrite Hpage.
        now rewrite <- app_assoc.
    + intros Hrun. injection Hrun as <- <-. split; [reflexivity|].
      eexists. split; [reflexivity|]. split; [|split].
      * intros out [= <-]. simpl. now rewrite Hpage, app_nil_r.
      * intros _. repeat eexists; try (symmetry; eassumption).
      * intros pre url p resp' post Heq Hbad.
        apply cons_eq_app in Heq as [(-> & Heq & _) | (pre' & _ & Heq)].
        { injection Heq as _ _ <-. exfalso. apply Hbad. now apply Z.eqb_eq. }
        exfalso. revert Heq. now apply no_request_inside.
Qed.

(** ** The end of the paging *)

Lemma listed_failed {R} (row_of_asset : Asset -> Result R) (resp : Response) :
  (status_code resp =? 200) = false -> listed row_of_asset resp = [].
Proof. intros H. unfold listed. now rewrite H. Qed.

Lemma accumulated_one {R} (row_of_asset : Asset -> Result R) url p (resp : Response) :
  accumulated row_of_asset [EvGet url p (Val resp)] = listed row_of_asset resp.
Proof. unfold accumulated. simpl. apply app_nil_r. Qed.

Ltac not_final Hfinal Hstatus :=
  exfalso; destruct Hfinal as [Hfinal | (? & ? & Hfinal)];
  [ apply Hfinal; now apply Z.eqb_eq
  | first [destruct Hfinal as [Hfinal | Hfinal] | idtac]; congruence ].

(** Closes the case of a run of the paging loop that ends on the spot:
    [tac] settles the page just received. *)
Ltac final_end tac :=
  let Hrun := fresh "Hrun" in
  let Heq := fresh "Heq" in
  intros Hrun; injection Hrun as <- <-;
  rewrite <- ?app_assoc; eexists; split; [reflexivity|];
  intros pre url p resp' post Heq Hfinal Hconv;
  apply cons_eq_app in Heq as [(-> & Heq & <-) | (pre' & _ & Heq)];
  [ try discriminate Heq; injection Heq as _ _ <-; tac
  | exfalso; revert Heq; now apply no_request_inside ].

Lemma final_pages_testnet (w : World) (fuel : nat) :
  forall (params : gmap string Param) (acc : list Testnet.Row) (st : State Testnet.Row) r s',
    Testnet.fetch_pages w fuel params acc st = (r, s') ->
    exists evs,
      trace s' = trace st ++ evs /\
      stops_at_final Testnet.row_of_asset final_page_testnet acc evs r.
Proof.
  induction fuel as [|fuel IH]; intros params acc st r s' Hrun.
  - injection Hrun as <- <-. exists []. split; [now rewrite app_nil_r|].
    intros [|? ?] ? ? ? ? ?; discriminate.
  - simpl in Hrun. revert Hrun. mstep.
    destruct (requests_get w (tick st) Testnet.ASSETS_URL params) as [resp|e|] eqn:Hget;
      [|final_end idtac..].
    destruct (status_code resp =? 200) eqn:Hstatus; mstep.
    2: { final_end idtac. split; [reflexivity|].
         cbn [app]. rewrite accumulated_one, listed_failed by assumption.
         now rewrite app_nil_r. }
    unfold from_json.
    destruct (json resp) as [data|] eqn:Hjson; mstep;
      [|final_end ltac:(not_final Hfinal Hstatus)].
    destruct (json_assets data) as [assets|] eqn:Hassets; mstep;
      [|final_end ltac:(not_final Hfinal Hstatus)].
    destruct assets as [|a assets].
    { final_end idtac. split; [reflexivity|].
      cbn [app]. rewrite accumulated_one. unfold listed.
      rewrite Hstatus, Hjson, Hassets. simpl. now rewrite app_nil_r. }
    destruct (mapM Testnet.row_of_asset (a :: assets)) as [rows|e|] eqn:Hrows; mstep;
      [|final_end ltac:(not_final Hfinal Hstatus)..].
    destruct (Testnet.next_offset params) as [params'|e|] eqn:Hnext; mstep;
      [|final_end ltac:(not_final Hfinal Hstatus)..].
    destruct (time_sleep w (S (tick st)) RATE_LIMIT_DELAY) as [[]|e|] eqn:Hsleep; mstep;
      [|final_end ltac:(not_final Hfinal Hstatus)..].
    intros Hrun. apply IH in Hrun as (evs & Htrace & Hstop).
    simpl in Htrace. rewrite <- !app_assoc in Htrace.
    assert (Hpage : listed Testnet.row_of_asset resp = rows).
    { unfold listed. rewrite Hstatus, Hjson, Hassets. simpl default. now rewrite Hrows. }
    eexists. split; [exact Htrace|].
    intros pre url p resp' post Heq Hfinal Hconv. simpl in Heq.
    apply cons_eq_app in Heq as [(-> & Heq & _) | (pre' & -> & Heq)].
    { injection Heq as _ _ <-. not_final Hfinal Hstatus. }
    apply cons_eq_app in Heq as [(-> & Heq & _) | (pre'' & -> & Heq)];
      [discriminate Heq|].
    destruct (Hstop _ _ _ _ _ Heq Hfinal Hconv) as [-> ->]. split; [reflexivity|].
    simpl. fold (accumulated Testnet.row_of_asset (pre'' ++ [EvGet url p (Val resp')])).
    rewrite Hpage. now rewrite <- app_assoc.
Qed.

Lemma final_pages_troubleshoot (w : World) (fuel : nat) :
  forall (params : gmap string Param) (cursor : option string)
         (acc : list Troubleshoot.Row) (st : State Troubleshoot.Row) r s',
    Troubleshoot.fetch_pages w fuel params cursor acc st = (r, s') ->
    exists evs,
      trace s' = trace st ++ evs /\
      stops_at_final Troubleshoot.row_of_asset final_page_troubleshoot acc evs r.
Proof.
  induction fuel as [|fuel IH]; intros params cursor acc st r s' Hrun.
  - injection Hrun as <- <-. exists []. split; [now rewrite app_nil_r|].
    intros [|? ?] ? ? ? ? ?; discriminate.
  - simpl in Hrun. revert Hrun.
    set (params1 := match cursor with
                    | Some c => if truthy cursor then <["cursor" := PStr c]> params else params
                    | None => params
                    end).
    mstep.
    destruct (requests_get w (tick st) Troubleshoot.ASSETS_URL params1) as [resp|e|] eqn:Hget;
      [|final_end idtac..].
    destruct (status_code resp =? 200) eqn:Hstatus; mstep.
    2: { final_end idtac. split; [reflexivity|].
         cbn [app]. rewrite accumulated_one, listed_failed by assumption.
         now rewrite app_nil_r. }
    unfold from_json.
    destruct (json resp) as [data|] eqn:Hjson; mstep;
      [|final_end ltac:(not_final Hfinal Hstatus)].
    destruct (default [] (json_assets data)) as [|a assets] eqn:Hassets.
    { final_end idtac. split; [reflexivity|].
      cbn [app]. rewrite accumulated_one. unfold listed.
      rewrite Hstatus, Hjson, Hassets. simpl. now rewrite app_nil_r. }
    assert (Hstatus' : status_code resp = 200) by now apply Z.eqb_eq.
    destruct (mapM Troubleshoot.row_of_asset (a :: assets)) as [rows|e|] eqn:Hrows; mstep.
    2,3: final_end idtac; exfalso; destruct (Hconv Hstatus' data Hjson) as [rows Hrows'];
         rewrite Hassets in Hrows'; congruence.
    assert (Hpage : listed Troubleshoot.row_of_asset resp = rows).
    { unfold listed. rewrite Hstatus, Hjson, Hassets. now rewrite Hrows. }
    destruct (truthy (json_next data)) eqn:Hnext.
    + intros Hrun. apply IH in Hrun as (evs & Htrace & Hstop).
      simpl in Htrace. rewrite <- !app_assoc in Htrace.
      eexists. split; [exact Htrace|].
      intros pre url p resp' post Heq Hfinal Hconv. simpl in Heq.
      apply cons_eq_app in Heq as [(-> & Heq & _) | (pre' & -> & Heq)].
      { injection Heq as _ _ <-. not_final Hfinal Hstatus. }
      destruct (Hstop _ _ _ _ _ Heq Hfinal Hconv) as [-> ->]. split; [reflexivity|].
      simpl. fold (accumulated Troubleshoot.row_of_asset (pre' ++ [EvGet url p (Val resp')])).
      rewrite Hpage. now rewrite <- app_assoc.
    + final_end idtac. split; [reflexivity|].
      cbn [app]. now rewrite accumulated_one, Hpage.
Qed.

Ltac honest_leaf Hget :=
  let Hin := fresh "Hin" in
  intros [= <- <-]; repeat rewrite <- app_assoc; eexists; split; [reflexivity|];
  repeat (apply Forall_cons; split; [first [exact I | eexists; symmetry; exact Hget]|]);
  apply Forall_nil_2.

Lemma pages_honest_testnet (w : World) (fuel : nat) :
  forall (params : gmap string Param) (acc : list Testnet.Row) (st : State Testnet.Row) r s',
    Testnet.fetch_pages w fuel params acc st = (r, s') ->
    exists evs, trace s' = trace st ++ evs /\ Forall (honest w) evs.
Proof.
  induction fuel as [|fuel IH]; intros params acc st r s' Hrun.
  - injection Hrun as <- <-. exists []. split; [now rewrite app_nil_r | constructor].
  - simpl in Hrun. revert Hrun. mstep.
    destruct (requests_get w (tick st) Testnet.ASSETS_URL params) as [resp|e|] eqn:Hget;
      [|honest_leaf Hget..].
    destruct (status_code resp =? 200); mstep; [|honest_leaf Hget].
    unfold from_json.
    destruct (json resp) as [data|]; mstep; [|honest_leaf Hget].
    destruct (json_assets data) as [assets|]; mstep; [|honest_leaf Hget].
    destruct assets as [|a assets]; [honest_leaf Hget|].
    destruct (mapM Testnet.row_of_asset (a :: assets)) as [rows|e|]; mstep;
      [|honest_leaf Hget..].
    destruct (Testnet.next_offset params) as [params'|e|]; mstep; [|honest_leaf Hget..].
    destruct (time_sleep w (S (tick st)) RATE_LIMIT_DELAY) as [[]|e|]; mstep;
      [|honest_leaf Hget..].
    intros Hrun. apply IH in Hrun as (evs & Htrace & Hhonest).
    simpl in Htrace. rewrite <- !app_assoc in Htrace.
    eexists. split; [exact Htrace|].
    apply Forall_cons; split; [eexists; symmetry; exact Hget|].
    apply Forall_cons; split; [exact I | exact Hhonest].
Qed.

Lemma pages_honest_troubleshoot (w : World) (fuel : nat) :
  forall (params : gmap string Param) (cursor : option string)
         (acc : list Troubleshoot.Row) (st : State Troubleshoot.Row) r s',
    Troubleshoot.fetch_pages w fuel params cursor acc st = (r, s') ->
    exists evs, trace s' = trace st ++ evs /\ Forall (honest w) evs.
Proof.
  induction fuel as [|fuel IH]; intros params cursor acc st r s' Hrun.
  - injection Hrun as <- <-. exists []. split; [now rewrite app_nil_r | constructor].
  - simpl in Hrun. revert Hrun.
    set (params1 := match cursor with
                    | Some c => if truthy cursor then <["cursor" := PStr c]> params else params
                    | None => params
                    end).
    mstep.
    destruct (requests_get w (tick st) Troubleshoot.ASSETS_URL params1) as [resp|e|] eqn:Hget;
      [|honest_leaf Hget..].
    destruct (status_code resp =? 200); mstep; [|honest_leaf Hget].
    unfold from_json.
    destruct (json resp) as [data|]; mstep; [|honest_leaf Hget].
    destruct (default [] (json_assets data)) as [|a assets]; [honest_leaf Hget|].
    destruct (mapM Troubleshoot.row_of_asset (a :: assets)) as [rows|e|]; mstep;
      [|honest_leaf Hget..].
    destruct (truthy (json_next data)); [|honest_leaf Hget].
    intros Hrun. apply IH in Hrun as (evs & Htrace & Hhonest).
    simpl in Htrace. rewrite <- !app_assoc in Htrace.
    eexists. split; [exact Htrace|].
    apply Forall_cons; split; [eexists; symmetry; exact Hget | exact Hhonest].
Qed.

Ltac honest_all :=
  repeat (apply Forall_cons; split; [exact I|]);
  first [ apply Forall_nil_2
        | assumption
        | apply Forall_app; split;
          [assumption | repeat (apply Forall_cons; split; [exact I|]); apply Forall_nil_2] ].

(** ** The cache check ([fetch_trending_nfts]) *)

Lemma cache_valid_hit {R} (c : Cache R) (df : DataFrame R) (t0 now : Z) :
  trending_nfts c = Some df -> last_fetched c = Some t0 ->
  (now - t0 < CACHE_EXPIRATION)%Z ->
  cache_valid c now = Val (Some df).
Proof.
  intros H1 H2 Hlt. unfold cache_valid. rewrite H1, H2.
  destruct (Z.ltb_spec (now - t0) CACHE_EXPIRATION); [reflexivity | lia].
Qed.

Lemma cache_valid_expired {R} (c : Cache R) (df : DataFrame R) (t0 now : Z) :
  trending_nfts c = Some df -> last_fetched c = Some t0 ->
  (CACHE_EXPIRATION <= now - t0)%Z ->
  cache_valid c now = Val None.
Proof.
  intros H1 H2 Hge. unfold cache_valid. rewrite H1, H2.
  destruct (Z.ltb_spec (now - t0) CACHE_EXPIRATION); [lia | reflexivity].
Qed.

Lemma snoc_eq_app {A} (x g : A) (l pre post : list A) :
  x <> g ->
  l ++ [x] = pre ++ g :: post ->
  exists post', post = post' ++ [x] /\ l = pre ++ g :: post'.
Proof.
  intros Hne Heq.
  destruct (exists_last (l := g :: post)) as (body & y & Hlast); [discriminate|].
  rewrite Hlast, app_assoc in Heq.
  apply app_inj_tail in Heq as [-> <-].
  destruct body as [|g' body'].
  - simpl in Hlast. injection Hlast as -> _. congruence.
  - simpl in Hlast. injection Hlast as <- ->. exists body'. split; reflexivity.
Qed.

(** Closes the cases of a fetch that raised before or while paging. *)
Ltac no_page_in Heq Hstop :=
  exfalso; simpl in Heq;
  repeat (apply cons_eq_app in Heq as [(_ & Heq & _) | (? & _ & Heq)];
          [discriminate Heq|]);
  first [ apply Hstop in Heq as [_ [=]]; assumption
        | revert Heq; now apply no_request_inside ].

Ltac refetch_failed Hstop Hstopf :=
  let Heq := fresh "Heq" in
  let Hbad := fresh "Hbad" in
  unfold refetched; cbn [trace]; rewrite <- ?app_assoc; eexists; split; [reflexivity|];
  split; [discriminate|]; split;
  [ intros pre url p resp post Heq Hbad; no_page_in Heq Hstop
  | split; [|split];
    [ idtac
    | match goal with H : eth_get_balance _ _ = _ |- _ => rewrite H end;
      eexists; reflexivity
    | split;
      [ intros pre url p resp post Heq Hfinal Hconv; exfalso; simpl in Heq;
        repeat (apply cons_eq_app in Heq as [(_ & Heq & _) | (? & _ & Heq)];
                [discriminate Heq|]);
        first [ destruct (Hstopf _ _ _ _ _ Heq Hfinal Hconv) as [_ [=]]
              | revert Heq; now apply no_request_inside ]
      | honest_all ] ] ].

Lemma zero_limit : (Z2Qc (float_of_int 0) * SPENDING_LIMIT_PERCENTAGE)%Qc = 0%Qc.
Proof. apply Qc_is_canon. reflexivity. Qed.

Lemma fetch_miss_testnet (w : World) (fuel : nat) (st s' : State Testnet.Row) r :
  cache_valid (CACHE st) (datetime_now w (tick st)) = Val None ->
  Testnet.fetch_trending_nfts w fuel st = (r, s') ->
  refetched Testnet.row_of_asset final_page_testnet (fun b => b = 0) w fuel st s' r.
Proof.
  intros Hmiss. unfold Testnet.fetch_trending_nfts. mstep. rewrite Hmiss. mstep.
  destruct (eth_get_balance w (S (tick st))) as [b|e|] eqn:Hbal; mstep.
  2,3: intros [= <- <-]; refetch_failed Hbal Hbal; congruence.
  unfold from_wei. destruct (Z.eqb_spec b 0) as [->|Hb]; cbn [mul_float].
  2: { intros [= <- <-]. refetch_failed Hbal Hbal. congruence. }
  case_pair.
  match goal with H : Testnet.fetch_pages _ _ _ _ _ = _ |- _ =>
    pose proof (final_pages_testnet _ _ _ _ _ _ _ H) as (evs' & Htrace' & Hstopf);
    pose proof (pages_honest_testnet _ _ _ _ _ _ _ H) as (evs2 & Htrace2 & Hhonest);
    apply fetch_pages_testnet in H as (Hcache & evs & Htrace & Hout & Hfirst & Hstop)
  end.
  rewrite Htrace in Htrace'. apply app_inv_head in Htrace'. subst evs'.
  rewrite Htrace in Htrace2. apply app_inv_head in Htrace2. subst evs2.
  simpl in Htrace. rewrite <- !app_assoc in Htrace. simpl in Htrace.
  destruct r0 as [rows|e|].
  - specialize (Hout rows eq_refl). simpl in Hout. subst rows.
    intros [= <- <-]. simpl. rewrite Htrace, <- !app_assoc. simpl.
    eexists. split; [reflexivity|]. split; [|split; [|split; [|split; [|split]]]].
    + intros out [= <-]. simpl. rewrite accumulated_app. simpl.
      rewrite app_nil_r. split; reflexivity.
    + intros pre url p resp post Heq Hbad.
      apply cons_eq_app in Heq as [(_ & Heq & _) | (pre1 & -> & Heq)];
        [discriminate Heq|].
      apply cons_eq_app in Heq as [(_ & Heq & _) | (pre2 & -> & Heq)];
        [discriminate Heq|].
      apply snoc_eq_app in Heq as (post' & -> & Heq); [|discriminate].
      destruct (Hstop _ _ _ _ _ Heq Hbad) as [-> Hval].
      injection Hval as Hrows. simpl. split; [reflexivity|]. now rewrite Hrows.
    + intros Hfuel b' _ _. destruct (Hfirst Hfuel) as (r0 & rest & -> & _). discriminate.
    + rewrite Hbal. eexists. reflexivity.
    + intros pre url p resp post Heq Hfinal Hconv.
      apply cons_eq_app in Heq as [(_ & Heq & _) | (pre1 & -> & Heq)];
        [discriminate Heq|].
      apply cons_eq_app in Heq as [(_ & Heq & _) | (pre2 & -> & Heq)];
        [discriminate Heq|].
      apply snoc_eq_app in Heq as (post' & -> & Heq); [|discriminate].
      destruct (Hstopf _ _ _ _ _ Heq Hfinal Hconv) as [Hpost Hval].
      injection Hval as Hrows. cbv zeta. simpl.
      rewrite requested_app, Hpost. rewrite <- Hrows. now repeat split.
    + honest_all.
  - intros [= <- <-]. unfold refetched. rewrite Htrace. refetch_failed Hstop Hstopf.
    intros Hfuel b' _ _. destruct (Hfirst Hfuel) as (r0 & rest & -> & _). discriminate.
  - intros [= <- <-]. unfold refetched. rewrite Htrace. refetch_failed Hstop Hstopf.
    intros Hfuel b' _ _. destruct (Hfirst Hfuel) as (r0 & rest & -> & _). discriminate.
Qed.

(** testnet.py, a cache miss with a balance other than 0: the product of the
    Decimal and the float raises, before the marketplace is asked. *)
Lemma fetch_crash_testnet (w : World) (fuel : nat) (st : State Testnet.Row) (b : Z) :
  cache_valid (CACHE st) (datetime_now w (tick st)) = Val None ->
  eth_get_balance w (S (tick st)) = Val b ->
  b <> 0 ->
  Testnet.fetch_trending_nfts w fuel st = crashed w st b.
Proof.
  intros Hmiss Hbal Hb. unfold Testnet.fetch_trending_nfts, crashed. mstep.
  rewrite Hmiss. mstep. rewrite Hbal. mstep.
  unfold from_wei. destruct (Z.eqb_spec b 0) as [->|_]; [contradiction|].
  cbn [mul_float]. now rewrite <- app_assoc.
Qed.

Lemma fetch_miss_troubleshoot (w : World) (fuel : nat) (st s' : State Troubleshoot.Row) r :
  cache_valid (CACHE st) (datetime_now w (tick st)) = Val None ->
  Troubleshoot.fetch_trending_nfts w fuel st = (r, s') ->
  refetched Troubleshoot.row_of_asset final_page_troubleshoot (fun _ => True)
    w fuel st s' r.
Proof.
  intros Hmiss. unfold Troubleshoot.fetch_trending_nfts. mstep. rewrite Hmiss. mstep.
  destruct (eth_get_balance w (S (tick st))) as [b|e|] eqn:Hbal; mstep.
  2,3: intros [= <- <-]; refetch_failed Hbal Hbal; congruence.
  case_pair.
  match goal with H : Troubleshoot.fetch_pages _ _ _ _ _ _ = _ |- _ =>
    pose proof (final_pages_troubleshoot _ _ _ _ _ _ _ _ H) as (evs' & Htrace' & Hstopf);
    pose proof (pages_honest_troubleshoot _ _ _ _ _ _ _ _ H) as (evs2 & Htrace2 & Hhonest);
    apply fetch_pages_troubleshoot in H as (Hcache & evs & Htrace & Hout & Hfirst & Hstop)
  end.
  rewrite Htrace in Htrace'. apply app_inv_head in Htrace'. subst evs'.
  rewrite Htrace in Htrace2. apply app_inv_head in Htrace2. subst evs2.
  simpl in Htrace. rewrite <- !app_assoc in Htrace. simpl in Htrace.
  destruct r0 as [rows|e|].
  - specialize (Hout rows eq_refl). simpl in Hout. subst rows.
    intros [= <- <-]. simpl. rewrite Htrace, <- !app_assoc. simpl.
    eexists. split; [reflexivity|]. split; [|split; [|split; [|split; [|split]]]].
    + intros out [= <-]. simpl. rewrite accumulated_app. simpl.
      rewrite app_nil_r. split; reflexivity.
    + intros pre url p resp post Heq Hbad.
      apply cons_eq_app in Heq as [(_ & Heq & _) | (pre1 & -> & Heq)];
        [discriminate Heq|].
      apply cons_eq_app in Heq as [(_ & Heq & _) | (pre2 & -> & Heq)];
        [discriminate Heq|].
      apply snoc_eq_app in Heq as (post' & -> & Heq); [|discriminate].
      destruct (Hstop _ _ _ _ _ Heq Hbad) as [-> Hval].
      injection Hval as Hrows. simpl. split; [reflexivity|]. now rewrite Hrows.
    + intros Hfuel b' _ _.
      destruct (Hfirst Hfuel) as (p & r0 & rest & -> & _). discriminate.
    + rewrite Hbal. eexists. reflexivity.
    + intros pre url p resp post Heq Hfinal Hconv.
      apply cons_eq_app in Heq as [(_ & Heq & _) | (pre1 & -> & Heq)];
        [discriminate Heq|].
      apply cons_eq_app in Heq as [(_ & Heq & _) | (pre2 & -> & Heq)];
        [discriminate Heq|].
      apply snoc_eq_app in Heq as (post' & -> & Heq); [|discriminate].
      destruct (Hstopf _ _ _ _ _ Heq Hfinal Hconv) as [Hpost Hval].
      injection Hval as Hrows. cbv zeta. simpl.
      rewrite requested_app, Hpost. rewrite <- Hrows. now repeat split.
    + honest_all.
  - intros [= <- <-]. unfold refetched. rewrite Htrace. refetch_failed Hstop Hstopf.
    intros Hfuel b' _ _.
    destruct (Hfirst Hfuel) as (p & r0 & rest & -> & _). discriminate.
  - intros [= <- <-]. unfold refetched. rewrite Htrace. refetch_failed Hstop Hstopf.
    intros Hfuel b' _ _.
    destruct (Hfirst Hfuel) as (p & r0 & rest & -> & _). discriminate.
Qed.

Lemma fetch_hit_testnet (w : World) (fuel : nat) (st : State Testnet.Row) df :
  cache_valid (CACHE st) (datetime_now w (tick st)) = Val (Some df) ->
  Testnet.fetch_trending_nfts w fuel st = served w st df.
Proof.
  intros Hhit. unfold Testnet.fetch_trending_nfts, served. mstep. rewrite Hhit. mstep.
  now rewrite <- app_assoc.
Qed.

Lemma fetch_hit_troubleshoot (w : World) (fuel : nat) (st : State Troubleshoot.Row) df :
  cache_valid (CACHE st) (datetime_now w (tick st)) = Val (Some df) ->
  Troubleshoot.fetch_trending_nfts w fuel st = served w st df.
Proof.
  intros Hhit. unfold Troubleshoot.fetch_trending_nfts, served. mstep. rewrite Hhit. mstep.
  now rewrite <- app_assoc.
Qed.

Lemma cache_law_of {R} (row_of_asset : Asset -> Result R) (final : Response -> Prop)
    (funded : Z -> Prop) (w : World) (fetch : nat -> M R (DataFrame R)) :
  (forall fuel st df,
      cache_valid (CACHE st) (datetime_now w (tick st)) = Val (Some df) ->
      fetch fuel st = served w st df) ->
  (forall fuel st r s',
      cache_valid (CACHE st) (datetime_now w (tick st)) = Val None ->
      fetch fuel st = (r, s') -> refetched row_of_asset final funded w fuel st s' r) ->
  (forall fuel st e r s',
      cache_valid (CACHE st) (datetime_now w (tick st)) = Exc e ->
      fetch fuel st = (r, s') -> r = Exc e) ->
  cache_law row_of_asset final funded w fetch.
Proof.
  intros Hhit Hmiss Hexc. repeat split.
  - intros fuel st df t0 H1 H2 Hlt. apply Hhit. now apply cache_valid_hit with t0.
  - intros fuel st df t0 r s' H1 H2 Hge. apply Hmiss.
    now apply cache_valid_expired with df t0.
  - intros fuel st r s' Hempty. apply Hmiss. now rewrite Hempty.
  - intros fuel fuel' st s1 s2 out Hrun Hcache Hlt.
    destruct (cache_valid (CACHE st) (datetime_now w (tick st))) as [[df|]|e|] eqn:Hvalid.
    + left. rewrite (Hhit fuel st df Hvalid) in Hrun |- *.
      unfold served in *. now injection Hrun as -> _.
    + right. pose proof (Hmiss _ _ _ _ Hvalid Hrun) as Hre. split; [exact Hre|].
      destruct Hre as (evs & _ & Hout & _).
      destruct (Hout out eq_refl) as [_ Hstored].
      apply Hhit. apply cache_valid_hit with (datetime_now w (tick st));
        rewrite ?Hcache, ?Hstored; auto.
    + apply (Hexc _ _ _ _ _ Hvalid) in Hrun. discriminate.
    + unfold cache_valid in Hvalid.
      destruct (trending_nfts (CACHE st)); [|discriminate].
      destruct (last_fetched (CACHE st)); discriminate.
Qed.

(** C6.  The contract of the cache check.  In both scripts a call within
    the TTL of the stored entry returns the cached frame and fetches nothing
    (the clock is read and the hit logged), and of two calls less than the
    TTL apart at most one fetches.  At or after expiry, and on an empty
    cache, troubleshoot.py reads the balance and asks the marketplace; as
    soon as a final page arrives it returns the rows of all pages received
    and stores them under the time read at the start of the call, and a
    frame it returns is never the stale one.  testnet.py does the same only
    when the balance it reads is 0: with any other balance the call raises
    TypeError right after the balance read, asks nothing and stores
    nothing, so that call is not served at all. *)
Theorem C6_cache_ttl (w : World) :
  cache_law Testnet.row_of_asset final_page_testnet (fun b => b = 0) w
    (Testnet.fetch_trending_nfts w) /\
  cache_law Troubleshoot.row_of_asset final_page_troubleshoot (fun _ => True) w
    (Troubleshoot.fetch_trending_nfts w) /\
  (forall fuel (st : State Testnet.Row) b,
      cache_valid (CACHE st) (datetime_now w (tick st)) = Val None ->
      eth_get_balance w (S (tick st)) = Val b ->
      b <> 0 ->
      Testnet.fetch_trending_nfts w fuel st = crashed w st b).
Proof.
  split; [|split]; [apply cache_law_of | apply cache_law_of |].
  - intros. now apply fetch_hit_testnet.
  - intros. now apply fetch_miss_testnet.
  - intros fuel st e r s' Hvalid. unfold Testnet.fetch_trending_nfts. mstep.
    rewrite Hvalid. mstep. now intros [= <- _].
  - intros. now apply fetch_hit_troubleshoot.
  - intros. now apply fetch_miss_troubleshoot.
  - intros fuel st e r s' Hvalid. unfold Troubleshoot.fetch_trending_nfts. mstep.
    rewrite Hvalid. mstep. now intros [= <- _].
  - intros. now apply fetch_crash_testnet.
Qed.

Lemma C6_witness :
  Testnet.fetch_trending_nfts just_before_expiry 3 cached_at_0
    = served just_before_expiry cached_at_0 (Frame [priced_row]) /\
  Troubleshoot.fetch_trending_nfts just_before_expiry 3 cached_at_0'
    = served just_before_expiry cached_at_0' (Frame [priced_row']) /\
  Testnet.fetch_trending_nfts at_expiry 3 cached_at_0
    = crashed at_expiry cached_at_0 (10 * 10 ^ 18) /\
  (let run := Troubleshoot.fetch_trending_nfts at_expiry 3 cached_at_0' in
   run.1 = Val (Frame [ape_row']) /\
   CACHE run.2 = {| trending_nfts := Some (Frame [ape_row']);
                    last_fetched := Some 600000000 |}) /\
  (let run := Testnet.fetch_trending_nfts empty_at_expiry 3 cached_at_0 in
   run.1 = Val (Frame [ape_row]) /\
   CACHE run.2 = {| trending_nfts := Some (Frame [ape_row]);
                    last_fetched := Some 600000000 |}).
Proof.
  split; [|split; [|split; [|split]]].
  - apply (proj1 (proj1 (C6_cache_ttl just_before_expiry)) 3%nat cached_at_0
             (Frame [priced_row]) 0); [reflexivity | reflexivity | vm_compute; reflexivity].
  - apply (proj1 (proj1 (proj2 (C6_cache_ttl just_before_expiry))) 3%nat cached_at_0'
             (Frame [priced_row']) 0); [reflexivity | reflexivity | vm_compute; reflexivity].
  - apply (proj2 (proj2 (C6_cache_ttl at_expiry)) 3%nat cached_at_0 (10 * 10 ^ 18));
      [reflexivity | reflexivity | discriminate].
  - destruct (proj1 (proj2 (proj1 (proj2 (C6_cache_ttl at_expiry)))) 3%nat cached_at_0'
                (Frame [priced_row']) 0 _ _ eq_refl eq_refl
                ltac:(vm_compute; discriminate) (surjective_pairing _))
      as (evs & Htrace & _ & _ & _ & _ & Hfinal & _).
    vm_compute in Htrace. injection Htrace as <-.
    destruct (Hfinal [_; _] Troubleshoot.ASSETS_URL base_request one_listing [_] eq_refl)
      as (_ & Hr & Hc).
    + right. exists {| json_assets := Some [gold_ape]; json_next := None |}.
      split; [reflexivity | now right].
    + intros _ data [= <-]. eexists. reflexivity.
    + split; [exact Hr | exact Hc].
  - destruct (proj1 (proj2 (proj1 (C6_cache_ttl empty_at_expiry))) 3%nat cached_at_0
                (Frame [priced_row]) 0 _ _ eq_refl eq_refl
                ltac:(vm_compute; discriminate) (surjective_pairing _))
      as (evs & Htrace & _ & _ & _ & _ & Hfinal & _).
    vm_compute in Htrace. injection Htrace as <-.
    destruct (Hfinal [_; _; _; _] Testnet.ASSETS_URL _ empty_page [_] eq_refl)
      as (_ & Hr & Hc).
    + right. exists {| json_assets := Some []; json_next := None |}. now split.
    + intros _ data [= <-]. eexists. reflexivity.
    + split; [exact Hr | exact Hc].
Defined.

Lemma fetch_cases_testnet (w : World) (fuel : nat) (st s' : State Testnet.Row) r :
  Testnet.fetch_trending_nfts w fuel st = (r, s') ->
  fetch_outcome Testnet.row_of_asset final_page_testnet (fun b => b = 0) w fuel st s' r.
Proof.
  intros Hrun. unfold fetch_outcome.
  destruct (cache_valid (CACHE st) (datetime_now w (tick st))) as [[df|]|e|] eqn:Hvalid.
  - left. exists df. split; [reflexivity|]. rewrite <- Hrun. now apply fetch_hit_testnet.
  - right; left. split; [reflexivity|]. now apply fetch_miss_testnet.
  - right; right. exists e. revert Hrun. unfold Testnet.fetch_trending_nfts. mstep.
    rewrite Hvalid. mstep. now intros [= <- <-].
  - unfold cache_valid in Hvalid.
    destruct (trending_nfts (CACHE st)); [|discriminate].
    destruct (last_fetched (CACHE st)); discriminate.
Qed.

Lemma fetch_cases_troubleshoot (w : World) (fuel : nat) (st s' : State Troubleshoot.Row) r :
  Troubleshoot.fetch_trending_nfts w fuel st = (r, s') ->
  fetch_outcome Troubleshoot.row_of_asset final_page_troubleshoot (fun _ => True)
    w fuel st s' r.
Proof.
  intros Hrun. unfold fetch_outcome.
  destruct (cache_valid (CACHE st) (datetime_now w (tick st))) as [[df|]|e|] eqn:Hvalid.
  - left. exists df. split; [reflexivity|]. rewrite <- Hrun. now apply fetch_hit_troubleshoot.
  - right; left. split; [reflexivity|]. now apply fetch_miss_troubleshoot.
  - right; right. exists e. revert Hrun. unfold Troubleshoot.fetch_trending_nfts. mstep.
    rewrite Hvalid. mstep. now intros [= <- <-].
  - unfold cache_valid in Hvalid.
    destruct (trending_nfts (CACHE st)); [|discriminate].
    destruct (last_fetched (CACHE st)); discriminate.
Qed.

Section CacheChecked.
Context {R : Type} (row_of_asset : Asset -> Result R) (final : Response -> Prop)
  (funded : Z -> Prop) (w : World).
Variable fetch : nat -> M R (DataFrame R).
Hypothesis fetch_cases :
  forall fuel st r s',
    fetch fuel st = (r, s') -> fetch_outcome row_of_asset final funded w fuel st s' r.
Hypothesis fetch_hit :
  forall fuel st df,
    cache_valid (CACHE st) (datetime_now w (tick st)) = Val (Some df) ->
    fetch fuel st = served w st df.

(** A failed page can only be seen by a fetch that went to the marketplace. *)
Lemma failed_page_refetched fuel st r s' pre :
  fetch fuel st = (r, s') ->
  failed_page st s' pre ->
  exists pre', pre = EvNow (datetime_now w (tick st)) :: pre' /\
               r = Val (pd_DataFrame (accumulated row_of_asset pre')) /\
               CACHE s' = {| trending_nfts := Some (pd_DataFrame (accumulated row_of_asset pre'));
                             last_fetched := Some (datetime_now w (tick st)) |}.
Proof.
  intros Hrun (url & p & resp & post & Htrace & Hbad).
  destruct (fetch_cases _ _ _ _ Hrun) as [(df & _ & Hserved) | [(_ & Hre) | (e & _ & Ht & _)]].
  - injection Hserved as _ ->. simpl in Htrace.
    apply app_inv_head in Htrace. exfalso. revert Htrace. now apply no_request_inside.
  - destruct Hre as (evs & Ht & Hout & Hstop & _).
    rewrite Ht in Htrace. apply app_inv_head in Htrace.
    apply cons_eq_app in Htrace as [(_ & Heq & _) | (pre' & -> & Heq)];
      [discriminate Heq|].
    destruct (Hstop _ _ _ _ _ Heq Hbad) as [_ ->].
    exists pre'. split; [reflexivity|]. split; [reflexivity|].
    destruct (Hout _ eq_refl) as [_ ->]. reflexivity.
  - rewrite Ht in Htrace. apply app_inv_head in Htrace.
    exfalso. revert Htrace. now apply no_request_inside.
Qed.

Lemma failure_cached_of : failure_cached row_of_asset w fetch.
Proof.
  intros fuel st r s' pre Hrun Hfailed now df.
  destruct (failed_page_refetched _ _ _ _ _ Hrun Hfailed) as (pre' & -> & -> & Hcache).
  subst df. simpl. split; [reflexivity|]. split; [exact Hcache|].
  intros fuel' s2 Hsame Hlt.
  assert (Hserved : fetch fuel' s2
                    = served w s2 (pd_DataFrame (accumulated row_of_asset pre'))).
  { apply fetch_hit. apply cache_valid_hit with now; rewrite ?Hsame, ?Hcache; auto. }
  split; [exact Hserved|]. rewrite Hserved. simpl.
  rewrite requested_app. simpl. now rewrite app_nil_r.
Qed.
End CacheChecked.

(** C10.  A fetch that ends early on a status other than 200, on whatever
    page, still stores what it collected (nothing at all when the first page
    fails) in the cache, under the time read at the start of the call; every
    cache-checked call within the TTL of that time is then served this frame
    and sends no request to the marketplace.  Both scripts. *)
Theorem C10_failed_fetch_is_cached (w : World) :
  failure_cached Testnet.row_of_asset w (Testnet.fetch_trending_nfts w) /\
  failure_cached Troubleshoot.row_of_asset w (Troubleshoot.fetch_trending_nfts w).
Proof.
  split;
    [ apply (failure_cached_of _ final_page_testnet (fun b => b = 0))
    | apply (failure_cached_of _ final_page_troubleshoot (fun _ => True)) ].
  - intros. now apply fetch_cases_testnet.
  - intros. now apply fetch_hit_testnet.
  - intros. now apply fetch_cases_troubleshoot.
  - intros. now apply fetch_hit_troubleshoot.
Qed.

Lemma C10_witness :
  (Testnet.fetch_trending_nfts failing_marketplace 3 init).1 = Val NoColumns /\
  (Troubleshoot.fetch_trending_nfts failing_marketplace 3 init).1 = Val NoColumns.
Proof.
  split.
  - refine (proj1 (proj1 (C10_failed_fetch_is_cached failing_marketplace) 3%nat init _ _
                     fetch_prelude (surjective_pairing _) _)).
    eexists _, _, _, _. split; [reflexivity | vm_compute; discriminate].
  - refine (proj1 (proj2 (C10_failed_fetch_is_cached failing_marketplace) 3%nat init _ _
                     fetch_prelude' (surjective_pairing _) _)).
    eexists _, _, _, _. split; [reflexivity | vm_compute; discriminate].
Defined.

(** ** A failed page *)

Lemma accumulated_no_request {R} (f : Asset -> Result R) (tr : list Event) :
  requested tr = [] -> accumulated f tr = [].
Proof.
  induction tr as [|e tr IH]; [reflexivity|].
  destruct e; simpl; try exact IH. discriminate.
Qed.

Lemma stops_and_returns_of {R} (row_of_asset : Asset -> Result R)
    (final : Response -> Prop) (funded : Z -> Prop) (w : World)
    (fetch : nat -> M R (DataFrame R)) :
  (forall fuel st r s', fetch fuel st = (r, s') ->
                        fetch_outcome row_of_asset final funded w fuel st s' r) ->
  stops_and_returns row_of_asset fetch.
Proof.
  intros Hcases fuel st r s' pre url p resp post Hrun Htrace Hbad.
  destruct (Hcases _ _ _ _ Hrun) as [(df & _ & Hserved) | [(_ & Hre) | (e & _ & Ht & _)]].
  - injection Hserved as _ ->. simpl in Htrace.
    apply app_inv_head in Htrace. exfalso. revert Htrace. now apply no_request_inside.
  - destruct Hre as (evs & Ht & _ & Hstop & _).
    rewrite Ht in Htrace. apply app_inv_head in Htrace.
    apply cons_eq_app in Htrace as [(_ & Heq & _) | (pre' & -> & Heq)];
      [discriminate Heq|].
    destruct (Hstop _ _ _ _ _ Heq Hbad) as [Hpost ->].
    split; [exact Hpost|]. split; [reflexivity|].
    intros Hnone. simpl in Hnone |- *.
    now rewrite (accumulated_no_request _ _ Hnone).
  - rewrite Ht in Htrace. apply app_inv_head in Htrace.
    exfalso. revert Htrace. now apply no_request_inside.
Qed.

(** troubleshoot.py: an empty frame sends the cycle straight to the cooldown. *)
Lemma empty_fetch_cools_down (w : World) (fuel : nat) (st s1 : State Troubleshoot.Row) df :
  Troubleshoot.fetch_trending_nfts w fuel (started st) = (Val df, s1) ->
  df_empty df = true ->
  Troubleshoot.cycle w fuel st =
    (match time_sleep w (tick s1) 60 with
     | Val _ => Val tt
     | Exc e => Exc e
     | Diverge => Diverge
     end, cooled_down w s1).
Proof.
  intros Hfetch Hempty. unfold started in Hfetch. unfold Troubleshoot.cycle, cooled_down.
  mstep. rewrite Hfetch. mstep. rewrite Hempty. cbn [negb]. mstep.
  rewrite <- app_assoc.
  destruct (time_sleep w (tick s1) 60) as [[]|e|]; reflexivity.
Qed.

(** testnet.py: the frame without columns makes the trait filter raise. *)
Lemma empty_fetch_crashes (w : World) (fuel : nat) (st s1 : State Testnet.Row) :
  Testnet.fetch_trending_nfts w fuel (started st) = (Val NoColumns, s1) ->
  Testnet.cycle w fuel st =
    (Exc (KeyError "traits"),
     {| tick := tick s1;
        trace := trace s1 ++ [EvLog INFO (Retrieved 0)];
        CACHE := CACHE s1 |}).
Proof.
  intros Hfetch. unfold started in Hfetch. unfold Testnet.cycle.
  mstep. rewrite Hfetch. mstep. reflexivity.
Qed.

(** C7.  In both scripts a page answered with a status other than 200 ends
    the fetch: no further page is requested, the rows of the earlier pages
    are returned, and a failure on the first page returns the empty frame.
    In troubleshoot.py the cycle then goes from the fetch straight to the
    cooldown.  In testnet.py it does not: the empty frame has no columns, the
    trait filter raises KeyError, nothing catches it, and [monitor_and_trade]
    ends with that exception instead of reaching the cooldown. *)
Theorem C7_failed_page (w : World) :
  (stops_and_returns Testnet.row_of_asset (Testnet.fetch_trending_nfts w) /\
   stops_and_returns Troubleshoot.row_of_asset (Troubleshoot.fetch_trending_nfts w)) /\
  (forall fuel (st s1 : State Troubleshoot.Row) df,
      Troubleshoot.fetch_trending_nfts w fuel (started st) = (Val df, s1) ->
      df_empty df = true ->
      Troubleshoot.cycle w fuel st =
        (match time_sleep w (tick s1) 60 with
         | Val _ => Val tt
         | Exc e => Exc e
         | Diverge => Diverge
         end, cooled_down w s1)) /\
  (forall cycles fuel (st s1 : State Testnet.Row),
      Testnet.fetch_trending_nfts w fuel (started st) = (Val NoColumns, s1) ->
      Testnet.monitor_and_trade w (S cycles) fuel st =
        (Exc (KeyError "traits"),
         {| tick := tick s1;
            trace := trace s1 ++ [EvLog INFO (Retrieved 0)];
            CACHE := CACHE s1 |})) /\
  ((Troubleshoot.cycle failing_marketplace 3 init).1 = Val tt /\
   submitted (trace (Troubleshoot.cycle failing_marketplace 3 init).2) = [] /\
   posted (trace (Troubleshoot.cycle failing_marketplace 3 init).2) = [] /\
   (Testnet.fetch_trending_nfts failing_marketplace 3 (started init)).1 = Val NoColumns /\
   (Testnet.monitor_and_trade failing_marketplace 3 3 init).1 = Exc (KeyError "traits") /\
   statuses (trace (Testnet.monitor_and_trade failing_marketplace 3 3 init).2) = [500]).
Proof.
  split; [|split; [|split]].
  - split;
      [ apply (stops_and_returns_of _ final_page_testnet (fun b => b = 0) w)
      | apply (stops_and_returns_of _ final_page_troubleshoot (fun _ => True) w) ].
    + intros. now apply fetch_cases_testnet.
    + intros. now apply fetch_cases_troubleshoot.
  - intros fuel st s1 df Hfetch Hempty. now apply empty_fetch_cools_down with df.
  - intros cycles fuel st s1 Hfetch.
    unfold Testnet.monitor_and_trade. cbn [Testnet.loop]. mstep.
    now rewrite (empty_fetch_crashes _ _ _ _ Hfetch).
  - vm_compute. repeat split.
Qed.

Lemma C7_witness :
  (Testnet.monitor_and_trade failing_marketplace 1 3 init).1 = Exc (KeyError "traits") /\
  (Troubleshoot.cycle failing_marketplace 3 init).1 = Val tt.
Proof.
  split.
  - rewrite (proj1 (proj2 (proj2 (C7_failed_page failing_marketplace))) 0%nat 3%nat init
               (Testnet.fetch_trending_nfts failing_marketplace 3 (started init)).2);
      [reflexivity | vm_compute; reflexivity].
  - rewrite (proj1 (proj2 (C7_failed_page failing_marketplace)) 3%nat init
               (Troubleshoot.fetch_trending_nfts failing_marketplace 3 (started init)).2
               NoColumns); [reflexivity | vm_compute; reflexivity | reflexivity].
Defined.

(** ** Buying, relisting and the errors of a cycle *)

(** C1.  In troubleshoot.py a broadcast that the node rejects does not stop
    the relist.  [execute_buy] catches the exception and returns its message;
    [monitor_and_trade] takes every string other than the spend-limit message
    for a transaction hash, logs the purchase and posts the sell order, at
    the [potential_profit] of a listing that was not bought. *)
Theorem C1_relist_after_failed_buy :
  let run := Troubleshoot.cycle rejected_broadcast 3 init in
  run.1 = Val tt /\
  broadcasts (trace run.2)
    = [Exc (Exception "insufficient funds for gas * price + value")] /\
  In (ERROR, FailedTransaction "insufficient funds for gas * price + value")
     (logged (trace run.2)) /\
  In (INFO, Purchased "1" (wei_to_eth (Some (10 ^ 18)))) (logged (trace run.2)) /\
  posted (trace run.2)
    = [ {| payload_token_id := "1";
           payload_token_address := "0xabc";
           start_amount := Troubleshoot.potential_profit (Troubleshoot.score ape_row');
           expiration_time := 1700000000 + 86400 |} ].
Proof.
  vm_compute. repeat split; auto 10.
Qed.

(** C2, as stated, fails: with valid credentials and no cancellation request,
    a connection error during the first listing request ends troubleshoot.py
    with exit status 1. *)
Lemma C2_counterexample : ~ only_startup_or_cancel_ends.
Proof.
  intros H.
  destruct (H broken_connection 3%nat 3%nat _ _ (surjective_pairing _)) as [Hd | [Hs | Hc]].
  - vm_compute in Hd. discriminate.
  - apply Hs. vm_compute. reflexivity.
  - vm_compute in Hc. discriminate.
Qed.

Ltac calm_absurd :=
  match goal with
  | H : ?t = _ |- _ =>
      let Q := fresh "Q" in
      assert (Q : quiet t) by auto; rewrite H in Q; exact (False_ind _ Q)
  end.

Lemma errors_logged_app (evs1 evs2 : list Event) :
  errors_logged evs1 -> errors_logged evs2 -> errors_logged (evs1 ++ evs2).
Proof.
  intros H1 H2 e msg Hin Hr. apply in_app_or in Hin as [Hin | Hin].
  - destruct (H1 _ _ Hin Hr); [left | right]; apply in_or_app; now left.
  - destruct (H2 _ _ Hin Hr); [left | right]; apply in_or_app; now right.
Qed.

Lemma errors_logged_quiet (evs : list Event) :
  (forall e, In e evs -> raised e = None) -> errors_logged evs.
Proof. intros H e msg Hin Hr. rewrite (H e Hin) in Hr. discriminate. Qed.

Ltac errors_here :=
  let e := fresh "e" in
  let msg := fresh "msg" in
  let Hin := fresh "Hin" in
  let Hr := fresh "Hr" in
  intros e msg Hin Hr; simpl in Hin;
  repeat (destruct Hin as [<- | Hin]); try contradiction;
  simpl in Hr; try discriminate Hr; injection Hr as <-; simpl; auto 20.

Ltac rejection_here :=
  let p := fresh "p" in
  let Hin := fresh "Hin" in
  intros p Hin; simpl in Hin;
  repeat (destruct Hin as [Hin | Hin]); try discriminate Hin; try contradiction;
  split; reflexivity.

(** In a calm world [execute_buy] of troubleshoot.py always returns a string,
    with every exception a call raised logged; it posts nothing, and where it
    logs the rejection of the spend guard it returns the rejection text and
    has signed and sent nothing. *)
Lemma buy_handled (w : World) (tid : string) (price : float)
    (st : State Troubleshoot.Row) :
  calm w ->
  exists s s' evs,
    Troubleshoot.execute_buy w tid price st = (Val s, s') /\
    trace s' = trace st ++ evs /\
    errors_logged evs /\
    posted evs = [] /\
    (forall p, In (EvLog ERROR (PriceExceeds p)) evs -> s = EXCEEDS /\ submitted evs = []).
Proof.
  intros (Hbal & Hnonce & Hgas & Hsign & Hsend & Hwei & _ & _).
  unfold Troubleshoot.execute_buy.
  crunch; try calm_absurd;
    repeat rewrite <- app_assoc; eexists _, _, _;
    (split; [reflexivity|]); (split; [reflexivity|]);
    (split; [errors_here|]); (split; [reflexivity|]); rejection_here.
Qed.

Lemma relist_handled (w : World) (tid : string) (price : float) (contract : string)
    (st : State Troubleshoot.Row) :
  calm w ->
  exists r s' evs,
    Troubleshoot.relist_nft w tid price contract st = (Val r, s') /\
    trace s' = trace st ++ evs /\
    errors_logged evs /\
    submitted evs = [] /\
    (forall p, ~ In (EvLog ERROR (PriceExceeds p)) evs).
Proof.
  intros (_ & _ & _ & _ & _ & _ & Hpost & _).
  unfold Troubleshoot.relist_nft.
  crunch; try calm_absurd;
    repeat match goal with
           | |- context [match post_json ?a with _ => _ end] =>
               destruct (post_json a) eqn:?; unfold JSONDecodeError; mstep
           end;
    repeat rewrite <- app_assoc; eexists _, _, _;
    (split; [reflexivity|]); (split; [reflexivity|]);
    (split; [errors_here|]); (split; [reflexivity|]);
    intros p Hin; simpl in Hin;
    repeat (destruct Hin as [Hin | Hin]); try discriminate Hin; contradiction.
Qed.

(** troubleshoot.py: in a calm world, a cycle whose fetch returned contains
    whatever fails while buying or relisting. *)
Lemma cycle_contained (w : World) (fuel : nat) (st s1 : State Troubleshoot.Row) df :
  calm w ->
  Troubleshoot.fetch_trending_nfts w fuel (started st) = (Val df, s1) ->
  contained s1 (Troubleshoot.cycle w fuel st).
Proof.
  intros Hcalm Hfetch.
  assert (Hsleep : forall n secs, time_sleep w n secs = Val tt) by apply Hcalm.
  unfold started in Hfetch. unfold Troubleshoot.cycle, contained.
  mstep. rewrite Hfetch. mstep.
  destruct (df_empty df) eqn:Hempty; cbn [negb]; mstep.
  { rewrite Hsleep. exists []. split; [reflexivity|].
    split; [cbn [fst snd trace app]; now rewrite <- app_assoc|].
    split; [intros e msg [] | intros p []]. }
  destruct df as [|rows]; [discriminate|].
  cbn [Troubleshoot.calculate_profitability Troubleshoot.positive_margin getitem df_rows].
  mstep.
  cbn [Troubleshoot.positive_margin getitem df_rows]. mstep.
  destruct (List.filter _ _) as [|top_nft rest]; mstep.
  { rewrite Hsleep. eexists [_; _]. split; [reflexivity|].
    split; [cbn [fst snd trace]; repeat rewrite <- app_assoc; reflexivity|].
    split; [errors_here|].
    intros p Hin. simpl in Hin. decompose [or] Hin; try discriminate; contradiction. }
  match goal with
  | |- context [Troubleshoot.execute_buy w ?tid ?price ?s0] =>
      destruct (buy_handled w tid price s0 Hcalm)
        as (bought & s2 & evs_b & Hbuy & Htr2 & Herr_b & Hpost_b & Hrej_b);
      rewrite Hbuy
  end.
  mstep. cbn [trace] in Htr2. repeat rewrite <- app_assoc in Htr2.
  destruct (negb (bought =? EXCEEDS)%string) eqn:Hex; mstep.
  - match goal with
    | |- context [Troubleshoot.relist_nft w ?tid ?price ?c ?s0] =>
        destruct (relist_handled w tid price c s0 Hcalm)
          as (relisted & s3 & evs_r & Hrelist & Htr3 & Herr_r & Hsub_r & Hrej_r);
        rewrite Hrelist
    end.
    mstep. cbn [trace] in Htr3. rewrite Htr2 in Htr3. repeat rewrite <- app_assoc in Htr3.
    assert (Hno : forall p, ~ In (EvLog ERROR (PriceExceeds p)) evs_b).
    { intros p Hin. destruct (Hrej_b p Hin) as [-> _]. discriminate Hex. }
    destruct (Troubleshoot.relist_truthy relisted); mstep; rewrite Hsleep;
      cbn [fst snd trace]; rewrite Htr3; repeat rewrite <- app_assoc;
      (eexists (_ :: _ :: evs_b ++ _ :: evs_r ++ [_]));
      (split; [reflexivity|]);
      (split; [repeat first [rewrite <- app_assoc | progress cbn [app]]; reflexivity|]);
      (split;
       [ apply (errors_logged_app [_; _]); [errors_here|];
         apply errors_logged_app; [exact Herr_b|];
         apply (errors_logged_app [_]); [errors_here|];
         apply errors_logged_app; [exact Herr_r | errors_here]
       | intros p Hin; exfalso; simpl in Hin;
         destruct Hin as [Hin | [Hin | Hin]]; try discriminate Hin;
         apply in_app_or in Hin as [Hin | Hin]; [now apply (Hno p)|];
         simpl in Hin; destruct Hin as [Hin | Hin]; [discriminate Hin|];
         apply in_app_or in Hin as [Hin | Hin]; [now apply (Hrej_r p)|];
         simpl in Hin; destruct Hin as [Hin | []]; discriminate Hin ]).
  - rewrite Hsleep. cbn [fst snd trace]. rewrite Htr2. repeat rewrite <- app_assoc.
    exists (EvLog INFO (Retrieved (df_len (Frame rows)))
            :: EvLog INFO (Identified (df_len (Frame (top_nft :: rest)))) :: evs_b).
    split; [reflexivity|].
    split; [repeat first [rewrite <- app_assoc | progress cbn [app]]; reflexivity|].
    split.
    + apply (errors_logged_app [_; _]); [errors_here | exact Herr_b].
    + intros p Hin. simpl in Hin.
      destruct Hin as [Hin | [Hin | Hin]]; try discriminate Hin.
      destruct (Hrej_b p Hin) as [_ Hsub].
      match goal with
      | |- submitted (?a :: ?b :: evs_b) = [] /\ _ =>
          change (submitted ([a; b] ++ evs_b) = [] /\ posted ([a; b] ++ evs_b) = [])
      end.
      rewrite submitted_app, posted_app, Hsub, Hpost_b. now split.
Qed.

(** troubleshoot.py: an exception that leaves the fetch reaches the handler
    of [monitor_and_trade], which logs it and exits with status 1. *)
Lemma fetch_error_exits (w : World) (cycles fuel : nat)
    (st s1 : State Troubleshoot.Row) (msg : string) :
  Troubleshoot.fetch_trending_nfts w fuel (started st) = (Exc (Exception msg), s1) ->
  Troubleshoot.monitor_and_trade w (S cycles) fuel st =
    (Exc (SystemExit 1),
     {| tick := tick s1;
        trace := trace s1 ++ [EvLog ERROR (UnexpectedError msg)];
        CACHE := CACHE s1 |}).
Proof.
  intros Hfetch. unfold started in Hfetch.
  unfold Troubleshoot.monitor_and_trade. cbn [Troubleshoot.loop].
  unfold Troubleshoot.cycle. mstep. rewrite Hfetch. mstep. reflexivity.
Qed.

Lemma never_raises_exception (w : World) (cycles fuel : nat)
    (st : State Troubleshoot.Row) (msg : string) :
  (Troubleshoot.monitor_and_trade w cycles fuel st).1 <> Exc (Exception msg).
Proof.
  unfold Troubleshoot.monitor_and_trade. mstep.
  destruct (Troubleshoot.loop w cycles fuel st) as [[[]|[m| |c]|] s']; simpl; discriminate.
Qed.

Lemma next_cycle (w : World) (cycles fuel : nat) (st s1 : State Troubleshoot.Row) :
  Troubleshoot.cycle w fuel st = (Val tt, s1) ->
  Troubleshoot.monitor_and_trade w (S cycles) fuel st
    = Troubleshoot.monitor_and_trade w cycles fuel s1.
Proof.
  intros Hcycle. unfold Troubleshoot.monitor_and_trade. cbn [Troubleshoot.loop].
  mstep. now rewrite Hcycle.
Qed.

Lemma stopped_by_user (w : World) (cycles fuel : nat)
    (st s1 : State Troubleshoot.Row) :
  Troubleshoot.cycle w fuel st = (Exc KeyboardInterrupt, s1) ->
  Troubleshoot.monitor_and_trade w (S cycles) fuel st
  = (Val tt,
     {| tick := tick s1;
        trace := trace s1 ++ [EvLog INFO StoppedByUser];
        CACHE := CACHE s1 |}).
Proof.
  intros Hcycle. unfold Troubleshoot.monitor_and_trade. cbn [Troubleshoot.loop].
  mstep. now rewrite Hcycle.
Qed.

Lemma exit_passes (w : World) (cycles fuel : nat) (st s1 : State Troubleshoot.Row)
    (code : Z) :
  Troubleshoot.cycle w fuel st = (Exc (SystemExit code), s1) ->
  Troubleshoot.monitor_and_trade w (S cycles) fuel st = (Exc (SystemExit code), s1).
Proof.
  intros Hcycle. unfold Troubleshoot.monitor_and_trade. cbn [Troubleshoot.loop].
  mstep. now rewrite Hcycle.
Qed.

(** C2, amended.  troubleshoot.py contains the errors of the buy and relist
    steps and exits on the others:
    - in a world where no call is interrupted or hangs, a cycle whose fetch
      returned (also after a status other than 200) returns: every exception
      that a call of the buy or of the relist raised is caught and logged as
      an error, a rejection by the spend guard is logged and ends the
      purchase with nothing signed, sent or posted, and the cycle ends with
      the line of its completion and its 60-second sleep; the loop then goes
      on with the next cycle;
    - an exception raised by the fetch itself reaches [monitor_and_trade],
      which logs it and exits with status 1; no exception of class Exception
      leaves [monitor_and_trade] otherwise;
    - a credential rejected at startup ends the process before the loop;
    - a KeyboardInterrupt that reaches [monitor_and_trade] makes it log the
      stop and return; a SystemExit (raised by the signal handler) passes
      through it.
    testnet.py catches KeyboardInterrupt only: an exception raised in a
    cycle ends the process. *)
Theorem C2_contained_or_exit (w : World) :
  (calm w ->
   forall fuel (st s1 : State Troubleshoot.Row) df,
     Troubleshoot.fetch_trending_nfts w fuel (started st) = (Val df, s1) ->
     contained s1 (Troubleshoot.cycle w fuel st)) /\
  (forall cycles fuel (st s1 : State Troubleshoot.Row),
      Troubleshoot.cycle w fuel st = (Val tt, s1) ->
      Troubleshoot.monitor_and_trade w (S cycles) fuel st
        = Troubleshoot.monitor_and_trade w cycles fuel s1) /\
  (forall cycles fuel (st s1 : State Troubleshoot.Row) msg,
      Troubleshoot.fetch_trending_nfts w fuel (started st) = (Exc (Exception msg), s1) ->
      Troubleshoot.monitor_and_trade w (S cycles) fuel st =
        (Exc (SystemExit 1),
         {| tick := tick s1;
            trace := trace s1 ++ [EvLog ERROR (UnexpectedError msg)];
            CACHE := CACHE s1 |})) /\
  (forall cycles fuel (st : State Troubleshoot.Row) msg,
      (Troubleshoot.monitor_and_trade w cycles fuel st).1 <> Exc (Exception msg)) /\
  (forall cycles fuel (st : State Troubleshoot.Row) e,
      Troubleshoot.startup w = Exc e ->
      Troubleshoot.main w cycles fuel st = (Exc e, st)) /\
  (forall cycles fuel (st s1 : State Troubleshoot.Row),
      Troubleshoot.cycle w fuel st = (Exc KeyboardInterrupt, s1) ->
      Troubleshoot.monitor_and_trade w (S cycles) fuel st
      = (Val tt,
         {| tick := tick s1;
            trace := trace s1 ++ [EvLog INFO StoppedByUser];
            CACHE := CACHE s1 |})) /\
  (forall cycles fuel (st s1 : State Troubleshoot.Row) code,
      Troubleshoot.cycle w fuel st = (Exc (SystemExit code), s1) ->
      Troubleshoot.monitor_and_trade w (S cycles) fuel st = (Exc (SystemExit code), s1)) /\
  (forall cycles fuel (st s1 : State Testnet.Row) msg,
      Testnet.cycle w fuel st = (Exc (Exception msg), s1) ->
      Testnet.monitor_and_trade w (S cycles) fuel st = (Exc (Exception msg), s1)).
Proof.
  split; [|split; [|split; [|split; [|split; [|split; [|split]]]]]].
  - intros Hcalm fuel st s1 df Hfetch. now apply cycle_contained with df.
  - intros. now apply next_cycle.
  - intros. now apply fetch_error_exits.
  - intros. apply never_raises_exception.
  - intros cycles fuel st e Hstart. unfold Troubleshoot.main. mstep. now rewrite Hstart.
  - intros. now apply stopped_by_user.
  - intros. now apply exit_passes.
  - intros cycles fuel st s1 msg Hcycle.
    unfold Testnet.monitor_and_trade. cbn [Testnet.loop]. mstep. now rewrite Hcycle.
Qed.

Lemma rejected_broadcast_calm : calm rejected_broadcast.
Proof. repeat split; intros; exact I. Qed.

Lemma C2_witness :
  contained (Troubleshoot.fetch_trending_nfts rejected_broadcast 3 (started init)).2
    (Troubleshoot.cycle rejected_broadcast 3 init) /\
  (Troubleshoot.monitor_and_trade broken_connection 1 3 init).1 = Exc (SystemExit 1) /\
  (Troubleshoot.monitor_and_trade interrupted_sleep 2 3 init).1 = Val tt.
Proof.
  split; [|split].
  - apply (proj1 (C2_contained_or_exit rejected_broadcast) rejected_broadcast_calm 3%nat init
             _ (Frame [ape_row'])).
    vm_compute. reflexivity.
  - rewrite (proj1 (proj2 (proj2 (C2_contained_or_exit broken_connection))) 0%nat 3%nat init
               (Troubleshoot.fetch_trending_nfts broken_connection 3 (started init)).2
               "ConnectionError"); [reflexivity | vm_compute; reflexivity].
  - rewrite (proj1 (proj2 (proj2 (proj2 (proj2 (proj2 (C2_contained_or_exit
               interrupted_sleep)))))) 1%nat 3%nat init
               (Troubleshoot.cycle interrupted_sleep 3 init).2);
      [reflexivity | vm_compute; reflexivity].
Defined.

(** * Further properties of the code *)

(** ** Which listings count as profitable *)

Lemma threshold_share_sign (f : Qc) :
  ((f * (1 + PROFIT_THRESHOLD) - f ?= 0) = (f ?= 0))%Qc.
Proof.
  rewrite margin_is_threshold_share.
  assert (Ht : (0 < PROFIT_THRESHOLD)%Qc) by reflexivity.
  destruct (f ?= 0)%Qc eqn:Hf.
  - apply Qceq_alt in Hf. subst f. reflexivity.
  - apply Qclt_alt in Hf. apply Qclt_alt.
    replace 0%Qc with (0 * PROFIT_THRESHOLD)%Qc by ring.
    now apply Qcmult_lt_compat_r.
  - apply Qcgt_alt in Hf. apply Qcgt_alt.
    replace 0%Qc with (0 * PROFIT_THRESHOLD)%Qc by ring.
    now apply Qcmult_lt_compat_r.
Qed.

Lemma margin_positive_testnet (r : Testnet.Row) :
  positive (Testnet.profit_margin (Testnet.score r)) = positive (Testnet.floor_price r).
Proof.
  unfold positive, Testnet.score. simpl.
  destruct (Testnet.floor_price r) as [f|]; simpl; [|reflexivity].
  now rewrite threshold_share_sign.
Qed.

Lemma margin_positive_troubleshoot (r : Troubleshoot.Row) :
  positive (Troubleshoot.profit_margin (Troubleshoot.score r))
  = positive (Troubleshoot.floor_price r).
Proof.
  unfold positive, Troubleshoot.score. simpl.
  destruct (Troubleshoot.floor_price r) as [f|]; simpl; [|reflexivity].
  now rewrite threshold_share_sign.
Qed.

Lemma filter_fmap {A B} (f : A -> B) (p : B -> bool) (l : list A) :
  List.filter p (f <$> l) = f <$> List.filter (fun x => p (f x)) l.
Proof.
  induction l as [|x l IH]; [reflexivity|].
  cbn [fmap list_fmap List.filter]. destruct (p (f x)); [cbn [fmap list_fmap]; f_equal|];
    exact IH.
Qed.

Lemma filter_ext_bool {A} (p q : A -> bool) (l : list A) :
  (forall x, p x = q x) -> List.filter p l = List.filter q l.
Proof.
  intros Hpq. induction l as [|x l IH]; simpl; [reflexivity|].
  rewrite Hpq, IH. reflexivity.
Qed.

Lemma filter_holds {A} (p : A -> bool) (l : list A) :
  Forall (fun x => p x = true) (List.filter p l).
Proof. apply Forall_forall. intros x Hin. now apply list_elem_of_In, filter_In in Hin. Qed.

(** X1.  What the selection [profit_margin > 0] never keeps.  Every listing
    left after scoring and selecting has a floor price that is present and
    greater than 0: a listing without a price, or with a price of 0 or
    below, is never selected, so it is never bought.  The listings left are
    in the order of the frame.  On the frame without columns the scorer
    raises KeyError.  Both scripts. *)
Theorem X1_selected_are_priced :
  (forall rows : list Testnet.Row,
      exists out kept,
        Testnet.calculate_profitability (Frame rows) = Val out /\
        Testnet.positive_margin out = Val (Frame kept) /\
        sublist (Testnet.listing <$> kept) rows /\
        Forall (fun s => positive (Testnet.floor_price (Testnet.listing s)) = true) kept) /\
  Testnet.calculate_profitability NoColumns = Exc (KeyError "floor_price") /\
  (forall rows : list Troubleshoot.Row,
      exists out kept,
        Troubleshoot.calculate_profitability (Frame rows) = Val out /\
        Troubleshoot.positive_margin out = Val (Frame kept) /\
        sublist (Troubleshoot.listing <$> kept) rows /\
        Forall (fun s => positive (Troubleshoot.floor_price (Troubleshoot.listing s)) = true)
               kept) /\
  Troubleshoot.calculate_profitability NoColumns = Exc (KeyError "floor_price").
Proof.
  split; [|split; [reflexivity|split; [|reflexivity]]].
  - intros rows.
    exists (Frame (Testnet.score <$> rows)),
           (Testnet.score <$> List.filter (fun r => positive (Testnet.floor_price r)) rows).
    split; [reflexivity|]. split.
    { unfold Testnet.positive_margin. simpl. do 2 f_equal.
      rewrite filter_fmap. f_equal. apply filter_ext_bool.
      intros r. apply margin_positive_testnet. }
    split; [rewrite score_listing_testnet; apply filter_is_sublist|].
    apply Forall_fmap. apply filter_holds.
  - intros rows.
    exists (Frame (Troubleshoot.score <$> rows)),
           (Troubleshoot.score
              <$> List.filter (fun r => positive (Troubleshoot.floor_price r)) rows).
    split; [reflexivity|]. split.
    { unfold Troubleshoot.positive_margin. simpl. do 2 f_equal.
      rewrite filter_fmap. f_equal. apply filter_ext_bool.
      intros r. apply margin_positive_troubleshoot. }
    split; [rewrite score_listing_troubleshoot; apply filter_is_sublist|].
    apply Forall_fmap. apply filter_holds.
Qed.

(** ** What [execute_buy] signs *)

(** The nearest double is within half a unit in the last place: its
    distance from the integer is at most the integer over [2^53]. *)
Lemma float_of_int_close (n : Z) :
  (0 <= n)%Z ->
  (2 ^ 53 * (float_of_int n - n) <= n)%Z /\ (2 ^ 53 * (n - float_of_int n) <= n)%Z.
Proof.
  intros Hn. unfold float_of_int. rewrite Z.abs_eq by lia.
  destruct (Z.ltb_spec n (2 ^ 53)) as [Hsmall|Hbig]; [lia|].
  assert (Hpos : (0 < n)%Z) by lia.
  rewrite (Z.sgn_pos n Hpos).
  pose proof (Z.log2_spec n Hpos) as [Hlo Hhi].
  assert (HL : (53 <= Z.log2 n)%Z).
  { change 53%Z with (Z.log2 (2 ^ 53)). now apply Z.log2_le_mono. }
  set (e := (Z.log2 n - 52)%Z) in *.
  assert (He : (1 <= e)%Z) by (unfold e; lia).
  assert (Hpow : (2 ^ Z.log2 n = 2 ^ 52 * 2 ^ e)%Z).
  { rewrite <- Z.pow_add_r by lia. f_equal. unfold e. lia. }
  assert (Hhalf : (2 ^ e = 2 * 2 ^ (e - 1))%Z).
  { rewrite <- Z.pow_succ_r by lia. f_equal. lia. }
  assert (HE : (0 < 2 ^ (e - 1))%Z) by (apply Z.pow_pos_nonneg; lia).
  pose proof (Z.div_mod n (2 ^ e) ltac:(lia)) as Hdm.
  pose proof (Z.mod_pos_bound n (2 ^ e) ltac:(lia)) as Hr.
  set (q := (n / 2 ^ e)%Z) in *. set (r := (n mod 2 ^ e)%Z) in *.
  set (E := (2 ^ e)%Z) in *. set (H := (2 ^ (e - 1))%Z) in *.
  set (qE := (E * q)%Z) in *.
  assert (Hq1 : ((q + 1) * E = qE + E)%Z) by (unfold qE; ring).
  assert (Hq0 : (q * E = qE)%Z) by (unfold qE; ring).
  destruct (Z.ltb_spec r H); [rewrite Z.mul_1_l, Hq0; lia|].
  destruct (Z.ltb_spec H r); [rewrite Z.mul_1_l, Hq1; lia|].
  destruct (Z.even q); rewrite Z.mul_1_l, ?Hq0, ?Hq1; lia.
Qed.

Lemma guard_passed (p b : Z) :
  int_gt_float p (Z2Qc (float_of_int b) * SPENDING_LIMIT_PERCENTAGE) = false ->
  (4 * p <= float_of_int b)%Z /\ ((0 <= b)%Z -> (2 ^ 53 * (4 * p - b) <= b)%Z).
Proof.
  intros Hguard.
  assert (Hle : (4 * p <= float_of_int b)%Z).
  { destruct (Z_lt_le_dec (float_of_int b) (4 * p)) as [Hlt|Hle]; [|exact Hle].
    apply int_gt_float_quarter in Hlt. congruence. }
  split; [exact Hle|]. intros Hb.
  destruct (float_of_int_close b Hb) as [Hup _]. lia.
Qed.

Lemma purchase_tx_gas (from : option string) (value gas gas' nonce : Z) :
  <["gas" := VInt gas']> (purchase_tx from value gas nonce)
  = purchase_tx from value gas' nonce.
Proof.
  unfold purchase_tx.
  rewrite (insert_insert_ne _ "gas" "from") by discriminate.
  rewrite (insert_insert_ne _ "gas" "value") by discriminate.
  now rewrite insert_insert_eq.
Qed.

Ltac guarded :=
  match goal with
  | Hg : int_gt_float _ _ = false |- _ =>
      destruct (guard_passed _ _ Hg) as [? ?];
      do 4 eexists; repeat split; try eassumption; try reflexivity
  end.

(** X2.  Whatever [execute_buy] hands to the signer or to the node passed the
    spend guard of that very call: the price in wei is at most a quarter of
    the balance just read, up to the rounding of the balance to a double
    (relative error at most 2^-53); its value is the converted price, its
    nonce the transaction count the node returned, and its gas limit 200000
    (testnet.py) or the node's estimate for the same transaction
    (troubleshoot.py). *)
Theorem X2_signed_within_limit :
  (forall (w : World) (tid : string) (price : float) (st : State Testnet.Row),
      exists evs,
        trace (Testnet.execute_buy w tid price st).2 = trace st ++ evs /\
        Forall (guarded_tx w (Testnet.wallet_address w) price st
                  (fun _ _ => Val 200000))
               (submitted evs)) /\
  (forall (w : World) (tid : string) (price : float) (st : State Troubleshoot.Row),
      exists evs,
        trace (Troubleshoot.execute_buy w tid price st).2 = trace st ++ evs /\
        Forall (guarded_tx w (Troubleshoot.wallet_address w) price st
                  (fun p n =>
                     eth_estimateGas w (S (S (tick st)))
                       (purchase_tx (Troubleshoot.wallet_address w) p 200000 n)))
               (submitted evs)).
Proof.
  split.
  - intros w tid price st. unfold Testnet.execute_buy.
    crunch; trace_suffix; repeat constructor; guarded.
  - intros w tid price st. unfold Troubleshoot.execute_buy.
    crunch; trace_suffix; repeat constructor; guarded;
      fold (purchase_tx (Troubleshoot.wallet_address w) a0 200000 a1);
      try eassumption; try apply purchase_tx_gas.
Qed.

Ltac units := repeat match goal with u : unit |- _ => destruct u end.

Ltac sent_after_signed :=
  simpl; split; [lia|];
  let tx := fresh "tx" in
  let r := fresh "r" in
  let Hin := fresh "Hin" in
  intros tx r Hin; simpl in Hin;
  repeat match goal with
         | H : _ \/ _ |- _ => destruct H
         | H : False |- _ => destruct H
         | H : (_, _) = (_, _) |- _ => injection H as <- <-
         end;
  units; reflexivity.

(** X3.  A call of [execute_buy] broadcasts at most one transaction, and
    only the transaction it had signed successfully just before: when the
    signer raises, nothing is sent.  Both scripts. *)
Theorem X3_broadcast_only_signed :
  (forall (w : World) (tid : string) (price : float) (st : State Testnet.Row),
      exists evs,
        trace (Testnet.execute_buy w tid price st).2 = trace st ++ evs /\
        (length (sendings evs) <= 1)%nat /\
        forall tx r, In (tx, r) (sendings evs) -> signings evs = [(tx, Val tt)]) /\
  (forall (w : World) (tid : string) (price : float) (st : State Troubleshoot.Row),
      exists evs,
        trace (Troubleshoot.execute_buy w tid price st).2 = trace st ++ evs /\
        (length (sendings evs) <= 1)%nat /\
        forall tx r, In (tx, r) (sendings evs) -> signings evs = [(tx, Val tt)]).
Proof.
  split.
  - intros w tid price st. unfold Testnet.execute_buy.
    crunch; trace_suffix; sent_after_signed.
  - intros w tid price st. unfold Troubleshoot.execute_buy.
    crunch; trace_suffix; sent_after_signed.
Qed.

Ltac returned_string :=
  cbn [fst snd]; split;
  [ intros ? ; discriminate
  | let s := fresh "s" in
    let Hs := fresh "Hs" in
    intros s Hs; try discriminate Hs; injection Hs as <-;
    first [ left; reflexivity
          | right; left; eexists; simpl; left; reflexivity
          | right; right; split;
            [ simpl; auto 10
            | first [ left; first [assumption | reflexivity]
                    | right; apply List.Exists_exists; simpl;
                      solve [ repeat first [ apply Exists_cons_hd; reflexivity
                                           | apply Exists_cons_tl ] ] ] ] ] ].

(** X4.  [execute_buy] of troubleshoot.py never raises an exception of class
    Exception.  The string it returns is the rejection text of the spend
    guard, or a hash that the node returned for the broadcast, or the
    message of an exception raised by one of its calls (or by the price
    conversion), which it caught and logged. *)
Theorem X4_buy_returns_string (w : World) (tid : string) (price : float)
    (st : State Troubleshoot.Row) :
  exists evs,
    trace (Troubleshoot.execute_buy w tid price st).2 = trace st ++ evs /\
    (forall msg, (Troubleshoot.execute_buy w tid price st).1 <> Exc (Exception msg)) /\
    (forall s,
        (Troubleshoot.execute_buy w tid price st).1 = Val s ->
        s = EXCEEDS \/
        (exists tx, In (tx, Val s) (sendings evs)) \/
        (In (ERROR, FailedTransaction s) (logged evs) /\
         (to_wei w price = Exc (Exception s) \/
          exists e, In e evs /\ raised e = Some (Exception s)))).
Proof.
  unfold Troubleshoot.execute_buy.
  crunch; rewrite <- ?app_assoc; (eexists; split; [reflexivity|]); returned_string.
Qed.

Ltac after_broadcast :=
  let tx := fresh "tx" in
  let h := fresh "h" in
  let Hin := fresh "Hin" in
  intros tx h Hin; simpl in Hin;
  repeat match goal with
         | H : _ \/ _ |- _ => destruct H
         | H : False |- _ => destruct H
         | H : (_, _) = (_, _) |- _ => first [discriminate H | injection H as <- <-]
         end;
  first [reflexivity | congruence].

(** X5.  The balance read that [execute_buy] makes for its last log line
    decides the result of a purchase that is already broadcast.  When the
    node accepted the transaction with hash [h], the call returns [h] only
    if that read succeeds; if it raises, testnet.py lets the exception
    escape (the purchase is made, the caller never relists), and
    troubleshoot.py returns the message of the exception in place of the
    hash. *)
Theorem X5_result_after_broadcast :
  (forall (w : World) (tid : string) (price : float) (st : State Testnet.Row),
      exists evs,
        trace (Testnet.execute_buy w tid price st).2 = trace st ++ evs /\
        forall tx h,
          In (tx, Val h) (sendings evs) ->
          (Testnet.execute_buy w tid price st).1 =
            match eth_get_balance w (4 + tick st) with
            | Val _ => Val h
            | Exc e => Exc e
            | Diverge => Diverge
            end) /\
  (forall (w : World) (tid : string) (price : float) (st : State Troubleshoot.Row),
      exists evs,
        trace (Troubleshoot.execute_buy w tid price st).2 = trace st ++ evs /\
        forall tx h,
          In (tx, Val h) (sendings evs) ->
          (Troubleshoot.execute_buy w tid price st).1 =
            match eth_get_balance w (5 + tick st) with
            | Val _ => Val h
            | Exc (Exception msg) => Val msg
            | Exc e => Exc e
            | Diverge => Diverge
            end).
Proof.
  split.
  - intros w tid price st. unfold Testnet.execute_buy. cbn [Nat.add].
    crunch; trace_suffix; after_broadcast.
  - intros w tid price st. unfold Troubleshoot.execute_buy. cbn [Nat.add].
    crunch; trace_suffix; after_broadcast.
Qed.

(** ** Relisting ([relist_nft]) *)

Ltac case_option :=
  match goal with
  | |- context [match ?x with Some _ => _ | None => _ end] => destruct x eqn:?; mstep
  end.

Ltac crunch' := mstep; repeat first [case_result | case_if | case_exn | case_option].

(** X6.  Every call of [relist_nft] reads the clock and posts exactly one
    sell order to the orders endpoint: for the token, contract and price it
    was given, expiring 86400 seconds after the clock read.  It makes no
    other call and leaves the cache alone.  Both scripts. *)
Theorem X6_one_sell_order :
  (forall (w : World) (tid : string) (price : float) (contract : string)
          (st : State Testnet.Row),
      let order := sell_order tid price contract (time_time w (tick st)) in
      let run := Testnet.relist_nft w tid price contract st in
      exists evs,
        trace run.2 = trace st ++ evs /\
        external evs = [EvTime (time_time w (tick st));
                        EvPost ORDERS_URL order
                               (requests_post w (S (tick st)) ORDERS_URL order)] /\
        CACHE run.2 = CACHE st) /\
  (forall (w : World) (tid : string) (price : float) (contract : string)
          (st : State Troubleshoot.Row),
      let order := sell_order tid price contract (time_time w (tick st)) in
      let run := Troubleshoot.relist_nft w tid price contract st in
      exists evs,
        trace run.2 = trace st ++ evs /\
        external evs = [EvTime (time_time w (tick st));
                        EvPost ORDERS_URL order
                               (requests_post w (S (tick st)) ORDERS_URL order)] /\
        CACHE run.2 = CACHE st).
Proof.
  split.
  - intros w tid price contract st. unfold Testnet.relist_nft, sell_order.
    crunch'; trace_suffix; split; reflexivity.
  - intros w tid price contract st. unfold Troubleshoot.relist_nft, sell_order.
    crunch'; trace_suffix; split; reflexivity.
Qed.

(** X7.  [relist_nft] of troubleshoot.py never raises an exception of class
    Exception, and what it returns is truthy, which is what makes
    [monitor_and_trade] log a successful relist, exactly when the
    marketplace answered 200 with a non-empty order record, or answered with
    another status and a non-empty body: a rejected order with an error body
    is reported as relisted. *)
Theorem X7_relist_outcome (w : World) (tid : string) (price : float) (contract : string)
    (st : State Troubleshoot.Row) :
  let order := sell_order tid price contract (time_time w (tick st)) in
  let answer := requests_post w (S (tick st)) ORDERS_URL order in
  let run := Troubleshoot.relist_nft w tid price contract st in
  (forall msg, run.1 <> Exc (Exception msg)) /\
  (forall result,
      run.1 = Val result ->
      (Troubleshoot.relist_truthy result = true <->
       exists response,
         answer = Val response /\
         ((post_status_code response = 200 /\
           exists o, post_json response = Some o /\ o <> ∅) \/
          (post_status_code response <> 200 /\ post_text response <> "")))).
Proof.
  unfold Troubleshoot.relist_nft, sell_order. cbn zeta.
  crunch'; (split; [intros ?; discriminate|]); intros result Hres;
    try discriminate Hres; injection Hres as <-; simpl.
  - apply Z.eqb_eq in Heqb. rewrite negb_true_iff, bool_decide_eq_false. split.
    + intros Hne. exists a. split; [reflexivity|]. left. eauto.
    + intros (response & [= <-] & [(_ & o & Ho & Hne) | (Hstatus & _)]);
        [congruence | contradiction].
  - apply Z.eqb_eq in Heqb. split; [discriminate|].
    intros (response & [= <-] & [(_ & o & Ho & _) | (Hstatus & _)]);
      [congruence | contradiction].
  - apply Z.eqb_neq in Heqb. rewrite negb_true_iff, String.eqb_neq. split.
    + intros Hne. exists a. split; [reflexivity|]. right. auto.
    + intros (response & [= <-] & [(Hstatus & _) | (_ & Hne)]);
        [contradiction | exact Hne].
  - split; [discriminate|]. intros (response & Heq & _). discriminate Heq.
Qed.

(** ** What reaches the cache *)

Lemma fetch_writes_testnet (w : World) (fuel : nat) (st s' : State Testnet.Row) r :
  Testnet.fetch_trending_nfts w fuel st = (r, s') ->
  CACHE s' = CACHE st \/
  exists df, r = Val df /\
             CACHE s' = {| trending_nfts := Some df;
                           last_fetched := Some (datetime_now w (tick st)) |}.
Proof.
  unfold Testnet.fetch_trending_nfts. mstep.
  destruct (cache_valid (CACHE st) (datetime_now w (tick st))) as [[df|]|e|]; mstep;
    try (intros [= <- <-]; now left).
  destruct (eth_get_balance w (S (tick st))) as [b|e|]; mstep;
    try (intros [= <- <-]; now left).
  unfold from_wei. destruct (Z.eqb_spec b 0) as [->|Hb]; cbn [mul_float]; mstep;
    try (intros [= <- <-]; now left).
  case_pair.
  match goal with H : Testnet.fetch_pages _ _ _ _ _ = _ |- _ =>
    apply fetch_pages_testnet in H as (Hcache & _)
  end.
  destruct r0; intros [= <- <-]; simpl in *; eauto.
Qed.

Lemma fetch_writes_troubleshoot (w : World) (fuel : nat)
    (st s' : State Troubleshoot.Row) r :
  Troubleshoot.fetch_trending_nfts w fuel st = (r, s') ->
  CACHE s' = CACHE st \/
  exists df, r = Val df /\
             CACHE s' = {| trending_nfts := Some df;
                           last_fetched := Some (datetime_now w (tick st)) |}.
Proof.
  unfold Troubleshoot.fetch_trending_nfts. mstep.
  destruct (cache_valid (CACHE st) (datetime_now w (tick st))) as [[df|]|e|]; mstep;
    try (intros [= <- <-]; now left).
  destruct (eth_get_balance w (S (tick st))) as [b|e|]; mstep;
    try (intros [= <- <-]; now left).
  case_pair.
  match goal with H : Troubleshoot.fetch_pages _ _ _ _ _ _ = _ |- _ =>
    apply fetch_pages_troubleshoot in H as (Hcache & _)
  end.
  destruct r0; intros [= <- <-]; simpl in *; eauto.
Qed.

(** X8.  The cache is written only by a fetch that returns, and then with
    the frame it returns and the time read at the start of the call.  A
    fetch that raises, at the balance read, at a listing request or while
    converting a page, or that does not finish, leaves the cache exactly as
    it was: the stale entry, if any, stays.  Both scripts. *)
Theorem X8_failed_fetch_keeps_cache (w : World) :
  (forall fuel (st s' : State Testnet.Row) r,
      Testnet.fetch_trending_nfts w fuel st = (r, s') ->
      (forall df, r <> Val df) ->
      CACHE s' = CACHE st) /\
  (forall fuel (st s' : State Testnet.Row) df,
      Testnet.fetch_trending_nfts w fuel st = (Val df, s') ->
      trending_nfts (CACHE s') = Some df) /\
  (forall fuel (st s' : State Troubleshoot.Row) r,
      Troubleshoot.fetch_trending_nfts w fuel st = (r, s') ->
      (forall df, r <> Val df) ->
      CACHE s' = CACHE st) /\
  (forall fuel (st s' : State Troubleshoot.Row) df,
      Troubleshoot.fetch_trending_nfts w fuel st = (Val df, s') ->
      trending_nfts (CACHE s') = Some df).
Proof.
  split; [|split; [|split]].
  - intros fuel st s' r Hrun Hfail.
    destruct (fetch_writes_testnet _ _ _ _ _ Hrun) as [H | (df & -> & _)];
      [exact H | now destruct (Hfail df)].
  - intros fuel st s' df Hrun.
    destruct (fetch_cases_testnet _ _ _ _ _ Hrun) as [(df' & Hv & Hs) | [(_ & Hre) | (e & He & _)]].
    + injection Hs as -> ->. simpl. unfold cache_valid in Hv.
      destruct (trending_nfts (CACHE st)); [|discriminate].
      destruct (last_fetched (CACHE st)); [|discriminate].
      destruct (_ <? _)%Z; congruence.
    + destruct Hre as (evs & _ & Hout & _). destruct (Hout df eq_refl) as [_ ->].
      reflexivity.
    + discriminate He.
  - intros fuel st s' r Hrun Hfail.
    destruct (fetch_writes_troubleshoot _ _ _ _ _ Hrun) as [H | (df & -> & _)];
      [exact H | now destruct (Hfail df)].
  - intros fuel st s' df Hrun.
    destruct (fetch_cases_troubleshoot _ _ _ _ _ Hrun)
      as [(df' & Hv & Hs) | [(_ & Hre) | (e & He & _)]].
    + injection Hs as -> ->. simpl. unfold cache_valid in Hv.
      destruct (trending_nfts (CACHE st)); [|discriminate].
      destruct (last_fetched (CACHE st)); [|discriminate].
      destruct (_ <? _)%Z; congruence.
    + destruct Hre as (evs & _ & Hout & _). destruct (Hout df eq_refl) as [_ ->].
      reflexivity.
    + discriminate He.
Qed.

Lemma X8_witness :
  CACHE (Testnet.fetch_trending_nfts broken_at_expiry 3 cached_at_0).2 = CACHE cached_at_0 /\
  CACHE (Troubleshoot.fetch_trending_nfts broken_at_expiry 3 cached_at_0').2
  = CACHE cached_at_0'.
Proof.
  split.
  - apply (proj1 (X8_failed_fetch_keeps_cache broken_at_expiry) 3%nat cached_at_0 _ _
             (surjective_pairing _)).
    intros df. vm_compute. discriminate.
  - apply (proj1 (proj2 (proj2 (X8_failed_fetch_keeps_cache broken_at_expiry)))
             3%nat cached_at_0' _ _ (surjective_pairing _)).
    intros df. vm_compute. discriminate.
Defined.

Section KeepsCache.
Context {R : Type}.

Lemma keeps_ret {A} (a : A) : keeps_cache (@ret R A a).
Proof. intros st. reflexivity. Qed.

Lemma keeps_raise {A} (e : exn) : keeps_cache (@raise R A e).
Proof. intros st. reflexivity. Qed.

Lemma keeps_lift {A} (r : Result A) : keeps_cache (@lift R A r).
Proof. intros st. reflexivity. Qed.

Lemma keeps_logging (level : Level) (msg : LogMsg) : keeps_cache (@logging R level msg).
Proof. intros st. reflexivity. Qed.

Lemma keeps_call {A} (oracle : nat -> Result A) (ev : Result A -> Event) :
  keeps_cache (@call R A oracle ev).
Proof. intros st. reflexivity. Qed.

Lemma keeps_clock (oracle : nat -> Z) (ev : Z -> Event) : keeps_cache (@clock R oracle ev).
Proof. intros st. reflexivity. Qed.

Lemma keeps_bind {A B} (m : M R A) (k : A -> M R B) :
  keeps_cache m -> (forall a, keeps_cache (k a)) -> keeps_cache (bind m k).
Proof.
  intros Hm Hk st. unfold bind. specialize (Hm st).
  destruct (m st) as [[a|e|] s']; simpl in *; [rewrite Hk|..]; exact Hm.
Qed.

Lemma keeps_try_except {A} (m : M R A) (h : string -> M R A) :
  keeps_cache m -> (forall e, keeps_cache (h e)) -> keeps_cache (try_except m h).
Proof.
  intros Hm Hh st. unfold try_except. specialize (Hm st).
  destruct (m st) as [[a|[msg| |c]|] s']; simpl in *; [|rewrite Hh|..]; exact Hm.
Qed.

(** After [m], a continuation that keeps the cache leaves the cache of [m]. *)
Lemma cache_after_bind {A B} (m : M R A) (k : A -> M R B) (st : State R) :
  (forall a, keeps_cache (k a)) -> CACHE (bind m k st).2 = CACHE (m st).2.
Proof.
  intros Hk. unfold bind. destruct (m st) as [[a|e|] s']; simpl; [apply Hk|..]; reflexivity.
Qed.
End KeepsCache.

Ltac keeps_by known :=
  repeat first
    [ known
    | progress cbv zeta
    | apply keeps_ret | apply keeps_raise | apply keeps_lift | apply keeps_logging
    | apply keeps_call | apply keeps_clock
    | apply keeps_bind; [|intros]
    | apply keeps_try_except; [|intros]
    | match goal with
      | |- keeps_cache (if ?b then _ else _) => destruct b
      | |- keeps_cache (match ?x with _ => _ end) => destruct x
      end ].

Ltac keeps := keeps_by ltac:(fail).

Lemma buy_keeps_cache_testnet (w : World) (tid : string) (price : float) :
  keeps_cache (Testnet.execute_buy w tid price).
Proof. unfold Testnet.execute_buy, Testnet.get_wallet_balance. keeps. Qed.

Lemma buy_keeps_cache_troubleshoot (w : World) (tid : string) (price : float) :
  keeps_cache (Troubleshoot.execute_buy w tid price).
Proof. unfold Troubleshoot.execute_buy, Troubleshoot.get_wallet_balance. keeps. Qed.

Lemma relist_keeps_cache_testnet (w : World) (tid : string) (price : float) (c : string) :
  keeps_cache (Testnet.relist_nft w tid price c).
Proof. unfold Testnet.relist_nft. keeps. Qed.

Lemma relist_keeps_cache_troubleshoot (w : World) (tid : string) (price : float)
    (c : string) :
  keeps_cache (Troubleshoot.relist_nft w tid price c).
Proof. unfold Troubleshoot.relist_nft. keeps. Qed.

Ltac keeps_calls :=
  keeps_by ltac:(first [ apply buy_keeps_cache_testnet
                       | apply buy_keeps_cache_troubleshoot
                       | apply relist_keeps_cache_testnet
                       | apply relist_keeps_cache_troubleshoot ]).

Lemma cycle_cache_testnet (w : World) (fuel : nat) (st : State Testnet.Row) :
  CACHE (Testnet.cycle w fuel st).2
  = CACHE (Testnet.fetch_trending_nfts w fuel (started st)).2.
Proof.
  unfold Testnet.cycle.
  match goal with
  | |- CACHE (bind _ (fun _ => bind ?m ?k) st).2 = _ =>
      change (CACHE (bind m k (started st)).2 = CACHE (m (started st)).2)
  end.
  apply cache_after_bind. intros df. keeps_calls.
Qed.

Lemma cycle_cache_troubleshoot (w : World) (fuel : nat) (st : State Troubleshoot.Row) :
  CACHE (Troubleshoot.cycle w fuel st).2
  = CACHE (Troubleshoot.fetch_trending_nfts w fuel (started st)).2.
Proof.
  unfold Troubleshoot.cycle.
  match goal with
  | |- CACHE (bind _ (fun _ => bind ?m ?k) st).2 = _ =>
      change (CACHE (bind m k (started st)).2 = CACHE (m (started st)).2)
  end.
  apply cache_after_bind. intros df. keeps_calls.
Qed.

Lemma fetched_is_cached {R} (row_of_asset : Asset -> Result R) (final : Response -> Prop)
    (funded : Z -> Prop) (w : World) (fuel : nat) (st s' : State R) (df : DataFrame R) :
  fetch_outcome row_of_asset final funded w fuel st s' (Val df) ->
  trending_nfts (CACHE s') = Some df.
Proof.
  intros [(df' & Hv & Hs) | [(_ & Hre) | (e & He & _)]].
  - injection Hs as -> ->. simpl. unfold cache_valid in Hv.
    destruct (trending_nfts (CACHE st)); [|discriminate].
    destruct (last_fetched (CACHE st)); [|discriminate].
    destruct (_ <? _)%Z; congruence.
  - destruct Hre as (evs & _ & Hout & _). destruct (Hout df eq_refl) as [_ ->].
    reflexivity.
  - discriminate He.
Qed.

(** X9.  Buying and relisting never touch the cache: after a cycle the cache
    is what its fetch left.  So the frame a cycle worked on stays cached,
    purchase or not, and the next cycle that starts within the TTL of the
    entry is served the same frame, with the listing just bought still in
    it.  Both scripts. *)
Theorem X9_purchase_keeps_cache (w : World) :
  ((forall tid price, keeps_cache (Testnet.execute_buy w tid price)) /\
   (forall fuel (st : State Testnet.Row),
       CACHE (Testnet.cycle w fuel st).2
       = CACHE (Testnet.fetch_trending_nfts w fuel (started st)).2) /\
   (forall fuel fuel' (st s1 : State Testnet.Row) df t,
       Testnet.fetch_trending_nfts w fuel (started st) = (Val df, s1) ->
       last_fetched (CACHE s1) = Some t ->
       let s2 := (Testnet.cycle w fuel st).2 in
       datetime_now w (tick s2) - t < CACHE_EXPIRATION ->
       Testnet.fetch_trending_nfts w fuel' (started s2) = served w (started s2) df)) /\
  ((forall tid price, keeps_cache (Troubleshoot.execute_buy w tid price)) /\
   (forall fuel (st : State Troubleshoot.Row),
       CACHE (Troubleshoot.cycle w fuel st).2
       = CACHE (Troubleshoot.fetch_trending_nfts w fuel (started st)).2) /\
   (forall fuel fuel' (st s1 : State Troubleshoot.Row) df t,
       Troubleshoot.fetch_trending_nfts w fuel (started st) = (Val df, s1) ->
       last_fetched (CACHE s1) = Some t ->
       let s2 := (Troubleshoot.cycle w fuel st).2 in
       datetime_now w (tick s2) - t < CACHE_EXPIRATION ->
       Troubleshoot.fetch_trending_nfts w fuel' (started s2) = served w (started s2) df)).
Proof.
  split; (split; [|split]).
  - intros. apply buy_keeps_cache_testnet.
  - intros. apply cycle_cache_testnet.
  - intros fuel fuel' st s1 df t Hfetch Ht s2 Hlt.
    assert (Hcache : CACHE (started s2) = CACHE s1).
    { unfold s2. simpl. now rewrite cycle_cache_testnet, Hfetch. }
    apply fetch_hit_testnet. apply cache_valid_hit with t; rewrite ?Hcache; auto.
    apply (fetched_is_cached Testnet.row_of_asset final_page_testnet (fun b => b = 0)
             w fuel (started st)).
    now apply fetch_cases_testnet.
  - intros. apply buy_keeps_cache_troubleshoot.
  - intros. apply cycle_cache_troubleshoot.
  - intros fuel fuel' st s1 df t Hfetch Ht s2 Hlt.
    assert (Hcache : CACHE (started s2) = CACHE s1).
    { unfold s2. simpl. now rewrite cycle_cache_troubleshoot, Hfetch. }
    apply fetch_hit_troubleshoot. apply cache_valid_hit with t; rewrite ?Hcache; auto.
    apply (fetched_is_cached Troubleshoot.row_of_asset final_page_troubleshoot
             (fun _ => True) w fuel (started st)).
    now apply fetch_cases_troubleshoot.
Qed.

Lemma X9_witness :
  Testnet.fetch_trending_nfts funded_later 3 (started (Testnet.cycle funded_later 3 init).2)
  = served funded_later (started (Testnet.cycle funded_later 3 init).2) (Frame [ape_row]) /\
  Troubleshoot.fetch_trending_nfts scenario_A 3
    (started (Troubleshoot.cycle scenario_A 3 init).2)
  = served scenario_A (started (Troubleshoot.cycle scenario_A 3 init).2) (Frame [ape_row']).
Proof.
  split.
  - apply (proj2 (proj2 (proj1 (X9_purchase_keeps_cache funded_later))) 3%nat 3%nat init
             (Testnet.fetch_trending_nfts funded_later 3 (started init)).2 (Frame [ape_row]) 0);
      vm_compute; reflexivity.
  - apply (proj2 (proj2 (proj2 (X9_purchase_keeps_cache scenario_A))) 3%nat 3%nat init
             (Troubleshoot.fetch_trending_nfts scenario_A 3 (started init)).2
             (Frame [ape_row']) 0);
      vm_compute; reflexivity.
Defined.

(** ** Which listing a cycle buys, and when it relists *)

Lemma buy_posts_nothing_testnet (w : World) (tid : string) (price : float)
    (st : State Testnet.Row) :
  posted (trace (Testnet.execute_buy w tid price st).2) = posted (trace st).
Proof.
  unfold Testnet.execute_buy. crunch; rewrite ?posted_app; simpl; now rewrite ?app_nil_r.
Qed.

Lemma buy_posts_nothing_troubleshoot (w : World) (tid : string) (price : float)
    (st : State Troubleshoot.Row) :
  posted (trace (Troubleshoot.execute_buy w tid price st).2) = posted (trace st).
Proof.
  unfold Troubleshoot.execute_buy.
  crunch; rewrite ?posted_app; simpl; now rewrite ?app_nil_r.
Qed.

Lemma relist_posts_testnet (w : World) (tid : string) (price : float) (c : string)
    (st : State Testnet.Row) :
  posted (trace (Testnet.relist_nft w tid price c st).2)
  = posted (trace st) ++ [sell_order tid price c (time_time w (tick st))].
Proof.
  unfold Testnet.relist_nft, sell_order.
  crunch'; rewrite ?posted_app; simpl; now rewrite ?app_nil_r.
Qed.

Lemma relist_posts_troubleshoot (w : World) (tid : string) (price : float) (c : string)
    (st : State Troubleshoot.Row) :
  posted (trace (Troubleshoot.relist_nft w tid price c st).2)
  = posted (trace st) ++ [sell_order tid price c (time_time w (tick st))].
Proof.
  unfold Troubleshoot.relist_nft, sell_order.
  crunch'; rewrite ?posted_app; simpl; now rewrite ?app_nil_r.
Qed.

Lemma relist_tick {R} (s : State R) (lines : list LogMsg) : tick (logged_on s lines) = tick s.
Proof. reflexivity. Qed.

Lemma selection_troubleshoot (rows : list Troubleshoot.Row) :
  List.filter (fun r => fgt (Troubleshoot.profit_margin r) (Some 0%Qc))
              (Troubleshoot.score <$> rows)
  = Troubleshoot.score <$>
      List.filter (fun r => positive (Troubleshoot.floor_price r)) rows.
Proof.
  rewrite filter_fmap. f_equal. apply filter_ext_bool.
  intros r. apply margin_positive_troubleshoot.
Qed.

Ltac posted_simpl := rewrite ?posted_app; simpl; rewrite ?app_nil_r.

Lemma posted_logged_on {R} (s : State R) (lines : list LogMsg) :
  posted (trace (logged_on s lines)) = posted (trace s).
Proof.
  unfold logged_on. simpl. rewrite posted_app.
  induction lines as [|l lines IH]; simpl in *; [now rewrite app_nil_r | exact IH].
Qed.

(** troubleshoot.py: what a cycle posts once its fetch returned a frame with
    a profitable listing. *)
Lemma cycle_posts_troubleshoot (w : World) (fuel : nat) (st s1 : State Troubleshoot.Row)
    (rows : list Troubleshoot.Row) (top : Troubleshoot.Row) (rest : list Troubleshoot.Row) :
  Troubleshoot.fetch_trending_nfts w fuel (started st) = (Val (Frame rows), s1) ->
  List.filter (fun r => positive (Troubleshoot.floor_price r)) rows = top :: rest ->
  let buy := Troubleshoot.execute_buy w (Troubleshoot.token_id top)
               (Troubleshoot.floor_price top)
               (logged_on s1 [Retrieved (length rows); Identified (S (length rest))]) in
  let order := sell_order (Troubleshoot.token_id top)
                 (fmul (Troubleshoot.floor_price top) (Some (1 + PROFIT_THRESHOLD)%Qc))
                 (Troubleshoot.contract_address top) (time_time w (tick buy.2)) in
  posted (trace (Troubleshoot.cycle w fuel st).2)
  = posted (trace s1) ++
    match buy.1 with
    | Val result => if String.eqb result EXCEEDS then [] else [order]
    | _ => []
    end.
Proof.
  intros Hfetch Hsel buy order. unfold started in Hfetch. unfold Troubleshoot.cycle.
  mstep. rewrite Hfetch. mstep.
  assert (Hne : df_empty (Frame rows) = false).
  { destruct rows; [discriminate Hsel | reflexivity]. }
  rewrite Hne. cbn [negb]. mstep.
  cbn [Troubleshoot.calculate_profitability Troubleshoot.positive_margin getitem df_rows].
  mstep.
  cbn [Troubleshoot.positive_margin getitem df_rows]. mstep.
  rewrite selection_troubleshoot, Hsel. cbn [fmap list_fmap]. mstep.
  match goal with
  | |- context [Troubleshoot.execute_buy w ?tid ?price ?s] =>
      assert (Hsb : Troubleshoot.execute_buy w tid price s = buy)
  end.
  { unfold buy, logged_on. simpl. rewrite <- app_assoc.
    unfold df_len. simpl. now rewrite length_fmap. }
  rewrite Hsb. clear Hsb.
  pose proof (buy_posts_nothing_troubleshoot w (Troubleshoot.token_id top)
                (Troubleshoot.floor_price top)
                (logged_on s1 [Retrieved (length rows); Identified (S (length rest))]))
    as Hquiet.
  rewrite posted_logged_on in Hquiet. fold buy in Hquiet.
  subst order. destruct buy as [[result|e|] s2]; cbn [fst snd] in *.
  - destruct (result =? EXCEEDS)%string; cbn [negb].
    + destruct (time_sleep w (tick s2) 60); simpl; posted_simpl; now rewrite Hquiet.
    + match goal with
      | |- context [Troubleshoot.relist_nft w ?tid ?price ?c ?s] =>
          pose proof (relist_posts_troubleshoot w tid price c s) as Hpost;
          destruct (Troubleshoot.relist_nft w tid price c s) as [[relisted|e|] s3]
      end; cbn [fst snd tick trace] in *; rewrite posted_app in Hpost; simpl in Hpost;
        rewrite app_nil_r in Hpost.
      * destruct (Troubleshoot.relist_truthy relisted);
          destruct (time_sleep w _ 60); simpl; posted_simpl; now rewrite Hpost, Hquiet.
      * simpl. now rewrite Hpost, Hquiet.
      * simpl. now rewrite Hpost, Hquiet.
  - simpl. now rewrite Hquiet, app_nil_r.
  - simpl. now rewrite Hquiet, app_nil_r.
Qed.

Lemma filter_by_traits_rows (rows : list Testnet.Row) (desired : gmap string string) :
  rows <> [] ->
  Testnet.filter_by_traits (Frame rows) desired
  = Val (Frame (List.filter (fun r => Testnet.has_traits desired (Testnet.traits r)) rows)).
Proof. destruct rows; [contradiction | reflexivity]. Qed.

Lemma selection_testnet (rows : list Testnet.Row) :
  List.filter (fun r => fgt (Testnet.profit_margin r) (Some 0%Qc)) (Testnet.score <$> rows)
  = Testnet.score <$> List.filter (fun r => positive (Testnet.floor_price r)) rows.
Proof.
  rewrite filter_fmap. f_equal. apply filter_ext_bool.
  intros r. apply margin_positive_testnet.
Qed.

(** testnet.py: what a cycle posts once its fetch returned a frame with a
    candidate. *)
Lemma cycle_posts_testnet (w : World) (fuel : nat) (st s1 : State Testnet.Row)
    (rows : list Testnet.Row) (top : Testnet.Row) (rest : list Testnet.Row) :
  Testnet.fetch_trending_nfts w fuel (started st) = (Val (Frame rows), s1) ->
  candidates rows = top :: rest ->
  let buy := Testnet.execute_buy w (Testnet.token_id top) (Testnet.floor_price top)
               (logged_on s1
                  [Retrieved (length rows);
                   FoundWithTraits
                     (length (List.filter
                                (fun r => Testnet.has_traits DESIRED_TRAITS (Testnet.traits r))
                                rows));
                   Identified (S (length rest))]) in
  let order := sell_order (Testnet.token_id top)
                 (fmul (Testnet.floor_price top) (Some (1 + PROFIT_THRESHOLD)%Qc))
                 (Testnet.contract_address top) (time_time w (tick buy.2)) in
  posted (trace (Testnet.cycle w fuel st).2)
  = posted (trace s1) ++
    match buy.1 with
    | Val result => if String.eqb result EXCEEDS then [] else [order]
    | _ => []
    end.
Proof.
  intros Hfetch Hsel buy order. unfold started in Hfetch. unfold Testnet.cycle.
  mstep. rewrite Hfetch. mstep.
  rewrite filter_by_traits_rows by (intros ->; discriminate Hsel).
  cbn [Testnet.calculate_profitability Testnet.positive_margin getitem df_rows]. mstep.
  cbn [Testnet.calculate_profitability Testnet.positive_margin getitem df_rows]. mstep.
  cbn [Testnet.positive_margin getitem df_rows]. mstep.
  fold DESIRED_TRAITS. rewrite selection_testnet.
  unfold candidates in Hsel. rewrite Hsel. cbn [fmap list_fmap]. mstep.
  match goal with
  | |- context [Testnet.execute_buy w ?tid ?price ?s] =>
      assert (Hsb : Testnet.execute_buy w tid price s = buy)
  end.
  { unfold buy, logged_on. simpl. rewrite <- !app_assoc.
    unfold df_len. simpl. now rewrite length_fmap. }
  rewrite Hsb. clear Hsb.
  match type of buy with
  | _ => pose proof (buy_posts_nothing_testnet w (Testnet.token_id top)
                       (Testnet.floor_price top)) as Hquiet
  end.
  match goal with
  | buy0 := Testnet.execute_buy _ _ _ ?s |- _ => specialize (Hquiet s)
  end.
  rewrite posted_logged_on in Hquiet. fold buy in Hquiet.
  subst order. destruct buy as [[result|e|] s2]; cbn [fst snd] in *.
  - destruct (result =? EXCEEDS)%string; cbn [negb].
    + destruct (time_sleep w (tick s2) 60); simpl; posted_simpl; now rewrite Hquiet.
    + match goal with
      | |- context [Testnet.relist_nft w ?tid ?price ?c ?s] =>
          pose proof (relist_posts_testnet w tid price c s) as Hpost;
          destruct (Testnet.relist_nft w tid price c s) as [[relisted|e|] s3]
      end; cbn [fst snd tick trace] in *; rewrite posted_app in Hpost; simpl in Hpost;
        rewrite app_nil_r in Hpost.
      * destruct (time_sleep w _ 60); simpl; posted_simpl; now rewrite Hpost, Hquiet.
      * simpl. now rewrite Hpost, Hquiet.
      * simpl. now rewrite Hpost, Hquiet.
  - simpl. now rewrite Hquiet, app_nil_r.
  - simpl. now rewrite Hquiet, app_nil_r.
Qed.

Lemma cycle_idle_testnet (w : World) (fuel : nat) (st s1 : State Testnet.Row)
    (rows : list Testnet.Row) :
  Testnet.fetch_trending_nfts w fuel (started st) = (Val (Frame rows), s1) ->
  rows <> [] ->
  candidates rows = [] ->
  external (trace (Testnet.cycle w fuel st).2)
  = external (trace s1) ++ [EvSleep 60 (time_sleep w (tick s1) 60)].
Proof.
  intros Hfetch Hrows Hsel. unfold started in Hfetch. unfold Testnet.cycle.
  mstep. rewrite Hfetch. mstep.
  rewrite filter_by_traits_rows by exact Hrows.
  cbn [Testnet.calculate_profitability Testnet.positive_margin getitem df_rows]. mstep.
  cbn [Testnet.calculate_profitability Testnet.positive_margin getitem df_rows]. mstep.
  cbn [Testnet.positive_margin getitem df_rows]. mstep.
  fold DESIRED_TRAITS. rewrite selection_testnet.
  unfold candidates in Hsel. rewrite Hsel. cbn [fmap list_fmap]. mstep.
  destruct (time_sleep w (tick s1) 60); simpl; rewrite !external_app; simpl;
    now rewrite !app_nil_r.
Qed.

Lemma cycle_idle_troubleshoot (w : World) (fuel : nat) (st s1 : State Troubleshoot.Row)
    (rows : list Troubleshoot.Row) :
  Troubleshoot.fetch_trending_nfts w fuel (started st) = (Val (Frame rows), s1) ->
  List.filter (fun r => positive (Troubleshoot.floor_price r)) rows = [] ->
  external (trace (Troubleshoot.cycle w fuel st).2)
  = external (trace s1) ++ [EvSleep 60 (time_sleep w (tick s1) 60)].
Proof.
  intros Hfetch Hsel. unfold started in Hfetch. unfold Troubleshoot.cycle.
  mstep. rewrite Hfetch. mstep.
  destruct (df_empty (Frame rows)); cbn [negb]; mstep.
  - destruct (time_sleep w (tick s1) 60); simpl; rewrite !external_app; simpl;
      now rewrite !app_nil_r.
  - cbn [Troubleshoot.calculate_profitability Troubleshoot.positive_margin getitem df_rows].
    mstep.
    cbn [Troubleshoot.positive_margin getitem df_rows]. mstep.
    rewrite selection_troubleshoot, Hsel. cbn [fmap list_fmap]. mstep.
    destruct (time_sleep w (tick s1) 60); simpl; rewrite !external_app; simpl;
      now rewrite !app_nil_r.
Qed.

(** X10.  A cycle acts on one listing: the first one, in the order of the
    fetched frame, with a positive floor price (in testnet.py: among those
    with the trait Background = Gold).  It calls [execute_buy] with the token
    id and floor price of that listing, and posts a sell order exactly when
    [execute_buy] returns a string other than the rejection text of the
    spend guard: one order, for that listing's token and contract, at its
    floor price times 1.2, stamped with the clock read after the buy.  When
    the spend guard rejects, or [execute_buy] raises, nothing is posted; when
    no listing of a frame with rows qualifies there is neither buy nor
    relist, only the cooldown. *)
Theorem X10_one_candidate_per_cycle (w : World) :
  (forall fuel (st s1 : State Testnet.Row) rows top rest,
      Testnet.fetch_trending_nfts w fuel (started st) = (Val (Frame rows), s1) ->
      candidates rows = top :: rest ->
      let buy := Testnet.execute_buy w (Testnet.token_id top) (Testnet.floor_price top)
                   (logged_on s1
                      [Retrieved (length rows);
                       FoundWithTraits
                         (length (List.filter
                                    (fun r => Testnet.has_traits DESIRED_TRAITS
                                                (Testnet.traits r)) rows));
                       Identified (S (length rest))]) in
      let order := sell_order (Testnet.token_id top)
                     (fmul (Testnet.floor_price top) (Some (1 + PROFIT_THRESHOLD)%Qc))
                     (Testnet.contract_address top) (time_time w (tick buy.2)) in
      posted (trace (Testnet.cycle w fuel st).2)
      = posted (trace s1) ++
        match buy.1 with
        | Val result => if String.eqb result EXCEEDS then [] else [order]
        | _ => []
        end) /\
  (forall fuel (st s1 : State Testnet.Row) rows,
      Testnet.fetch_trending_nfts w fuel (started st) = (Val (Frame rows), s1) ->
      rows <> [] ->
      candidates rows = [] ->
      external (trace (Testnet.cycle w fuel st).2)
      = external (trace s1) ++ [EvSleep 60 (time_sleep w (tick s1) 60)]) /\
  (forall fuel (st s1 : State Troubleshoot.Row) rows top rest,
      Troubleshoot.fetch_trending_nfts w fuel (started st) = (Val (Frame rows), s1) ->
      List.filter (fun r => positive (Troubleshoot.floor_price r)) rows = top :: rest ->
      let buy := Troubleshoot.execute_buy w (Troubleshoot.token_id top)
                   (Troubleshoot.floor_price top)
                   (logged_on s1 [Retrieved (length rows); Identified (S (length rest))]) in
      let order := sell_order (Troubleshoot.token_id top)
                     (fmul (Troubleshoot.floor_price top) (Some (1 + PROFIT_THRESHOLD)%Qc))
                     (Troubleshoot.contract_address top) (time_time w (tick buy.2)) in
      posted (trace (Troubleshoot.cycle w fuel st).2)
      = posted (trace s1) ++
        match buy.1 with
        | Val result => if String.eqb result EXCEEDS then [] else [order]
        | _ => []
        end) /\
  (forall fuel (st s1 : State Troubleshoot.Row) rows,
      Troubleshoot.fetch_trending_nfts w fuel (started st) = (Val (Frame rows), s1) ->
      List.filter (fun r => positive (Troubleshoot.floor_price r)) rows = [] ->
      external (trace (Troubleshoot.cycle w fuel st).2)
      = external (trace s1) ++ [EvSleep 60 (time_sleep w (tick s1) 60)]).
Proof.
  split; [|split; [|split]].
  - intros. now apply cycle_posts_testnet.
  - intros. now apply cycle_idle_testnet with rows.
  - intros. now apply cycle_posts_troubleshoot.
  - intros. now apply cycle_idle_troubleshoot with rows.
Qed.

Lemma X10_witness :
  posted (trace (Testnet.cycle funded_later 3 init).2)
  = [sell_order "1" (fmul (wei_to_eth (Some (10 ^ 18))) (Some (1 + PROFIT_THRESHOLD)%Qc))
                "0xabc" 1700000000] /\
  posted (trace (Troubleshoot.cycle scenario_B 3 init).2) = [].
Proof.
  split.
  - rewrite (proj1 (X10_one_candidate_per_cycle funded_later) 3%nat init
               (Testnet.fetch_trending_nfts funded_later 3 (started init)).2
               [ape_row] ape_row []); vm_compute; reflexivity.
  - rewrite (proj1 (proj2 (proj2 (X10_one_candidate_per_cycle scenario_B))) 3%nat init
               (Troubleshoot.fetch_trending_nfts scenario_B 3 (started init)).2
               [ape_row'] ape_row' []); vm_compute; reflexivity.
Defined.

(** ** How the pages are requested *)

Lemma page_request_0 (params : gmap string Param) (o : Z) :
  params !! "offset" = Some (PInt o) -> page_request params o 0 = params.
Proof.
  intros Hoff. unfold page_request. simpl. rewrite Z.add_0_r. now apply insert_id.
Qed.

Lemma page_request_next (params : gmap string Param) (o : Z) (k : nat) :
  page_request (<["offset" := PInt (o + 50)]> params) (o + 50) k
  = page_request params o (S k).
Proof.
  unfold page_request. rewrite insert_insert_eq. do 2 f_equal. lia.
Qed.

Ltac offset_leaf Hoff :=
  intros [= <- <-]; rewrite <- ?app_assoc; eexists; split; [reflexivity|];
  simpl; split; [f_equal; symmetry; now apply page_request_0 | reflexivity].

(** The paging loop of testnet.py asks for page after page, 50 listings
    further each time, and sleeps between two requests. *)
Lemma offsets_testnet (w : World) (fuel : nat) :
  forall (params : gmap string Param) (acc : list Testnet.Row) (st : State Testnet.Row)
         r s' (o : Z),
    params !! "offset" = Some (PInt o) ->
    Testnet.fetch_pages w fuel params acc st = (r, s') ->
    exists evs,
      trace s' = trace st ++ evs /\
      requested evs = page_request params o <$> seq 0 (length (requested evs)) /\
      paced (paging evs) = true.
Proof.
  induction fuel as [|fuel IH]; intros params acc st r s' o Hoff Hrun.
  - injection Hrun as <- <-. exists []. split; [now rewrite app_nil_r|]. split; reflexivity.
  - simpl in Hrun. revert Hrun. mstep.
    destruct (requests_get w (tick st) Testnet.ASSETS_URL params) as [resp|e|];
      [|offset_leaf Hoff..].
    destruct (status_code resp =? 200); mstep; [|offset_leaf Hoff].
    unfold from_json.
    destruct (json resp) as [data|]; mstep; [|offset_leaf Hoff].
    destruct (json_assets data) as [assets|]; mstep; [|offset_leaf Hoff].
    destruct assets as [|a assets]; [offset_leaf Hoff|].
    destruct (mapM Testnet.row_of_asset (a :: assets)) as [rows|e|]; mstep;
      [|offset_leaf Hoff..].
    unfold Testnet.next_offset. rewrite Hoff. mstep.
    destruct (time_sleep w (S (tick st)) RATE_LIMIT_DELAY) as [[]|e|]; mstep;
      [|offset_leaf Hoff..].
    intros Hrun.
    apply (IH _ _ _ _ _ (o + 50)%Z) in Hrun as (evs & Htrace & Hreq & Hpaced);
      [|apply lookup_insert_eq].
    simpl in Htrace. rewrite <- !app_assoc in Htrace.
    eexists. split; [exact Htrace|]. simpl. split.
    + f_equal; [symmetry; now apply page_request_0|].
      rewrite Hreq at 1. rewrite <- fmap_S_seq, <- list_fmap_compose.
      apply list_fmap_ext. intros _ k _. apply page_request_next.
    + exact Hpaced.
Qed.

Lemma paging_app (tr1 tr2 : list Event) : paging (tr1 ++ tr2) = paging tr1 ++ paging tr2.
Proof. apply List.filter_app. Qed.

Lemma sleeps_app (tr1 tr2 : list Event) : sleeps (tr1 ++ tr2) = sleeps tr1 ++ sleeps tr2.
Proof. apply flat_map_app. Qed.

Lemma exchanges_app (tr1 tr2 : list Event) :
  exchanges (tr1 ++ tr2) = exchanges tr1 ++ exchanges tr2.
Proof. apply flat_map_app. Qed.

(** X11.  A fetch of testnet.py goes to the marketplace only after reading
    a balance of 0, and then asks for the pages in order: request number k
    has offset 50 k, and apart from the offset every request is the first
    one, with limit 50, price_min 0 and price_max 0.0; between two requests
    it sleeps [RATE_LIMIT_DELAY] seconds. *)
Theorem X11_offset_paging (w : World) (fuel : nat) (st : State Testnet.Row) :
  exists evs,
    trace (Testnet.fetch_trending_nfts w fuel st).2 = trace st ++ evs /\
    paced (paging evs) = true /\
    (requested evs = [] \/
     (eth_get_balance w (S (tick st)) = Val 0 /\
      requested evs
      = page_request (first_request (Some 0%Qc)) 0 <$> seq 0 (length (requested evs)))).
Proof.
  unfold Testnet.fetch_trending_nfts. mstep.
  destruct (cache_valid (CACHE st) (datetime_now w (tick st))) as [[df|]|e|]; mstep;
    try (rewrite <- ?app_assoc; eexists; split; [reflexivity|]; split;
         [reflexivity | left; reflexivity]).
  destruct (eth_get_balance w (S (tick st))) as [b|e|] eqn:Hbal; mstep;
    try (rewrite <- ?app_assoc; eexists; split; [reflexivity|]; split;
         [reflexivity | left; reflexivity]).
  unfold from_wei. destruct (Z.eqb_spec b 0) as [->|Hb]; cbn [mul_float]; mstep;
    try (rewrite <- ?app_assoc; eexists; split; [reflexivity|]; split;
         [reflexivity | left; reflexivity]).
  rewrite zero_limit.
  case_pair.
  match goal with H : Testnet.fetch_pages _ _ _ _ _ = _ |- _ =>
    apply (offsets_testnet _ _ _ _ _ _ _ 0%Z) in H as (evs & Htrace & Hreq & Hpaced);
      [|reflexivity]
  end.
  simpl in Htrace. rewrite <- !app_assoc in Htrace. fold (first_request (Some 0%Qc)) in Hreq.
  destruct r; mstep; rewrite Htrace, <- ?app_assoc; (eexists; split; [reflexivity|]);
    rewrite ?paging_app, ?requested_app; simpl; rewrite ?app_nil_r;
    (split; [exact Hpaced | right; split; [reflexivity | exact Hreq]]).
Qed.

Lemma chain_first (params : gmap string Param) (cursor : option string) :
  truthy cursor = true \/ (cursor = None /\ params !! "cursor" = None) ->
  let params1 := match cursor with
                 | Some c => if truthy cursor then <["cursor" := PStr c]> params else params
                 | None => params
                 end in
  params1 !! "cursor" = PStr <$> cursor /\
  delete "cursor" params1 = delete "cursor" params.
Proof.
  intros [Htruthy | [-> Hnone]]; simpl.
  - destruct cursor as [c|]; [|discriminate]. rewrite Htruthy. simpl.
    split; [apply lookup_insert_eq | apply delete_insert_eq].
  - split; [exact Hnone | reflexivity].
Qed.

Ltac chain_leaf Hfirst :=
  intros [= <- <-]; rewrite <- ?app_assoc; eexists; split; [reflexivity|];
  simpl; split; [destruct Hfirst; auto | reflexivity].

(** The paging loop of troubleshoot.py sends the same request each time,
    with the [next] token of the page before as cursor, and never sleeps. *)
Lemma cursors_troubleshoot (w : World) (fuel : nat) :
  forall (params : gmap string Param) (cursor : option string)
         (acc : list Troubleshoot.Row) (st : State Troubleshoot.Row) r s',
    truthy cursor = true \/ (cursor = None /\ params !! "cursor" = None) ->
    Troubleshoot.fetch_pages w fuel params cursor acc st = (r, s') ->
    exists evs,
      trace s' = trace st ++ evs /\
      cursor_chain (delete "cursor" params) cursor (exchanges evs) /\
      sleeps evs = [].
Proof.
  induction fuel as [|fuel IH]; intros params cursor acc st r s' Hcur Hrun.
  - injection Hrun as <- <-. exists []. split; [now rewrite app_nil_r|].
    split; [exact I | reflexivity].
  - simpl in Hrun. revert Hrun.
    pose proof (chain_first params cursor Hcur) as Hfirst. cbv zeta in Hfirst.
    set (params1 := match cursor with
                    | Some c => if truthy cursor then <["cursor" := PStr c]> params else params
                    | None => params
                    end) in *.
    mstep.
    destruct (requests_get w (tick st) Troubleshoot.ASSETS_URL params1) as [resp|e|];
      [|chain_leaf Hfirst..].
    destruct (status_code resp =? 200); mstep; [|chain_leaf Hfirst].
    unfold from_json.
    destruct (json resp) as [data|] eqn:Hjson; mstep; [|chain_leaf Hfirst].
    destruct (default [] (json_assets data)) as [|a assets]; [chain_leaf Hfirst|].
    destruct (mapM Troubleshoot.row_of_asset (a :: assets)) as [rows|e|]; mstep;
      [|chain_leaf Hfirst..].
    destruct (truthy (json_next data)) eqn:Hnext; [|chain_leaf Hfirst].
    intros Hrun. apply IH in Hrun as (evs & Htrace & Hchain & Hsleeps); [|now left].
    simpl in Htrace. rewrite <- !app_assoc in Htrace.
    eexists. split; [exact Htrace|]. simpl. destruct Hfirst as [Hlook Hbase].
    split; [|exact Hsleeps]. split; [exact Hlook|]. split; [exact Hbase|].
    rewrite Hbase in Hchain.
    destruct (exchanges evs); [exact I|]. rewrite Hjson. split; [exact Hnext | exact Hchain].
Qed.

(** X12.  A fetch of troubleshoot.py pages by cursor: its first listing
    request carries no cursor, every later one carries the [next] token of
    the page before it, and is only made when that token is present and not
    empty.  Apart from the cursor every request is the same: descending
    order and limit 50, with no price bound.  The fetch never sleeps between
    two requests. *)
Theorem X12_cursor_paging (w : World) (fuel : nat) (st : State Troubleshoot.Row) :
  exists evs,
    trace (Troubleshoot.fetch_trending_nfts w fuel st).2 = trace st ++ evs /\
    cursor_chain base_request None (exchanges evs) /\
    sleeps evs = [].
Proof.
  unfold Troubleshoot.fetch_trending_nfts. mstep.
  destruct (cache_valid (CACHE st) (datetime_now w (tick st))) as [[df|]|e|]; mstep;
    try (rewrite <- ?app_assoc; eexists; split; [reflexivity|]; split;
         [exact I | reflexivity]).
  unfold Troubleshoot.get_wallet_balance. mstep.
  destruct (eth_get_balance w (S (tick st))) as [b|e|] eqn:Hbal; mstep;
    try (rewrite <- ?app_assoc; eexists; split; [reflexivity|]; split;
         [exact I | reflexivity]).
  case_pair.
  match goal with H : Troubleshoot.fetch_pages _ _ _ _ _ _ = _ |- _ =>
    apply cursors_troubleshoot in H as (evs & Htrace & Hchain & Hsleeps);
      [|right; split; reflexivity]
  end.
  simpl in Htrace. rewrite <- !app_assoc in Htrace.
  rewrite delete_id in Hchain by reflexivity. fold base_request in Hchain.
  destruct r; mstep; rewrite Htrace, <- ?app_assoc; (eexists; split; [reflexivity|]);
    rewrite ?exchanges_app, ?sleeps_app; simpl; rewrite ?app_nil_r;
    (split; [exact Hchain | exact Hsleeps]).
Qed.

(** ** Converting a page *)






(** ** Traits *)

Lemma dict_of_pairs_snoc (kvs : list (string * string)) (k v : string) :
  dict_of_pairs (kvs ++ [(k, v)]) = <[k := v]> (dict_of_pairs kvs).
Proof. unfold dict_of_pairs. now rewrite foldl_app. Qed.

Lemma dict_of_pairs_lookup (kvs : list (string * string)) (k : string) :
  dict_of_pairs kvs !! k = last_value kvs k.
Proof.
  unfold last_value. induction kvs as [|[k' v'] kvs IH] using rev_ind; [reflexivity|].
  rewrite dict_of_pairs_snoc, List.filter_app. simpl.
  destruct (String.eqb_spec k' k) as [->|Hne].
  - rewrite lookup_insert_eq, last_snoc. reflexivity.
  - rewrite lookup_insert_ne by exact Hne. now rewrite app_nil_r.
Qed.

(** X14.  The trait mapping of a listing is built by a dict comprehension,
    so of several traits with the same type the last one counts: a lookup
    gives the value of the last pair with that type, and no value when the
    type does not occur.  A listing built from an asset therefore passes the
    filter of testnet.py exactly when the last Background trait of the asset
    is Gold. *)
Theorem X14_last_trait_wins :
  (forall (kvs : list (string * string)) (k : string),
      dict_of_pairs kvs !! k = last_value kvs k) /\
  (forall (kvs : list (string * string)) (k v : string),
      dict_of_pairs (kvs ++ [(k, v)]) !! k = Some v) /\
  (forall (a : Asset) (r : Testnet.Row),
      Testnet.row_of_asset a = Val r ->
      (Testnet.has_traits DESIRED_TRAITS (Testnet.traits r) = true <->
       last_value (asset_traits a) "Background" = Some "Gold")).
Proof.
  split; [|split].
  - apply dict_of_pairs_lookup.
  - intros kvs k v. rewrite dict_of_pairs_snoc. apply lookup_insert_eq.
  - intros a r Hrow.
    assert (Htraits : Testnet.traits r = dict_of_pairs (asset_traits a)).
    { unfold Testnet.row_of_asset in Hrow.
      destruct (current_price a); try discriminate.
      destruct (asset_name a); try discriminate.
      now injection Hrow as <-. }
    rewrite has_traits_spec, Htraits. unfold DESIRED_TRAITS.
    rewrite map_singleton_subseteq_l. now rewrite dict_of_pairs_lookup.
Qed.

Lemma X14_witness :
  exists r, Testnet.row_of_asset repainted_ape = Val r /\
            Testnet.has_traits DESIRED_TRAITS (Testnet.traits r) = false.
Proof.
  eexists. split; [reflexivity|].
  apply Bool.not_true_is_false. intros H.
  apply (proj2 (proj2 X14_last_trait_wins) repainted_ape _ eq_refl) in H.
  vm_compute in H. discriminate H.
Defined.

(** ** Filtering twice *)

Lemma filter_filter {A} (p q : A -> bool) (l : list A) :
  List.filter q (List.filter p l) = List.filter (fun x => p x && q x) l.
Proof.
  induction l as [|x l IH]; [reflexivity|]. cbn [List.filter].
  destruct (p x); cbn [List.filter andb]; [destruct (q x); now rewrite IH | exact IH].
Qed.

Lemma has_traits_union (d1 d2 traits : gmap string string) :
  compatible d1 d2 ->
  Testnet.has_traits (d1 ∪ d2) traits
  = Testnet.has_traits d1 traits && Testnet.has_traits d2 traits.
Proof.
  intros Hc. apply Bool.eq_iff_eq_true.
  rewrite Bool.andb_true_iff, !has_traits_spec, !map_subseteq_spec. split.
  - intros H. split; intros k v Hk; apply H.
    + now apply lookup_union_Some_l.
    + apply lookup_union_Some_raw. destruct (d1 !! k) as [v1|] eqn:H1; [|now right].
      left. f_equal. now apply (Hc k v1 v).
  - intros [H1 H2] k v Hk. apply lookup_union_Some_raw in Hk as [Hk | [_ Hk]]; auto.
Qed.

Lemma has_traits_conflict (d1 d2 traits : gmap string string) :
  ~ compatible d1 d2 ->
  Testnet.has_traits d1 traits && Testnet.has_traits d2 traits = false.
Proof.
  intros Hn. apply Bool.not_true_is_false. intros H. apply Hn.
  apply Bool.andb_true_iff in H as [H1 H2].
  rewrite has_traits_spec, map_subseteq_spec in H1, H2.
  intros k v1 v2 Hk1 Hk2. apply H1 in Hk1. apply H2 in Hk2. congruence.
Qed.

Lemma twice_filtered (rows : list Testnet.Row) (d1 d2 : gmap string string) :
  rows <> [] ->
  then_filter (Testnet.filter_by_traits (Frame rows) d1) d2
  = Val (match List.filter (fun r => Testnet.has_traits d1 (Testnet.traits r)) rows with
         | [] => NoColumns
         | kept => Frame (List.filter (fun r => Testnet.has_traits d2 (Testnet.traits r)) kept)
         end).
Proof.
  intros Hrows. rewrite filter_by_traits_rows by exact Hrows. unfold then_filter.
  destruct (List.filter (fun r => Testnet.has_traits d1 (Testnet.traits r)) rows);
    reflexivity.
Qed.

Lemma twice_filtered_rows (rows : list Testnet.Row) (d1 d2 : gmap string string) df :
  then_filter (Testnet.filter_by_traits (Frame rows) d1) d2 = Val df ->
  df_rows df
  = List.filter (fun r => Testnet.has_traits d1 (Testnet.traits r)
                          && Testnet.has_traits d2 (Testnet.traits r)) rows.
Proof.
  destruct rows as [|r0 rows]; [discriminate|].
  rewrite twice_filtered by discriminate. rewrite <- filter_filter.
  generalize (List.filter (fun r => Testnet.has_traits d1 (Testnet.traits r)) (r0 :: rows)).
  intros kept [= <-]. destruct kept; reflexivity.
Qed.

(** X15.  Filtering the result of [filter_by_traits] again, in testnet.py.
    On a frame with rows, the second filter keeps the rows that pass both;
    but when the first filter keeps nothing, the second returns a frame
    without columns.  So the two orders give the same rows, not always the
    same frame.  When the two requirements ask the same value wherever both
    ask one, the rows left are those of the filter for the merged
    requirement; when they ask different values for some trait, no row is
    left.  On a frame without rows, with or without columns, the second
    filter raises KeyError. *)
Theorem X15_filters_compose :
  (forall rows d1 d2,
      rows <> [] ->
      then_filter (Testnet.filter_by_traits (Frame rows) d1) d2
      = Val (match List.filter (fun r => Testnet.has_traits d1 (Testnet.traits r)) rows with
             | [] => NoColumns
             | kept =>
                 Frame (List.filter (fun r => Testnet.has_traits d2 (Testnet.traits r)) kept)
             end)) /\
  (forall rows d1 d2 df12 df21,
      then_filter (Testnet.filter_by_traits (Frame rows) d1) d2 = Val df12 ->
      then_filter (Testnet.filter_by_traits (Frame rows) d2) d1 = Val df21 ->
      df_rows df12 = df_rows df21) /\
  (forall rows d1 d2 df,
      compatible d1 d2 ->
      then_filter (Testnet.filter_by_traits (Frame rows) d1) d2 = Val df ->
      df_rows df
      = List.filter (fun r => Testnet.has_traits (d1 ∪ d2) (Testnet.traits r)) rows) /\
  (forall rows d1 d2 df,
      ~ compatible d1 d2 ->
      then_filter (Testnet.filter_by_traits (Frame rows) d1) d2 = Val df ->
      df_rows df = []) /\
  (forall d1 d2,
      then_filter (Testnet.filter_by_traits (Frame []) d1) d2 = Exc (KeyError "traits") /\
      then_filter (Testnet.filter_by_traits NoColumns d1) d2 = Exc (KeyError "traits")).
Proof.
  split; [|split; [|split; [|split]]].
  - intros rows d1 d2. apply twice_filtered.
  - intros rows d1 d2 df12 df21 H12 H21.
    rewrite (twice_filtered_rows _ _ _ _ H12), (twice_filtered_rows _ _ _ _ H21).
    apply filter_ext_bool. intros r. apply Bool.andb_comm.
  - intros rows d1 d2 df Hc Hrun. rewrite (twice_filtered_rows _ _ _ _ Hrun).
    apply filter_ext_bool. intros r. symmetry. now apply has_traits_union.
  - intros rows d1 d2 df Hn Hrun. rewrite (twice_filtered_rows _ _ _ _ Hrun).
    clear Hrun. induction rows as [|r rows IH]; [reflexivity|]. cbn [List.filter].
    rewrite has_traits_conflict by exact Hn. apply IH.
  - intros d1 d2. split; reflexivity.
Qed.

Lemma X15_witness :
  then_filter (Testnet.filter_by_traits (Frame [ape_row; laser_row])
                 {["Background" := "Blue"]}) {["Eyes" := "Laser"]}
  = Val NoColumns /\
  then_filter (Testnet.filter_by_traits (Frame [ape_row; laser_row])
                 {["Eyes" := "Laser"]}) {["Background" := "Blue"]}
  = Val (Frame []) /\
  (exists df,
      then_filter (Testnet.filter_by_traits (Frame [ape_row; laser_row])
                     {["Background" := "Gold"]}) {["Eyes" := "Laser"]} = Val df /\
      df_rows df
      = List.filter (fun r => Testnet.has_traits ({["Background" := "Gold"]}
                                                   ∪ {["Eyes" := "Laser"]})
                                (Testnet.traits r)) [ape_row; laser_row]).
Proof.
  split; [|split].
  - rewrite (proj1 X15_filters_compose) by discriminate. reflexivity.
  - rewrite (proj1 X15_filters_compose) by discriminate. reflexivity.
  - eexists. split; [reflexivity|].
    apply (proj1 (proj2 (proj2 X15_filters_compose)) _ {["Background" := "Gold"]}
             {["Eyes" := "Laser"]}); [|reflexivity].
    intros k v1 v2 H1 H2.
    apply lookup_singleton_Some in H1 as [<- <-].
    apply lookup_singleton_Some in H2 as [H2 _]. discriminate H2.
Defined.

(** ** The rhythm of the cycles *)

Lemma rhythm_app (a b : list Event) : rhythm (a ++ b) = rhythm a ++ rhythm b.
Proof. apply flat_map_app. Qed.

Section Rhythm.
Context {R : Type}.

Lemma unmarked_ret {A} (a : A) : unmarked (@ret R A a).
Proof. intros st. exists []. now rewrite app_nil_r. Qed.

Lemma unmarked_raise {A} (e : exn) : unmarked (@raise R A e).
Proof. intros st. exists []. now rewrite app_nil_r. Qed.

Lemma unmarked_diverge {A} : unmarked (@diverge R A).
Proof. intros st. exists []. now rewrite app_nil_r. Qed.

Lemma unmarked_lift {A} (r : Result A) : unmarked (@lift R A r).
Proof. intros st. exists []. now rewrite app_nil_r. Qed.

Lemma unmarked_get_cache : unmarked (@get_cache R).
Proof. intros st. exists []. now rewrite app_nil_r. Qed.

Lemma unmarked_set_cache (c : Cache R) : unmarked (set_cache c).
Proof. intros st. exists []. simpl. now rewrite app_nil_r. Qed.

Lemma unmarked_logging (level : Level) (msg : LogMsg) :
  beat (EvLog level msg) = [] -> unmarked (@logging R level msg).
Proof.
  intros H st. exists [EvLog level msg]. split; [reflexivity|].
  unfold rhythm. cbn [flat_map]. now rewrite H.
Qed.

Lemma unmarked_call {A} (oracle : nat -> Result A) (ev : Result A -> Event) :
  (forall r, beat (ev r) = []) -> unmarked (@call R A oracle ev).
Proof.
  intros H st. eexists [_]. split; [reflexivity|].
  unfold rhythm. cbn [flat_map]. now rewrite H.
Qed.

Lemma unmarked_clock (oracle : nat -> Z) (ev : Z -> Event) :
  (forall t, beat (ev t) = []) -> unmarked (@clock R oracle ev).
Proof.
  intros H st. eexists [_]. split; [reflexivity|].
  unfold rhythm. cbn [flat_map]. now rewrite H.
Qed.

Lemma unmarked_bind {A B} (m : M R A) (k : A -> M R B) :
  unmarked m -> (forall a, unmarked (k a)) -> unmarked (bind m k).
Proof.
  intros Hm Hk st. unfold bind. destruct (Hm st) as (tr & Htr & Hr).
  destruct (m st) as [[a|e|] s']; simpl in *; try (exists tr; now split).
  destruct (Hk a s') as (tr' & Htr' & Hr'). exists (tr ++ tr').
  rewrite Htr', Htr, rhythm_app, Hr, Hr', app_assoc. now split.
Qed.

Lemma unmarked_try_except {A} (m : M R A) (h : string -> M R A) :
  unmarked m -> (forall e, unmarked (h e)) -> unmarked (try_except m h).
Proof.
  intros Hm Hh st. unfold try_except. destruct (Hm st) as (tr & Htr & Hr).
  destruct (m st) as [[a|[msg| |c]|] s']; simpl in *; try (exists tr; now split).
  destruct (Hh msg s') as (tr' & Htr' & Hr'). exists (tr ++ tr').
  rewrite Htr', Htr, rhythm_app, Hr, Hr', app_assoc. now split.
Qed.

Lemma closes_bind {A B} (m : M R A) (k : A -> M R B) :
  unmarked m -> (forall a, closes_cycle (k a)) -> closes_cycle (bind m k).
Proof.
  intros Hm Hk st. unfold bind. destruct (Hm st) as (tr & Htr & Hr).
  destruct (m st) as [[a|e|] s']; simpl in *; try (exists tr; now split).
  destruct (Hk a s') as (tr' & Htr' & Hr'). exists (tr ++ tr').
  rewrite Htr', Htr, rhythm_app, Hr, Hr', app_assoc. now split.
Qed.

Lemma closes_wait (w : World) :
  closes_cycle (bind (@call R unit (fun n => time_sleep w n 60) (EvSleep 60))
                     (fun _ => ret tt)).
Proof.
  intros st. exists [EvSleep 60 (time_sleep w (tick st) 60)].
  unfold bind, call, ret. cbn [tick trace].
  destruct (time_sleep w (tick st) 60) as [[]|e|]; split; reflexivity.
Qed.
End Rhythm.

Ltac unmarked_by known :=
  repeat first
    [ known
    | progress cbv zeta
    | apply unmarked_ret | apply unmarked_raise | apply unmarked_diverge
    | apply unmarked_lift | apply unmarked_get_cache | apply unmarked_set_cache
    | apply unmarked_logging; reflexivity
    | apply unmarked_call; intros [?|?|]; reflexivity
    | apply unmarked_clock; intros; reflexivity
    | apply unmarked_bind; [|intros]
    | apply unmarked_try_except; [|intros]
    | match goal with
      | |- unmarked (if ?b then _ else _) => destruct b
      | |- unmarked (match ?x with _ => _ end) => destruct x
      end ].

Lemma pages_unmarked_testnet (w : World) (fuel : nat) :
  forall params nft_list, unmarked (Testnet.fetch_pages w fuel params nft_list).
Proof.
  induction fuel as [|fuel IH]; intros params nft_list; cbn [Testnet.fetch_pages].
  - apply unmarked_diverge.
  - unmarked_by ltac:(apply IH).
Qed.

Lemma pages_unmarked_troubleshoot (w : World) (fuel : nat) :
  forall params cursor nft_list,
    unmarked (Troubleshoot.fetch_pages w fuel params cursor nft_list).
Proof.
  induction fuel as [|fuel IH]; intros params cursor nft_list;
    cbn [Troubleshoot.fetch_pages].
  - apply unmarked_diverge.
  - unmarked_by ltac:(apply IH).
Qed.

Lemma fetch_unmarked_testnet (w : World) (fuel : nat) :
  unmarked (Testnet.fetch_trending_nfts w fuel).
Proof.
  unfold Testnet.fetch_trending_nfts, Testnet.get_wallet_balance.
  unmarked_by ltac:(apply pages_unmarked_testnet).
Qed.

Lemma fetch_unmarked_troubleshoot (w : World) (fuel : nat) :
  unmarked (Troubleshoot.fetch_trending_nfts w fuel).
Proof.
  unfold Troubleshoot.fetch_trending_nfts, Troubleshoot.get_wallet_balance.
  unmarked_by ltac:(apply pages_unmarked_troubleshoot).
Qed.

Lemma buy_unmarked_testnet (w : World) (tid : string) (price : float) :
  unmarked (Testnet.execute_buy w tid price).
Proof. unfold Testnet.execute_buy, Testnet.get_wallet_balance. unmarked_by fail. Qed.

Lemma buy_unmarked_troubleshoot (w : World) (tid : string) (price : float) :
  unmarked (Troubleshoot.execute_buy w tid price).
Proof.
  unfold Troubleshoot.execute_buy, Troubleshoot.get_wallet_balance. unmarked_by fail.
Qed.

Lemma relist_unmarked_testnet (w : World) (tid : string) (price : float) (c : string) :
  unmarked (Testnet.relist_nft w tid price c).
Proof. unfold Testnet.relist_nft. unmarked_by fail. Qed.

Lemma relist_unmarked_troubleshoot (w : World) (tid : string) (price : float)
    (c : string) :
  unmarked (Troubleshoot.relist_nft w tid price c).
Proof. unfold Troubleshoot.relist_nft. unmarked_by fail. Qed.

Ltac unmarked_calls :=
  unmarked_by ltac:(first [ apply fetch_unmarked_testnet
                          | apply fetch_unmarked_troubleshoot
                          | apply buy_unmarked_testnet
                          | apply buy_unmarked_troubleshoot
                          | apply relist_unmarked_testnet
                          | apply relist_unmarked_troubleshoot ]).

Ltac closes :=
  repeat (apply closes_bind; [solve [unmarked_calls] | intros]);
  apply closes_wait.

(** A cycle opens with its log line and closes, when it completes, with its
    60-second wait; it leaves no other mark. *)
Lemma cycle_rhythm_of {R} (body : M R unit) (st : State R) :
  closes_cycle body ->
  let run := bind (logging INFO StartingMonitoring) (fun _ => body) st in
  exists tr, trace run.2 = trace st ++ tr /\
             rhythm tr = true :: match run.1 with Val _ => [false] | _ => [] end.
Proof.
  intros Hbody run. subst run. unfold bind, logging, emit.
  destruct (Hbody (started st)) as (tr & Htr & Hr). unfold started in Htr, Hr.
  exists (EvLog INFO StartingMonitoring :: tr). split.
  - rewrite Htr. cbn [trace]. now rewrite <- app_assoc.
  - simpl. now rewrite <- Hr.
Qed.

Lemma cycle_rhythm_testnet (w : World) (fuel : nat) (st : State Testnet.Row) :
  let run := Testnet.cycle w fuel st in
  exists tr, trace run.2 = trace st ++ tr /\
             rhythm tr = true :: match run.1 with Val _ => [false] | _ => [] end.
Proof. unfold Testnet.cycle. apply cycle_rhythm_of. closes. Qed.

Lemma cycle_rhythm_troubleshoot (w : World) (fuel : nat) (st : State Troubleshoot.Row) :
  let run := Troubleshoot.cycle w fuel st in
  exists tr, trace run.2 = trace st ++ tr /\
             rhythm tr = true :: match run.1 with Val _ => [false] | _ => [] end.
Proof. unfold Troubleshoot.cycle. apply cycle_rhythm_of. closes. Qed.

(** The loop over the cycles, for a cycle with the rhythm above: it never
    returns, and its marks are those of [k] complete cycles, followed by an
    opened cycle unless all [cycles] were used. *)
Lemma loop_rhythm_of {R} (cycle : M R unit) (loop : nat -> M R unit) :
  (forall st, exists tr,
      trace (cycle st).2 = trace st ++ tr /\
      rhythm tr = true :: match (cycle st).1 with Val _ => [false] | _ => [] end) ->
  loop 0%nat = diverge ->
  (forall n, loop (S n) = bind cycle (fun _ => loop n)) ->
  forall cycles st,
    (loop cycles st).1 <> Val tt /\
    exists tr k,
      trace (loop cycles st).2 = trace st ++ tr /\
      (((k < cycles)%nat /\ rhythm tr = alternating k ++ [true]) \/
       (k = cycles /\ (loop cycles st).1 = Diverge /\ rhythm tr = alternating k)).
Proof.
  intros Hcycle H0 HS cycles. induction cycles as [|n IH]; intros st.
  - rewrite H0. split; [discriminate|]. exists [], 0%nat. rewrite app_nil_r.
    split; [reflexivity|]. right. now repeat split.
  - rewrite HS. unfold bind. destruct (Hcycle st) as (tr & Htr & Hr).
    destruct (cycle st) as [[[]|e|] s1]; simpl in Htr, Hr.
    + destruct (IH s1) as (Hval & tr' & k & Htr' & Hk). split; [exact Hval|].
      exists (tr ++ tr'), (S k). rewrite Htr', Htr, rhythm_app, Hr, app_assoc.
      split; [reflexivity|].
      destruct Hk as [(Hlt & Hr') | (-> & Hd & Hr')]; rewrite Hr'.
      * left. split; [lia | reflexivity].
      * right. now repeat split.
    + split; [discriminate|]. exists tr, 0%nat. split; [exact Htr|].
      left. split; [lia | exact Hr].
    + split; [discriminate|]. exists tr, 0%nat. split; [exact Htr|].
      left. split; [lia | exact Hr].
Qed.

Lemma in_step_testnet (w : World) (cycles fuel : nat) (st : State Testnet.Row) :
  in_step cycles st (Testnet.monitor_and_trade w cycles fuel st).
Proof.
  destruct (loop_rhythm_of (Testnet.cycle w fuel) (fun n => Testnet.loop w n fuel)
              (cycle_rhythm_testnet w fuel) eq_refl (fun n => eq_refl) cycles st)
    as (Hval & tr & k & Htr & Hk).
  unfold in_step, Testnet.monitor_and_trade, try_except_interrupt, logging, emit.
  destruct (Testnet.loop w cycles fuel st) as [[[]|[msg| |c]|] s1]; simpl in *;
    try (exists tr, k; repeat split; [exact Htr | exact Hk | discriminate]).
  - now contradict Hval.
  - exists (tr ++ [EvLog INFO StoppedByUser]), k.
    rewrite Htr, <- app_assoc, rhythm_app, app_nil_r.
    split; [reflexivity|]. split; [|now eexists].
    destruct Hk as [Hk | (_ & Hd & _)]; [now left | discriminate].
Qed.

Lemma in_step_troubleshoot (w : World) (cycles fuel : nat)
    (st : State Troubleshoot.Row) :
  in_step cycles st (Troubleshoot.monitor_and_trade w cycles fuel st).
Proof.
  destruct (loop_rhythm_of (Troubleshoot.cycle w fuel)
              (fun n => Troubleshoot.loop w n fuel)
              (cycle_rhythm_troubleshoot w fuel) eq_refl (fun n => eq_refl) cycles st)
    as (Hval & tr & k & Htr & Hk).
  unfold in_step, Troubleshoot.monitor_and_trade, try_except, try_except_interrupt,
    bind, raise, logging, emit.
  destruct (Troubleshoot.loop w cycles fuel st) as [[[]|[msg| |c]|] s1]; simpl in *;
    try (exists tr, k; repeat split; [exact Htr | exact Hk | discriminate]).
  - now contradict Hval.
  - exists (tr ++ [EvLog ERROR (UnexpectedError msg)]), k.
    rewrite Htr, <- app_assoc, rhythm_app, app_nil_r.
    split; [reflexivity|]. split; [|discriminate].
    destruct Hk as [Hk | (_ & Hd & _)]; [now left | discriminate].
  - exists (tr ++ [EvLog INFO StoppedByUser]), k.
    rewrite Htr, <- app_assoc, rhythm_app, app_nil_r.
    split; [reflexivity|]. split; [|now eexists].
    destruct Hk as [Hk | (_ & Hd & _)]; [now left | discriminate].
Qed.

(** X16.  [monitor_and_trade] keeps its cycles in step, in both scripts.
    What a run adds to the trace is a number of complete cycles, each one
    opened by the line "Starting trend monitoring..." and closed by a
    60-second wait that returned, followed by one cycle that was opened and
    not closed (unless the run is still looping after the cycles it was
    given).  So no cycle starts before the wait of the previous one has
    returned, and no 60-second wait returns anywhere else: not in the fetch,
    the purchase or the relist.  A run that returns has written "Bot stopped
    by user." as its last line. *)
Theorem X16_cycles_in_step (w : World) (cycles fuel : nat) :
  (forall st, in_step cycles st (Testnet.monitor_and_trade w cycles fuel st)) /\
  (forall st, in_step cycles st (Troubleshoot.monitor_and_trade w cycles fuel st)).
Proof.
  split; intros st; [apply in_step_testnet | apply in_step_troubleshoot].
Qed.

(** ** When the paging stops *)

Lemma ends_on_later (final : Response -> Prop) (w : World) (url : string)
    (pre evs : list Event) :
  ends_on final w url evs -> ends_on final w url (pre ++ evs).
Proof.
  intros (params & response & n & Hlast & Hget & Hfinal).
  exists params, response, n. split; [|now split].
  rewrite exchanges_app, last_app, Hlast. reflexivity.
Qed.

Ltac final_leaf :=
  intros [= <- <-]; rewrite <- ?app_assoc; eexists; split; [reflexivity|];
  eexists _, _, _; split; [reflexivity|]; split; [eassumption|].

Lemma last_page_testnet (w : World) (fuel : nat) :
  forall (params : gmap string Param) (acc : list Testnet.Row) (st : State Testnet.Row)
         rows s',
    Testnet.fetch_pages w fuel params acc st = (Val rows, s') ->
    exists evs,
      trace s' = trace st ++ evs /\
      ends_on final_page_testnet w Testnet.ASSETS_URL evs.
Proof.
  induction fuel as [|fuel IH]; intros params acc st rows s' Hrun; [discriminate|].
  simpl in Hrun. revert Hrun. mstep.
  destruct (requests_get w (tick st) Testnet.ASSETS_URL params) as [resp|e|] eqn:Hget;
    [|discriminate..].
  destruct (status_code resp =? 200) eqn:Hst; mstep.
  2: { final_leaf. left. now apply Z.eqb_neq. }
  unfold from_json.
  destruct (json resp) as [data|] eqn:Hjson; mstep; [|discriminate].
  destruct (json_assets data) as [assets|] eqn:Hassets; mstep; [|discriminate].
  destruct assets as [|a assets].
  { final_leaf. right. now exists data. }
  destruct (mapM Testnet.row_of_asset (a :: assets)) as [rows'|e|]; mstep;
    [|discriminate..].
  destruct (Testnet.next_offset params) as [params'|e|]; mstep; [|discriminate..].
  destruct (time_sleep w (S (tick st)) RATE_LIMIT_DELAY) as [[]|e|]; mstep;
    [|discriminate..].
  intros Hrun. apply IH in Hrun as (evs & Htrace & Hends).
  simpl in Htrace. rewrite <- !app_assoc in Htrace.
  eexists. split; [exact Htrace|]. now apply (ends_on_later _ _ _ [_; _]).
Qed.

Lemma last_page_troubleshoot (w : World) (fuel : nat) :
  forall (params : gmap string Param) (cursor : option string)
         (acc : list Troubleshoot.Row) (st : State Troubleshoot.Row) rows s',
    Troubleshoot.fetch_pages w fuel params cursor acc st = (Val rows, s') ->
    exists evs,
      trace s' = trace st ++ evs /\
      ends_on final_page_troubleshoot w Troubleshoot.ASSETS_URL evs.
Proof.
  induction fuel as [|fuel IH]; intros params cursor acc st rows s' Hrun; [discriminate|].
  simpl in Hrun. revert Hrun.
  set (params1 := match cursor with
                  | Some c => if truthy cursor then <["cursor" := PStr c]> params else params
                  | None => params
                  end).
  mstep.
  destruct (requests_get w (tick st) Troubleshoot.ASSETS_URL params1) as [resp|e|] eqn:Hget;
    [|discriminate..].
  destruct (status_code resp =? 200) eqn:Hst; mstep.
  2: { final_leaf. left. now apply Z.eqb_neq. }
  unfold from_json.
  destruct (json resp) as [data|] eqn:Hjson; mstep; [|discriminate].
  destruct (default [] (json_assets data)) as [|a assets] eqn:Hassets.
  { final_leaf. right. exists data. split; [exact Hjson | now left]. }
  destruct (mapM Troubleshoot.row_of_asset (a :: assets)) as [rows'|e|]; mstep;
    [|discriminate..].
  destruct (truthy (json_next data)) eqn:Hnext.
  2: { final_leaf. right. exists data. split; [exact Hjson | now right]. }
  intros Hrun. apply IH in Hrun as (evs & Htrace & Hends).
  simpl in Htrace. rewrite <- !app_assoc in Htrace.
  eexists. split; [exact Htrace|]. now apply (ends_on_later _ _ _ [_]).
Qed.

Lemma ends_on_around (final : Response -> Prop) (w : World) (url : string)
    (pre evs post : list Event) :
  exchanges post = [] ->
  ends_on final w url evs -> ends_on final w url (pre ++ evs ++ post).
Proof.
  intros Hpost (params & response & n & Hlast & Hget & Hfinal).
  exists params, response, n. split; [|now split].
  rewrite !exchanges_app, Hpost, app_nil_r, last_app, Hlast. reflexivity.
Qed.

Lemma fetch_stops_testnet (w : World) (fuel : nat) (st s' : State Testnet.Row) df :
  Testnet.fetch_trending_nfts w fuel st = (Val df, s') ->
  stops_on final_page_testnet w Testnet.ASSETS_URL st s' df.
Proof.
  unfold Testnet.fetch_trending_nfts. mstep.
  destruct (cache_valid (CACHE st) (datetime_now w (tick st))) as [[df0|]|e|] eqn:Hvalid;
    mstep; [| |discriminate..].
  - intros [= <- <-]. rewrite <- ?app_assoc. eexists. split; [reflexivity|].
    left. now split.
  - destruct (eth_get_balance w (S (tick st))) as [b|e|]; mstep; [|discriminate..].
    unfold from_wei. destruct (Z.eqb_spec b 0) as [->|Hb]; cbn [mul_float]; mstep;
      [|discriminate].
    case_pair.
    destruct r as [rows|e|]; mstep; [|discriminate..].
    intros [= <- <-].
    match goal with H : Testnet.fetch_pages _ _ _ _ _ = _ |- _ =>
      apply last_page_testnet in H as (evs & Htrace & Hends)
    end.
    simpl in Htrace. cbn [trace]. rewrite Htrace, <- !app_assoc.
    eexists. split; [reflexivity|]. right.
    apply (ends_on_around _ _ _ [_; _; _] evs [_]); [reflexivity | exact Hends].
Qed.

Lemma fetch_stops_troubleshoot (w : World) (fuel : nat)
    (st s' : State Troubleshoot.Row) df :
  Troubleshoot.fetch_trending_nfts w fuel st = (Val df, s') ->
  stops_on final_page_troubleshoot w Troubleshoot.ASSETS_URL st s' df.
Proof.
  unfold Troubleshoot.fetch_trending_nfts. mstep.
  destruct (cache_valid (CACHE st) (datetime_now w (tick st))) as [[df0|]|e|] eqn:Hvalid;
    mstep; [| |discriminate..].
  - intros [= <- <-]. rewrite <- ?app_assoc. eexists. split; [reflexivity|].
    left. now split.
  - destruct (eth_get_balance w (S (tick st))) as [b|e|]; mstep; [|discriminate..].
    case_pair.
    destruct r as [rows|e|]; mstep; [|discriminate..].
    intros [= <- <-].
    match goal with H : Troubleshoot.fetch_pages _ _ _ _ _ _ = _ |- _ =>
      apply last_page_troubleshoot in H as (evs & Htrace & Hends)
    end.
    simpl in Htrace. cbn [trace]. rewrite Htrace, <- !app_assoc.
    eexists. split; [reflexivity|]. right.
    apply (ends_on_around _ _ _ [_; _; _] evs [_]); [reflexivity | exact Hends].
Qed.

Lemma never_stops_of {R} (final : Response -> Prop) (w : World) (url : string)
    (fetch : M R (DataFrame R)) :
  (forall st s' df, fetch st = (Val df, s') -> stops_on final w url st s' df) ->
  (forall n params response, requests_get w n url params = Val response -> ~ final response) ->
  forall st df, trending_nfts (CACHE st) = None -> (fetch st).1 <> Val df.
Proof.
  intros Hstops Hmore st df Hempty Hval.
  destruct (fetch st) as [r s'] eqn:Hrun. simpl in Hval. subst r.
  apply Hstops in Hrun as (evs & _ & [[Hvalid _] | (p & resp & n & _ & Hget & Hfinal)]).
  - unfold cache_valid in Hvalid. rewrite Hempty in Hvalid. discriminate.
  - now apply (Hmore n p resp).
Qed.

(** X17.  When a fetch stops asking.  A fetch that returns a frame either
    was served it from a valid cache entry, without a listing request, or
    made its last listing request to get a final page: in testnet.py a
    status other than 200 or an empty list of assets; in troubleshoot.py
    also a page without a [next] token.  There is no other bound on the
    number of pages: from an empty cache, and with a marketplace that never
    answers with a final page, a fetch never returns a frame, however many
    requests it is given. *)
Theorem X17_paging_stops (w : World) :
  (forall fuel (st s' : State Testnet.Row) df,
      Testnet.fetch_trending_nfts w fuel st = (Val df, s') ->
      stops_on final_page_testnet w Testnet.ASSETS_URL st s' df) /\
  (forall fuel (st s' : State Troubleshoot.Row) df,
      Troubleshoot.fetch_trending_nfts w fuel st = (Val df, s') ->
      stops_on final_page_troubleshoot w Troubleshoot.ASSETS_URL st s' df) /\
  ((forall n params response,
       requests_get w n Testnet.ASSETS_URL params = Val response ->
       ~ final_page_testnet response) ->
   forall fuel (st : State Testnet.Row) df,
     trending_nfts (CACHE st) = None ->
     (Testnet.fetch_trending_nfts w fuel st).1 <> Val df) /\
  ((forall n params response,
       requests_get w n Troubleshoot.ASSETS_URL params = Val response ->
       ~ final_page_troubleshoot response) ->
   forall fuel (st : State Troubleshoot.Row) df,
     trending_nfts (CACHE st) = None ->
     (Troubleshoot.fetch_trending_nfts w fuel st).1 <> Val df).
Proof.
  split; [|split; [|split]].
  - intros fuel st s' df. apply fetch_stops_testnet.
  - intros fuel st s' df. apply fetch_stops_troubleshoot.
  - intros Hmore fuel. apply (never_stops_of final_page_testnet w Testnet.ASSETS_URL);
      [|exact Hmore].
    intros st s' df. apply fetch_stops_testnet.
  - intros Hmore fuel.
    apply (never_stops_of final_page_troubleshoot w Troubleshoot.ASSETS_URL);
      [|exact Hmore].
    intros st s' df. apply fetch_stops_troubleshoot.
Qed.

Lemma X17_witness :
  stops_on final_page_testnet funded_later Testnet.ASSETS_URL init
    (Testnet.fetch_trending_nfts funded_later 3 init).2 (Frame [ape_row]) /\
  (Troubleshoot.fetch_trending_nfts endless_listing 5 init).1 <> Val (Frame [ape_row']).
Proof.
  split.
  - apply (proj1 (X17_paging_stops funded_later) 3%nat). vm_compute. reflexivity.
  - apply (proj2 (proj2 (proj2 (X17_paging_stops endless_listing)))); [|reflexivity].
    intros n params response [= <-] [Hstatus | (data & [= <-] & [Hnone | Hnext])].
    + now apply Hstatus.
    + discriminate Hnone.
    + discriminate Hnext.
Defined.
